(** * SEO checker: page-type classification, schema recommendation and
      JSON-LD template filling

    A shallow embedding of three classes of the tool:

    - [PageTypeAnalyzer] (page-type-analyzer.js): the weighted keyword
      classifier;
    - [StructuredDataRecommender] (structured-data-recommender.js): the
      three-tier schema recommendation engine;
    - [SchemaTemplates] (schema-templates.js): the template catalog, the
      placeholder substitution and the cleanup pass.

    and of the parts of their callers that need no document:

    - [SEOChecker] (index.js): the full-width length, the component
      scores and the JSON-LD checks;
    - [OptimizedSEOChecker] (analysis/seo-checker/index.js): its
      full-width length;
    - [DetailedAnalyzer] (detailed-analyzer.js): the JSON-LD inventory,
      the found schemas and the implementation priorities.

    Conventions.  A JavaScript string is a [string] holding its UTF-8
    bytes; searching for a well-formed pattern in a well-formed text gives
    the same occurrences on bytes as on UTF-16 code units.  A JavaScript
    number is a rational [Q]: every score of the classifier is a multiple
    of 0.5 far below 2^53, so double arithmetic on it is exact.  An object
    used as a map is an association list in property (insertion) order.
    A thrown exception is the [Thrown] case of [outcome].  A text whose
    full-width length is taken is the list of its UTF-16 code units, which
    is what [charCodeAt] reads. *)

From Stdlib Require Import String Ascii List Bool Arith ZArith QArith Lqa Lia.
From Stdlib Require Import Permutation.
From Stdlib Require DecimalString.
Import ListNotations.
Open Scope string_scope.

(* ------------------------------------------------------------------ *)
(** * Host language: strings, exceptions, property maps *)

Module Js.
Local Open Scope nat_scope.

(** Result of running code that may throw. *)
Inductive outcome (A : Type) : Type :=
| Returned (a : A)
| Thrown (message : string).
Arguments Returned {A} a.
Arguments Thrown {A} message.

Definition bind {A B} (m : outcome A) (k : A -> outcome B) : outcome B :=
  match m with
  | Returned a => k a
  | Thrown e => Thrown e
  end.

(** [try { body } catch (e) { handler }] *)
Definition tryCatch {A} (body : outcome A) (handler : string -> A) : A :=
  match body with
  | Returned a => a
  | Thrown e => handler e
  end.

(** [text.startsWith(p)], the test at one position of a literal search. *)
Fixpoint startsWith (p text : string) : bool :=
  match p with
  | EmptyString => true
  | String a p' =>
      match text with
      | EmptyString => false
      | String b text' => Ascii.eqb a b && startsWith p' text'
      end
  end.

(** [text.includes(p)] *)
Fixpoint includes (text p : string) : bool :=
  startsWith p text ||
  match text with
  | EmptyString => false
  | String _ text' => includes text' p
  end.

(** Number of matches of a global regular expression whose source [p] is
    a non-empty literal: the scan goes left to right and resumes after the
    end of each match, so matches do not overlap.  [skip] counts the
    characters of the current match still to be passed. *)
Fixpoint countFrom (p : string) (skip : nat) (text : string) : nat :=
  match text with
  | EmptyString => 0
  | String _ text' =>
      match skip with
      | S k => countFrom p k text'
      | O =>
          if startsWith p text
          then S (countFrom p (String.length p - 1) text')
          else countFrom p 0 text'
      end
  end.

(** [(text.match(new RegExp(p, 'g')) || []).length] for a source [p]
    without regular-expression metacharacters.  The empty source matches
    at every position, the end included; no entry of the signature table
    is empty. *)
Definition matchCount (p text : string) : nat :=
  match p with
  | EmptyString => S (String.length text)
  | _ => countFrom p 0 text
  end.

(** The characters that are not literal in a regular-expression source. *)
Definition isRegExpSyntax (c : ascii) : bool :=
  existsb (Ascii.eqb c)
    ["\"; "^"; "$"; "."; "*"; "+"; "?"; "("; ")"; "["; "]"; "{"; "}"; "|"]%char.

Fixpoint isLiteralSource (p : string) : bool :=
  match p with
  | EmptyString => true
  | String c p' => negb (isRegExpSyntax c) && isLiteralSource p'
  end.

(** [toLowerCase] on Basic Latin letters; every other byte is kept.  It
    agrees with the built-in on texts whose cased letters are all Basic
    Latin, Japanese text included. *)
Definition lowerAscii (c : ascii) : ascii :=
  let n := nat_of_ascii c in
  if (65 <=? n) && (n <=? 90) then ascii_of_nat (n + 32) else c.

Fixpoint toLowerCaseLatin (s : string) : string :=
  match s with
  | EmptyString => EmptyString
  | String c s' => String (lowerAscii c) (toLowerCaseLatin s')
  end.

(** ** Objects used as maps: association lists in property order *)
Section PropertyMap.
Context {K V : Type}.
Variable keyEqb : K -> K -> bool.

(** [obj[k]]; [None] is [undefined]. *)
Fixpoint get (obj : list (K * V)) (k : K) : option V :=
  match obj with
  | [] => None
  | (k', v) :: rest => if keyEqb k k' then Some v else get rest k
  end.

(** [obj[k] = v]: an existing property keeps its position, a new one is
    added last. *)
Fixpoint set (obj : list (K * V)) (k : K) (v : V) : list (K * V) :=
  match obj with
  | [] => [(k, v)]
  | (k', v') :: rest =>
      if keyEqb k k' then (k', v) :: rest else (k', v') :: set rest k v
  end.

Definition keys (obj : list (K * V)) : list K := map fst obj.
End PropertyMap.

End Js.

(* ------------------------------------------------------------------ *)
(** * PageTypeAnalyzer (page-type-analyzer.js) *)

Module PageTypeAnalyzer.
Import Js.
Local Open Scope Q_scope.

(** The keys of [this.patterns]. *)
Inductive PageType : Type :=
| Article | Product | LocalBusiness | Recipe | Event
| FAQ | HowTo | Review | JobPosting | Course.

Definition PageType_eqb (a b : PageType) : bool :=
  match a, b with
  | Article, Article | Product, Product | LocalBusiness, LocalBusiness
  | Recipe, Recipe | Event, Event | FAQ, FAQ | HowTo, HowTo
  | Review, Review | JobPosting, JobPosting | Course, Course => true
  | _, _ => false
  end.

(** [Object.keys(this.patterns)]: declaration order. *)
Definition patternKeys : list PageType :=
  [Article; Product; LocalBusiness; Recipe; Event;
   FAQ; HowTo; Review; JobPosting; Course].

Record PageSignature : Type := {
  keywords : list string;
  urlPatterns : list string;
  titlePatterns : list string;
  contentPatterns : list string
}.

Definition patterns (type : PageType) : PageSignature :=
  match type with
  | Article => {|
      keywords := ["記事"; "ブログ"; "ニュース"; "投稿"; "コラム"; "レポート"; "解説"];
      urlPatterns := ["/blog/"; "/news/"; "/article/"; "/post/"; "/column/"];
      titlePatterns := ["～について"; "～とは"; "～を解説"; "～のまとめ"];
      contentPatterns := ["公開日"; "更新日"; "執筆者"; "著者"; "シェア"; "いいね"] |}
  | Product => {|
      keywords := ["商品"; "製品"; "価格"; "購入"; "在庫"; "レビュー"; "評価"; "カート"; "送料"];
      urlPatterns := ["/product/"; "/item/"; "/goods/"; "/shop/"; "/store/"];
      titlePatterns := ["～を購入"; "～の価格"; "～のレビュー"; "価格："; "￥"];
      contentPatterns := ["価格"; "在庫"; "カートに入れる"; "購入する"; "送料"; "配送"; "保証"] |}
  | LocalBusiness => {|
      keywords := ["店舗"; "営業時間"; "住所"; "電話番号"; "アクセス"; "地図"; "駐車場"; "予約"];
      urlPatterns := ["/company/"; "/about/"; "/contact/"; "/access/"; "/shop/"];
      titlePatterns := ["会社概要"; "店舗情報"; "アクセス"; "営業時間"; "～店"];
      contentPatterns := ["営業時間"; "定休日"; "住所"; "電話"; "TEL"; "地図"; "アクセス"] |}
  | Recipe => {|
      keywords := ["レシピ"; "料理"; "材料"; "作り方"; "調理"; "手順"; "分量"; "調理時間"];
      urlPatterns := ["/recipe/"; "/cooking/"; "/food/"];
      titlePatterns := ["～のレシピ"; "～の作り方"; "簡単"; "手作り"];
      contentPatterns := ["材料"; "分量"; "手順"; "調理時間"; "人前"; "カロリー"; "栄養"] |}
  | Event => {|
      keywords := ["イベント"; "開催"; "日時"; "場所"; "参加"; "チケット"; "予約"; "会場"];
      urlPatterns := ["/event/"; "/seminar/"; "/conference/"; "/workshop/"];
      titlePatterns := ["開催のお知らせ"; "イベント情報"; "セミナー"; "講座"];
      contentPatterns := ["開催日"; "開催時間"; "会場"; "参加費"; "定員"; "お申込み"] |}
  | FAQ => {|
      keywords := ["よくある質問"; "FAQ"; "Q&A"; "質問"; "回答"; "ヘルプ"; "サポート"];
      urlPatterns := ["/faq/"; "/help/"; "/support/"; "/qa/"];
      titlePatterns := ["よくある質問"; "FAQ"; "Q&A"; "ヘルプ"];
      contentPatterns := ["Q:"; "A:"; "質問："; "回答："; "よくある質問"] |}
  | HowTo => {|
      keywords := ["方法"; "やり方"; "手順"; "ステップ"; "ガイド"; "チュートリアル"; "使い方"];
      urlPatterns := ["/howto/"; "/guide/"; "/tutorial/"; "/manual/"];
      titlePatterns := ["～の方法"; "～のやり方"; "～ガイド"; "ステップ"; "手順"];
      contentPatterns := ["ステップ"; "手順"; "方法"; "STEP"; "まず"; "次に"; "最後に"] |}
  | Review => {|
      keywords := ["レビュー"; "評価"; "口コミ"; "感想"; "体験談"; "評判"; "星"];
      urlPatterns := ["/review/"; "/rating/"; "/evaluation/"];
      titlePatterns := ["レビュー"; "評価"; "口コミ"; "体験談"; "～を試してみた"];
      contentPatterns := ["評価"; "★"; "☆"; "星"; "点数"; "おすすめ"; "メリット"; "デメリット"] |}
  | JobPosting => {|
      keywords := ["求人"; "採用"; "募集"; "仕事"; "転職"; "就職"; "給与"; "勤務地"];
      urlPatterns := ["/job/"; "/career/"; "/recruit/"; "/hiring/"];
      titlePatterns := ["求人情報"; "採用情報"; "募集要項"; "正社員"; "アルバイト"];
      contentPatterns := ["募集要項"; "給与"; "勤務地"; "勤務時間"; "応募資格"; "福利厚生"] |}
  | Course => {|
      keywords := ["講座"; "コース"; "授業"; "学習"; "教育"; "スクール"; "研修"; "カリキュラム"];
      urlPatterns := ["/course/"; "/class/"; "/training/"; "/education/"];
      titlePatterns := ["講座"; "コース"; "研修"; "スクール"; "～を学ぶ"];
      contentPatterns := ["カリキュラム"; "学習内容"; "期間"; "受講料"; "講師"; "資格"] |}
  end.

(** [this.weights] *)
Record Weights : Type := {
  w_title : Q; w_meta : Q; w_headings : Q; w_url : Q; w_content : Q
}.

Definition weights : Weights := {|
  w_title := 3; w_meta := 5 # 2; w_headings := 2; w_url := 2; w_content := 1
|}.

Record SpecialElements : Type := {
  price : bool; review : bool; event : bool; recipe : bool;
  faq : bool; job : bool; course : bool
}.

(** What [extractPageData] returns. *)
Record ExtractedPageData : Type := {
  title : string;
  metaDescription : string;
  headings : list string;
  url : string;
  bodyText : string;
  contentLength : nat;
  specialElements : SpecialElements
}.

Record MatchedPatterns : Type := {
  m_keywords : list string;
  m_titlePatterns : list string;
  m_urlPatterns : list string;
  m_contentPatterns : list string
}.

(** The score object: one property per page type. *)
Definition Scores : Type := list (PageType * Q).

Record ClassificationResult : Type := {
  primaryType : option PageType;  (* [None] is [undefined] *)
  secondaryTypes : list PageType;
  confidence : Q;
  allScores : Scores;
  matchedPatterns : option MatchedPatterns  (* [None]: no pattern list *)
}.

(** A count as a JavaScript number. *)
Definition num (n : nat) : Q := inject_Z (Z.of_nat n).

(** [x || 0] on a number or [undefined]. *)
Definition orZero (x : option Q) : Q :=
  match x with
  | Some q => if Qeq_bool q 0 then 0 else q
  | None => 0
  end.

(** [!text] on a string. *)
Definition isEmpty (text : string) : bool :=
  match text with EmptyString => true | _ => false end.

Section Classifier.
(** [String.prototype.toLowerCase], a built-in of the host. *)
Variable toLowerCase : string -> string.

Definition countMatches (text : string) (keywords : list string) : nat :=
  if isEmpty text then 0%nat
  else
    let lowerText := toLowerCase text in
    fold_left
      (fun count keyword =>
         (count + matchCount (toLowerCase keyword) lowerText)%nat)
      keywords 0%nat.

Definition countPatternMatches (text : string) (patterns : list string) : nat :=
  if isEmpty text then 0%nat
  else
    fold_left
      (fun count pattern =>
         if includes text pattern then (count + 1)%nat else count)
      patterns 0%nat.

Definition calculateSingleTypeScore (type : PageType)
    (pageData : ExtractedPageData) : Q :=
  let pattern := patterns type in
  let score := 0 in
  let score := score + num (countMatches (title pageData) (keywords pattern)) * w_title weights in
  let score := score + num (countPatternMatches (title pageData) (titlePatterns pattern)) * w_title weights in
  let score := score + num (countMatches (metaDescription pageData) (keywords pattern)) * w_meta weights in
  let headingsText := String.concat " " (headings pageData) in
  let score := score + num (countMatches headingsText (keywords pattern)) * w_headings weights in
  let score := score + num (countPatternMatches (url pageData) (urlPatterns pattern)) * w_url weights in
  let score := score + num (countMatches (bodyText pageData) (keywords pattern)) * w_content weights in
  let score := score + num (countMatches (bodyText pageData) (contentPatterns pattern)) * w_content weights in
  score.

Definition applySpecialElementBonus (scores : Scores)
    (specialElements : SpecialElements) : Scores :=
  let bump scores type amount :=
    set PageType_eqb scores type (orZero (get PageType_eqb scores type) + amount) in
  let scores := if price specialElements then bump scores Product 10 else scores in
  let scores :=
    if review specialElements
    then bump (bump scores Review 8) Product 5
    else scores in
  let scores := if event specialElements then bump scores Event 12 else scores in
  let scores := if recipe specialElements then bump scores Recipe 15 else scores in
  let scores := if faq specialElements then bump scores FAQ 15 else scores in
  let scores := if job specialElements then bump scores JobPosting 12 else scores in
  let scores := if course specialElements then bump scores Course 10 else scores in
  scores.

Definition calculateTypeScores (pageData : ExtractedPageData) : Scores :=
  let scores :=
    fold_left
      (fun scores type =>
         set PageType_eqb scores type (calculateSingleTypeScore type pageData))
      patternKeys [] in
  applySpecialElementBonus scores (specialElements pageData).

(** The comparator [([,a], [,b]) => b - a] asks for [b] before [a]
    exactly when its value is positive. *)
Definition comesAfter (a b : PageType * Q) : bool :=
  negb (Qle_bool (snd b - snd a) 0).

(** [Array.prototype.sort] is stable; with a consistent comparator its
    result is the one of any stable sort.  Insertion from the right end
    keeps equal entries in their original order. *)
Fixpoint insertEntry (x : PageType * Q) (sorted : list (PageType * Q)) :=
  match sorted with
  | [] => [x]
  | y :: rest =>
      if comesAfter x y then y :: insertEntry x rest else x :: y :: rest
  end.

Definition sortEntries (entries : list (PageType * Q)) : list (PageType * Q) :=
  fold_right insertEntry [] entries.

Definition getTopTypes (scores : Scores) : list PageType :=
  firstn 5 (map fst (sortEntries scores)).

Definition getMatchedPatterns (pageData : ExtractedPageData)
    (type : option PageType) : option MatchedPatterns :=
  match type with
  | None => None
  | Some type =>
      let pattern := patterns type in
      Some {|
        m_keywords :=
          filter
            (fun keyword =>
               includes (toLowerCase (title pageData)) (toLowerCase keyword)
               || includes (toLowerCase (bodyText pageData)) (toLowerCase keyword))
            (keywords pattern);
        m_titlePatterns :=
          filter (includes (title pageData)) (titlePatterns pattern);
        m_urlPatterns :=
          filter (includes (url pageData)) (urlPatterns pattern);
        m_contentPatterns :=
          filter (includes (bodyText pageData)) (contentPatterns pattern)
      |}
  end.

(** The document handle and [extractPageData] belong to the DOM library;
    the extraction either returns the page data or throws. *)
Variable Document : Type.
Variable extractPageData : Document -> string -> outcome ExtractedPageData.

Definition analyzePage (doc : Document) (url : string) : ClassificationResult :=
  tryCatch
    (bind (extractPageData doc url) (fun pageData =>
       let typeScores := calculateTypeScores pageData in
       let detectedTypes := getTopTypes typeScores in
       let primary := nth_error detectedTypes 0 in
       Returned {|
         primaryType := primary;
         secondaryTypes := firstn 2 (skipn 1 detectedTypes);
         confidence :=
           orZero (match primary with
                   | Some type => get PageType_eqb typeScores type
                   | None => None
                   end);
         allScores := typeScores;
         matchedPatterns := getMatchedPatterns pageData primary
       |}))
    (fun _ => {|
       primaryType := Some Article;
       secondaryTypes := [];
       confidence := 0;
       allScores := [];
       matchedPatterns := None
     |}).
End Classifier.

End PageTypeAnalyzer.

(* ------------------------------------------------------------------ *)
(** * JSON values *)

Module Json.
Import Js.

(** A value as [JSON.parse] builds it.  An object lists its properties in
    property order. *)
#[warnings="-register-all"]
Inductive value : Type :=
| JNull
| JBool (b : bool)
| JNumber (n : Q)
| JString (s : string)
| JArray (items : list value)
| JObject (props : list (string * value)).

(** [Boolean(v)] *)
Definition truthy (v : value) : bool :=
  match v with
  | JNull => false
  | JBool b => b
  | JNumber n => negb (Qeq_bool n 0)
  | JString s => negb (String.eqb s "")
  | JArray _ | JObject _ => true
  end.

(** [v[name]] on a value that is not [null], for a name that is neither
    an index nor [length]: only an object has such a property of its own.
    [None] is [undefined]. *)
Definition prop (v : value) (name : string) : option value :=
  match v with
  | JObject props => get String.eqb props name
  | _ => None
  end.

(** [v.name]: reading a property of [null] throws. *)
Definition member (v : value) (name : string) : outcome (option value) :=
  match v with
  | JNull => Thrown "TypeError: Cannot read properties of null"
  | _ => Returned (prop v name)
  end.

(** [v?.[name]] on a value or [undefined]. *)
Definition optionalMember (v : option value) (name : string) : option value :=
  match v with
  | None | Some JNull => None
  | Some v => prop v name
  end.

End Json.

(* ------------------------------------------------------------------ *)
(** * StructuredDataRecommender (structured-data-recommender.js) *)

Module StructuredDataRecommender.
Import Js Json.

(** One entry of [this.recommendations]. *)
Record Recommendation : Type := {
  primary : list string;
  secondary : list string;
  optional : list string
}.

Definition recommendations : list (string * Recommendation) := [
  ("Article", {|
     primary := ["Article"; "NewsArticle"; "BlogPosting"];
     secondary := ["Organization"; "Person"; "BreadcrumbList"];
     optional := ["Comment"; "Rating"; "Review"] |});
  ("Product", {|
     primary := ["Product"];
     secondary := ["Organization"; "Offer"; "Review"];
     optional := ["AggregateRating"; "Brand"; "BreadcrumbList"] |});
  ("LocalBusiness", {|
     primary := ["LocalBusiness"];
     secondary := ["Organization"; "PostalAddress"; "ContactPoint"];
     optional := ["OpeningHoursSpecification"; "GeoCoordinates"; "Review"] |});
  ("Recipe", {|
     primary := ["Recipe"];
     secondary := ["Person"; "Organization"; "NutritionInformation"];
     optional := ["AggregateRating"; "Review"; "Video"] |});
  ("Event", {|
     primary := ["Event"];
     secondary := ["Place"; "Organization"; "Offer"];
     optional := ["Person"; "PostalAddress"; "VirtualLocation"] |});
  ("FAQ", {|
     primary := ["FAQPage"];
     secondary := ["Question"; "Answer"];
     optional := ["Organization"; "BreadcrumbList"] |});
  ("HowTo", {|
     primary := ["HowTo"];
     secondary := ["HowToStep"; "HowToSupply"; "HowToTool"];
     optional := ["Person"; "Organization"; "Video"] |});
  ("Review", {|
     primary := ["Review"];
     secondary := ["Product"; "Organization"; "Rating"];
     optional := ["Person"; "AggregateRating"; "CreativeWork"] |});
  ("JobPosting", {|
     primary := ["JobPosting"];
     secondary := ["Organization"; "Place"];
     optional := ["PostalAddress"; "MonetaryAmount"; "EducationalOccupationalCredential"] |});
  ("Course", {|
     primary := ["Course"; "EducationEvent"];
     secondary := ["Organization"; "Person"; "Place"];
     optional := ["AggregateRating"; "Review"; "Offer"] |})
].

(** The name a page type has as a key of the tables. *)
Definition typeName (type : PageTypeAnalyzer.PageType) : string :=
  match type with
  | PageTypeAnalyzer.Article => "Article"
  | PageTypeAnalyzer.Product => "Product"
  | PageTypeAnalyzer.LocalBusiness => "LocalBusiness"
  | PageTypeAnalyzer.Recipe => "Recipe"
  | PageTypeAnalyzer.Event => "Event"
  | PageTypeAnalyzer.FAQ => "FAQ"
  | PageTypeAnalyzer.HowTo => "HowTo"
  | PageTypeAnalyzer.Review => "Review"
  | PageTypeAnalyzer.JobPosting => "JobPosting"
  | PageTypeAnalyzer.Course => "Course"
  end.

(** Names every object inherits from [Object.prototype]: looking one up
    in a table gives a truthy value that has none of the tier fields. *)
Definition inheritedNames : list string :=
  ["constructor"; "hasOwnProperty"; "isPrototypeOf"; "propertyIsEnumerable";
   "toLocaleString"; "toString"; "valueOf"; "__proto__";
   "__defineGetter__"; "__defineSetter__"; "__lookupGetter__"; "__lookupSetter__"].

Definition articleRecommendation : Recommendation :=
  match get String.eqb recommendations "Article" with
  | Some r => r
  | None => {| primary := []; secondary := []; optional := [] |}
  end.

Definition getBaseRecommendations (pageType : string) : Recommendation :=
  match get String.eqb recommendations pageType with
  | Some recommendation => recommendation
  | None =>
      if existsb (String.eqb pageType) inheritedNames
      then {| primary := []; secondary := []; optional := [] |}
      else articleRecommendation
  end.

(** The inventory of structured data found on the page.  [jsonLd] is
    [None] when the property is absent. *)
Record ExistingSchemas : Type := {
  jsonLd : option (list value);
  microdata : list value;
  rdfa : list value
}.

(** What the arrow function of [findMissingSchemas] returns for one entry
    of [jsonLd]. *)
Definition entryType (schema : value) : outcome (option value) :=
  bind (member schema "data") (fun data =>
    match optionalMember data "@type" with
    | Some (JArray items) => Returned (nth_error items 0)
    | other => Returned other
    end).

Fixpoint mapEntries (entries : list value) : outcome (list (option value)) :=
  match entries with
  | [] => Returned []
  | schema :: rest =>
      bind (entryType schema) (fun t =>
        bind (mapEntries rest) (fun ts => Returned (t :: ts)))
  end.

(** [.filter(Boolean)] *)
Fixpoint filterBoolean (xs : list (option value)) : list value :=
  match xs with
  | [] => []
  | Some v :: rest => if truthy v then v :: filterBoolean rest else filterBoolean rest
  | None :: rest => filterBoolean rest
  end.

(** The members of the [Set] named [existing]. *)
Definition existingTypes (existingSchemas : ExistingSchemas) : outcome (list value) :=
  match jsonLd existingSchemas with
  | None => Returned []
  | Some entries => bind (mapEntries entries) (fun ts => Returned (filterBoolean ts))
  end.

(** [existing.has(schema)] for a string [schema]. *)
Definition has (existing : list value) (schema : string) : bool :=
  existsb
    (fun v => match v with JString s => String.eqb s schema | _ => false end)
    existing.

Definition findMissingSchemas (recommendations : Recommendation)
    (existingSchemas : ExistingSchemas) : outcome Recommendation :=
  bind (existingTypes existingSchemas) (fun existing =>
    Returned {|
      primary := filter (fun schema => negb (has existing schema)) (primary recommendations);
      secondary := filter (fun schema => negb (has existing schema)) (secondary recommendations);
      optional := filter (fun schema => negb (has existing schema)) (optional recommendations)
    |}).

(** [table[key] || default], for a key that is not a name every object
    inherits; the keys looked up are the schema names of the tiers. *)
Definition lookupOr {V} (table : list (string * V)) (key : string) (default : V) : V :=
  match get String.eqb table key with
  | Some v => v
  | None => default
  end.

Definition getSchemaDescription (schema : string) : string :=
  lookupOr
    [("Article", "ニュース記事やブログ投稿"); ("Product", "商品情報");
     ("LocalBusiness", "店舗・事業所情報"); ("Recipe", "レシピ情報");
     ("Event", "イベント情報"); ("FAQPage", "よくある質問ページ");
     ("HowTo", "ハウツー・手順説明"); ("Review", "レビュー・評価情報");
     ("JobPosting", "求人情報"); ("Course", "講座・コース情報")]
    schema "コンテンツ".

Definition getSchemaValue (schema : string) : string :=
  lookupOr
    [("Organization", "サイトの信頼性が向上します");
     ("Person", "著者情報が明確になります");
     ("BreadcrumbList", "ナビゲーション情報が改善されます");
     ("Rating", "評価情報が表示されます");
     ("AggregateRating", "平均評価が表示されます");
     ("Offer", "価格・購入情報が表示されます")]
    schema "SEO効果が期待できます".

Definition getSchemaOptionalValue (schema : string) : string :=
  lookupOr
    [("Comment", "コメント情報を構造化できます");
     ("Video", "動画コンテンツが認識されます");
     ("Brand", "ブランド情報が明確になります");
     ("ContactPoint", "連絡先情報が整理されます")]
    schema "付加価値を提供します".

Definition getSchemaDifficulty (schema : string) : string :=
  lookupOr
    [("Article", "easy"); ("Product", "medium"); ("LocalBusiness", "medium");
     ("Recipe", "hard"); ("Event", "medium"); ("FAQPage", "easy");
     ("HowTo", "hard"); ("Review", "easy"); ("JobPosting", "medium");
     ("Course", "medium")]
    schema "medium".

Definition getSEOValue (schema : string) : Z :=
  lookupOr
    [("Article", 85); ("Product", 90); ("LocalBusiness", 88); ("Recipe", 92);
     ("Event", 85); ("FAQPage", 80); ("HowTo", 87); ("Review", 83);
     ("JobPosting", 85); ("Course", 82)]%Z
    schema 75%Z.

(** An item of a recommendation list.  The item of the default answer has
    neither [difficulty] nor [seoValue]. *)
Record RecommendationItem : Type := {
  schema : string;
  priority : string;
  reason : string;
  impact : string;
  difficulty : option string;
  seoValue : option Z
}.

Record PrioritizedList : Type := {
  missing : list RecommendationItem;
  improvements : list RecommendationItem;
  optionalItems : list RecommendationItem  (* the property [optional] *)
}.

Definition prioritizeRecommendations (missingSchemas : Recommendation) : PrioritizedList := {|
  missing :=
    map (fun schema => {|
           schema := schema;
           priority := "critical";
           reason := schema ++ "は" ++ getSchemaDescription schema ++ "として必須です";
           impact := "high";
           difficulty := Some (getSchemaDifficulty schema);
           seoValue := Some (getSEOValue schema) |})
        (primary missingSchemas);
  improvements :=
    map (fun schema => {|
           schema := schema;
           priority := "high";
           reason := schema ++ "を追加することで" ++ getSchemaValue schema;
           impact := "medium";
           difficulty := Some (getSchemaDifficulty schema);
           seoValue := Some (getSEOValue schema) |})
        (secondary missingSchemas);
  optionalItems :=
    map (fun schema => {|
           schema := schema;
           priority := "low";
           reason := schema ++ "は" ++ getSchemaOptionalValue schema;
           impact := "low";
           difficulty := Some (getSchemaDifficulty schema);
           seoValue := Some (getSEOValue schema) |})
        (optional missingSchemas)
|}.

(** The figures of [expectedBenefits]; the default answer carries the
    first one only. *)
Record ExpectedBenefits : Type := {
  richSnippets_probability : Z;
  searchRanking_improvement : option Z;
  clickThroughRate_improvement : option Z;
  localSearch_visibility : option Z
}.

Definition calculateExpectedBenefits (prioritizedList : PrioritizedList)
    : ExpectedBenefits :=
  let criticalItems := Z.of_nat (length (missing prioritizedList)) in
  let highItems := Z.of_nat (length (improvements prioritizedList)) in
  {|
    richSnippets_probability := Z.min 90 (criticalItems * 30 + highItems * 15);
    searchRanking_improvement := Some (Z.min 20 (criticalItems * 5 + highItems * 3));
    clickThroughRate_improvement := Some (Z.min 25 (criticalItems * 8 + highItems * 5));
    localSearch_visibility :=
      Some (if existsb
                 (fun item =>
                    existsb (String.eqb (schema item)) ["LocalBusiness"; "Organization"])
                 (missing prioritizedList)
            then 40 else 10)
  |}%Z.

(** The classification handed to the recommender; a field is [None] when
    the property is absent. *)
Record PageAnalysis : Type := {
  pa_primaryType : option string;
  pa_confidence : option Q
}.

(** The answer of [generateRecommendations].  The fields [implementation],
    [businessSpecific] and [validationSteps] are left out: for a page data
    object they are computed from the lists below without throwing and
    feed nothing back into them. *)
Record Recommendations : Type := {
  pageType : string;
  r_confidence : Q;
  r_recommendations : PrioritizedList;
  expectedBenefits : ExpectedBenefits
}.

Definition getDefaultRecommendations : Recommendations := {|
  pageType := "Article";
  r_confidence := 0;
  r_recommendations := {|
    missing := [ {| schema := "Article"; priority := "critical";
                    reason := "デフォルト推奨事項"; impact := "high";
                    difficulty := None; seoValue := None |} ];
    improvements := [];
    optionalItems := [] |};
  expectedBenefits := {|
    richSnippets_probability := 30;
    searchRanking_improvement := None;
    clickThroughRate_improvement := None;
    localSearch_visibility := None |}
|}.

Definition generateRecommendations (pageAnalysis : PageAnalysis)
    (existingSchemas : ExistingSchemas) : Recommendations :=
  tryCatch
    (let primaryType :=
       match pa_primaryType pageAnalysis with
       | Some t => if String.eqb t "" then "Article" else t
       | None => "Article"
       end in
     let confidence := PageTypeAnalyzer.orZero (pa_confidence pageAnalysis) in
     let baseRecommendations := getBaseRecommendations primaryType in
     bind (findMissingSchemas baseRecommendations existingSchemas) (fun missingSchemas =>
       let prioritizedList := prioritizeRecommendations missingSchemas in
       Returned {|
         pageType := primaryType;
         r_confidence := confidence;
         r_recommendations := prioritizedList;
         expectedBenefits := calculateExpectedBenefits prioritizedList
       |}))
    (fun _ => getDefaultRecommendations).

End StructuredDataRecommender.

(* ------------------------------------------------------------------ *)
(** * SchemaTemplates (schema-templates.js) *)

Module SchemaTemplates.
Import Js Json.
Local Open Scope nat_scope.

(** ** Text of a JSON document *)

Definition quoteChar : ascii := ascii_of_nat 34.
Definition backslash : ascii := ascii_of_nat 92.

Definition hexDigit (n : nat) : ascii :=
  if n <? 10 then ascii_of_nat (48 + n) else ascii_of_nat (87 + n).

(** The escape of one character inside a JSON string. *)
Definition quoteJSONChar (c : ascii) : string :=
  let n := nat_of_ascii c in
  if Ascii.eqb c quoteChar then String backslash (String quoteChar "")
  else if Ascii.eqb c backslash then String backslash (String backslash "")
  else if n =? 8 then String backslash "b"
  else if n =? 12 then String backslash "f"
  else if n =? 10 then String backslash "n"
  else if n =? 13 then String backslash "r"
  else if n =? 9 then String backslash "t"
  else if n <? 32
       then String backslash
              (String "u" (String "0" (String "0"
                 (String (hexDigit (n / 16)) (String (hexDigit (n mod 16)) "")))))
  else String c "".

Fixpoint quoteJSONChars (s : string) : string :=
  match s with
  | EmptyString => EmptyString
  | String c rest => quoteJSONChar c ++ quoteJSONChars rest
  end.

Definition quoteJSONString (s : string) : string :=
  String quoteChar (quoteJSONChars s ++ String quoteChar "").

(** A schema template: an object literal of strings, arrays and objects. *)
#[warnings="-register-all"]
Inductive template : Type :=
| TString (s : string)
| TArray (items : list template)
| TObject (props : list (string * template)).

(** [JSON.stringify(template)]: no white space between tokens. *)
Fixpoint stringify (t : template) : string :=
  match t with
  | TString s => quoteJSONString s
  | TArray items =>
      "[" ++ String.concat "," (map stringify items) ++ "]"
  | TObject props =>
      "{" ++ String.concat ","
               (map (fun kv => quoteJSONString (fst kv) ++ ":" ++ stringify (snd kv)) props)
          ++ "}"
  end.

(** ** String.prototype.replace with a global literal pattern *)

Fixpoint dropChars (n : nat) (s : string) : string :=
  match n, s with
  | S k, String _ rest => dropChars k rest
  | _, _ => s
  end.

(** The replacement text of one match.  The pattern has no capture
    group: of the dollar forms only the doubled dollar, the matched text,
    the text before the match and the text after it are replaced. *)
Fixpoint getSubstitution (replacement matched before after : string) : string :=
  match replacement with
  | EmptyString => EmptyString
  | String c tail =>
      if Ascii.eqb c "$" then
        match tail with
        | String d rest =>
            if Ascii.eqb d "$" then String "$" (getSubstitution rest matched before after)
            else if Ascii.eqb d "&" then matched ++ getSubstitution rest matched before after
            else if Ascii.eqb d "`" then before ++ getSubstitution rest matched before after
            else if Ascii.eqb d "'" then after ++ getSubstitution rest matched before after
            else String c (getSubstitution tail matched before after)
        | EmptyString => String c EmptyString
        end
      else String c (getSubstitution tail matched before after)
  end.

(** [pos] is the position of [text] in [original]; [skip] counts the
    characters of the current match still to be passed. *)
Fixpoint replaceFrom (p replacement original : string) (pos skip : nat)
    (text : string) : string :=
  match text with
  | EmptyString => EmptyString
  | String c text' =>
      match skip with
      | S k => replaceFrom p replacement original (S pos) k text'
      | O =>
          if startsWith p text
          then getSubstitution replacement p
                 (substring 0 pos original) (dropChars (String.length p) text)
               ++ replaceFrom p replacement original (S pos) (String.length p - 1) text'
          else String c (replaceFrom p replacement original (S pos) 0 text')
      end
  end.

(** [text.replace(new RegExp(p, 'g'), replacement)] for a non-empty
    source [p] that matches itself literally. *)
Definition replaceAll (p replacement text : string) : string :=
  replaceFrom p replacement text 0 0 text.

(** ** JSON.parse *)

Inductive parsed (A : Type) : Type :=
| Parsed (a : A) (rest : string)
| SyntaxError
| OutOfFuel.
Arguments Parsed {A} a rest.
Arguments SyntaxError {A}.
Arguments OutOfFuel {A}.

Definition isWhiteSpace (c : ascii) : bool :=
  let n := nat_of_ascii c in
  (n =? 32) || (n =? 9) || (n =? 10) || (n =? 13).

Fixpoint skipWhiteSpace (s : string) : string :=
  match s with
  | String c rest => if isWhiteSpace c then skipWhiteSpace rest else s
  | EmptyString => s
  end.

Section CodeUnits.
Local Open Scope N_scope.

Definition hexValue (c : ascii) : option N :=
let n := N_of_ascii c in
if (48 <=? n) && (n <=? 57) then Some (n - 48)
else if (97 <=? n) && (n <=? 102) then Some (n - 87)
else if (65 <=? n) && (n <=? 70) then Some (n - 55)
else None.

Definition hex4 (a b c d : ascii) : option N :=
match hexValue a, hexValue b, hexValue c, hexValue d with
| Some x, Some y, Some z, Some w => Some (((x * 16 + y) * 16 + z) * 16 + w)
| _, _, _, _ => None
end.

(** What a string literal holds: bytes copied from the text, and UTF-16
  code units written as escapes. *)
Inductive stringUnit : Type :=
| Byte (c : ascii)
| CodeUnit (n : N).

Definition simpleEscape (c : ascii) : option ascii :=
if Ascii.eqb c quoteChar then Some quoteChar
else if Ascii.eqb c backslash then Some backslash
else if Ascii.eqb c "/" then Some "/"%char
else if Ascii.eqb c "b" then Some (ascii_of_nat 8)
else if Ascii.eqb c "f" then Some (ascii_of_nat 12)
else if Ascii.eqb c "n" then Some (ascii_of_nat 10)
else if Ascii.eqb c "r" then Some (ascii_of_nat 13)
else if Ascii.eqb c "t" then Some (ascii_of_nat 9)
else None.

(** The characters of a string literal after its opening quote. *)
Fixpoint parseStringBody (s : string) (acc : list stringUnit)
  : option (list stringUnit * string) :=
match s with
| EmptyString => None
| String c rest =>
    if Ascii.eqb c quoteChar then Some (rev acc, rest)
    else if Ascii.eqb c backslash then
      match rest with
      | String e rest' =>
          if Ascii.eqb e "u" then
            match rest' with
            | String h1 (String h2 (String h3 (String h4 rest''))) =>
                match hex4 h1 h2 h3 h4 with
                | Some n => parseStringBody rest'' (CodeUnit n :: acc)
                | None => None
                end
            | _ => None
            end
          else
            match simpleEscape e with
            | Some ch => parseStringBody rest' (Byte ch :: acc)
            | None => None
            end
      | EmptyString => None
      end
    else if (nat_of_ascii c <? 32)%nat then None
    else parseStringBody rest (Byte c :: acc)
end.

(** UTF-8 bytes of a code point. *)
Definition utf8 (n : N) : string :=
if n <? 128 then String (ascii_of_N n) ""
else if n <? 2048 then
  String (ascii_of_N (192 + n / 64)) (String (ascii_of_N (128 + n mod 64)) "")
else if n <? 65536 then
  String (ascii_of_N (224 + n / 4096))
    (String (ascii_of_N (128 + (n / 64) mod 64))
       (String (ascii_of_N (128 + n mod 64)) ""))
else
  String (ascii_of_N (240 + n / 262144))
    (String (ascii_of_N (128 + (n / 4096) mod 64))
       (String (ascii_of_N (128 + (n / 64) mod 64))
          (String (ascii_of_N (128 + n mod 64)) ""))).

Definition isHighSurrogate (n : N) : bool := (55296 <=? n) && (n <? 56320).
Definition isLowSurrogate (n : N) : bool := (56320 <=? n) && (n <? 57344).

Fixpoint unitsToString (units : list stringUnit) : string :=
match units with
| [] => EmptyString
| Byte c :: rest => String c (unitsToString rest)
| CodeUnit n :: rest =>
    match rest with
    | CodeUnit m :: rest' =>
        if isHighSurrogate n && isLowSurrogate m
        then utf8 (65536 + (n - 55296) * 1024 + (m - 56320)) ++ unitsToString rest'
        else utf8 n ++ unitsToString rest
    | _ => utf8 n ++ unitsToString rest
    end
end.

End CodeUnits.

Definition parseString (s : string) : parsed string :=
  match parseStringBody s [] with
  | Some (units, rest) => Parsed (unitsToString units) rest
  | None => SyntaxError
  end.

Definition isDigit (c : ascii) : bool :=
  let n := nat_of_ascii c in (48 <=? n) && (n <=? 57).

(** The digits at the head of a text: their count, their value, the rest. *)
Fixpoint takeDigits (s : string) (count : nat) (val : Z) : nat * Z * string :=
  match s with
  | String c rest =>
      if isDigit c
      then takeDigits rest (S count) (val * 10 + Z.of_nat (nat_of_ascii c - 48))%Z
      else (count, val, s)
  | EmptyString => (count, val, s)
  end.

(** A number literal; its value is the rational the literal denotes. *)
Definition parseNumber (s : string) : parsed Q :=
  let '(negative, s1) :=
    match s with
    | String c rest => if Ascii.eqb c "-" then (true, rest) else (false, s)
    | EmptyString => (false, s)
    end in
  let '(intCount, intVal, s2) := takeDigits s1 0 0%Z in
  let leadingZero :=
    match s1 with
    | String c _ => Ascii.eqb c "0" && (1 <? intCount)
    | EmptyString => false
    end in
  if (intCount =? 0) || leadingZero then SyntaxError
  else
    let fraction :=
      match s2 with
      | String c rest =>
          if Ascii.eqb c "." then
            let '(fracCount, val, s3) := takeDigits rest 0 intVal in
            if fracCount =? 0 then None else Some (fracCount, val, s3)
          else Some (0, intVal, s2)
      | EmptyString => Some (0, intVal, s2)
      end in
    match fraction with
    | None => SyntaxError
    | Some (fracCount, mantissa, s3) =>
        let exponent :=
          match s3 with
          | String c rest =>
              if Ascii.eqb c "e" || Ascii.eqb c "E" then
                let '(minus, s4) :=
                  match rest with
                  | String d rest' =>
                      if Ascii.eqb d "-" then (true, rest')
                      else if Ascii.eqb d "+" then (false, rest')
                      else (false, rest)
                  | EmptyString => (false, rest)
                  end in
                let '(expCount, expVal, s5) := takeDigits s4 0 0%Z in
                if expCount =? 0 then None
                else Some (if minus then (- expVal)%Z else expVal, s5)
              else Some (0%Z, s3)
          | EmptyString => Some (0%Z, s3)
          end in
        match exponent with
        | None => SyntaxError
        | Some (e, rest) =>
            let magnitude :=
              (inject_Z mantissa * Qpower 10 (e - Z.of_nat fracCount))%Q in
            Parsed (if negative then (- magnitude)%Q else magnitude) rest
        end
    end.

Definition expectWord (word : string) (v : value) (s : string) : parsed value :=
  if startsWith word s then Parsed v (dropChars (String.length word) s)
  else SyntaxError.

(** A value, the members of an object after its first brace and the
    elements of an array after its first bracket.  A member whose name
    was read before replaces the value of the earlier one. *)
Fixpoint parseValue (fuel : nat) (s : string) : parsed value :=
  match fuel with
  | O => OutOfFuel
  | S fuel =>
      match skipWhiteSpace s with
      | EmptyString => SyntaxError
      | String c rest as text =>
          if Ascii.eqb c "{" then
            match skipWhiteSpace rest with
            | String d rest' =>
                if Ascii.eqb d "}" then Parsed (JObject []) rest'
                else parseMembers fuel rest []
            | EmptyString => SyntaxError
            end
          else if Ascii.eqb c "[" then
            match skipWhiteSpace rest with
            | String d rest' =>
                if Ascii.eqb d "]" then Parsed (JArray []) rest'
                else parseElements fuel rest []
            | EmptyString => SyntaxError
            end
          else if Ascii.eqb c quoteChar then
            match parseString rest with
            | Parsed str rest' => Parsed (JString str) rest'
            | SyntaxError => SyntaxError
            | OutOfFuel => OutOfFuel
            end
          else if Ascii.eqb c "t" then expectWord "true" (JBool true) text
          else if Ascii.eqb c "f" then expectWord "false" (JBool false) text
          else if Ascii.eqb c "n" then expectWord "null" JNull text
          else
            match parseNumber text with
            | Parsed n rest' => Parsed (JNumber n) rest'
            | SyntaxError => SyntaxError
            | OutOfFuel => OutOfFuel
            end
      end
  end

with parseMembers (fuel : nat) (s : string) (acc : list (string * value))
    : parsed value :=
  match fuel with
  | O => OutOfFuel
  | S fuel =>
      match skipWhiteSpace s with
      | String c rest =>
          if Ascii.eqb c quoteChar then
            match parseString rest with
            | Parsed name rest1 =>
                match skipWhiteSpace rest1 with
                | String colon rest2 =>
                    if Ascii.eqb colon ":" then
                      match parseValue fuel rest2 with
                      | Parsed v rest3 =>
                          let acc := set String.eqb acc name v in
                          match skipWhiteSpace rest3 with
                          | String sep rest4 =>
                              if Ascii.eqb sep "," then parseMembers fuel rest4 acc
                              else if Ascii.eqb sep "}" then Parsed (JObject acc) rest4
                              else SyntaxError
                          | EmptyString => SyntaxError
                          end
                      | SyntaxError => SyntaxError
                      | OutOfFuel => OutOfFuel
                      end
                    else SyntaxError
                | EmptyString => SyntaxError
                end
            | SyntaxError => SyntaxError
            | OutOfFuel => OutOfFuel
            end
          else SyntaxError
      | EmptyString => SyntaxError
      end
  end

with parseElements (fuel : nat) (s : string) (acc : list value) : parsed value :=
  match fuel with
  | O => OutOfFuel
  | S fuel =>
      match parseValue fuel s with
      | Parsed v rest1 =>
          match skipWhiteSpace rest1 with
          | String sep rest2 =>
              if Ascii.eqb sep "," then parseElements fuel rest2 (acc ++ [v])%list
              else if Ascii.eqb sep "]" then Parsed (JArray (acc ++ [v])%list) rest2
              else SyntaxError
          | EmptyString => SyntaxError
          end
      | SyntaxError => SyntaxError
      | OutOfFuel => OutOfFuel
      end
  end.

(** Fuel for a text: a call takes one unit and, within two calls, the
    text has lost a character. *)
Definition parseFuel (text : string) : nat := 2 * String.length text + 3.

(** [JSON.parse(text)] *)
Definition JSON_parse (text : string) : outcome value :=
  match parseValue (parseFuel text) text with
  | Parsed v rest =>
      match skipWhiteSpace rest with
      | EmptyString => Returned v
      | _ => Thrown "SyntaxError: Unexpected non-whitespace character after JSON"
      end
  | SyntaxError => Thrown "SyntaxError: Unexpected token in JSON"
  | OutOfFuel => Thrown "out of fuel"
  end.

(** ** cleanSchema *)

(** [cleaned[key] = v] on a plain object: the name [__proto__] reaches
    the inherited setter and creates no property. *)
Definition assign (cleaned : list (string * value)) (key : string) (v : value)
    : list (string * value) :=
  if String.eqb key "__proto__" then cleaned else set String.eqb cleaned key v.

(** The test of the array filter. *)
Definition keepItem (item : value) : bool :=
  match item with
  | JNull => false
  | JString s => negb (String.eqb s "") && negb (includes s "{{")
  | _ => true
  end.

(** The body of the loop over [Object.entries(schema)]; [clean] is the
    function itself, called on object values. *)
Definition cleanEntry (clean : value -> list (string * value))
    (cleaned : list (string * value)) (entry : string * value)
    : list (string * value) :=
  let '(key, v) := entry in
  match v with
  | JNull => cleaned
  | JString s =>
      if String.eqb s "" || String.eqb s ("{{" ++ key ++ "}}") then cleaned
      else assign cleaned key v
  | JObject _ =>
      match clean v with
      | [] => cleaned
      | cleanedObject => assign cleaned key (JObject cleanedObject)
      end
  | JArray items =>
      match filter keepItem items with
      | [] => cleaned
      | cleanedArray => assign cleaned key (JArray cleanedArray)
      end
  | JBool _ | JNumber _ => assign cleaned key v
  end.

(** [cleanSchema(schema)], the properties of the object it returns.  The
    parameter is an object in every call; the model gives no property for
    another value. *)
Fixpoint cleanSchema (schema : value) : list (string * value) :=
  match schema with
  | JObject props => fold_left (cleanEntry cleanSchema) props []
  | _ => []
  end.

(** ** The catalog *)

Definition getArticleTemplate : template :=
  TObject [
    ("@context", TString "https://schema.org");
    ("@type", TString "Article");
    ("headline", TString "{{title}}");
    ("description", TString "{{description}}");
    ("image", TString "{{mainImage}}");
    ("author", TObject [
      ("@type", TString "Person");
      ("name", TString "{{authorName}}")]);
    ("publisher", TObject [
      ("@type", TString "Organization");
      ("name", TString "{{publisherName}}");
      ("logo", TObject [
        ("@type", TString "ImageObject");
        ("url", TString "{{publisherLogo}}")])]);
    ("datePublished", TString "{{publishDate}}");
    ("dateModified", TString "{{modifiedDate}}");
    ("mainEntityOfPage", TObject [
      ("@type", TString "WebPage");
      ("@id", TString "{{url}}")])].

Definition getNewsArticleTemplate : template :=
  TObject [
    ("@context", TString "https://schema.org");
    ("@type", TString "NewsArticle");
    ("headline", TString "{{title}}");
    ("description", TString "{{description}}");
    ("image", TString "{{mainImage}}");
    ("author", TObject [
      ("@type", TString "Person");
      ("name", TString "{{authorName}}")]);
    ("publisher", TObject [
      ("@type", TString "Organization");
      ("name", TString "{{publisherName}}");
      ("logo", TObject [
        ("@type", TString "ImageObject");
        ("url", TString "{{publisherLogo}}")])]);
    ("datePublished", TString "{{publishDate}}");
    ("dateModified", TString "{{modifiedDate}}");
    ("mainEntityOfPage", TObject [
      ("@type", TString "WebPage");
      ("@id", TString "{{url}}")]);
    ("articleSection", TString "{{category}}")].

Definition getBlogPostingTemplate : template :=
  TObject [
    ("@context", TString "https://schema.org");
    ("@type", TString "BlogPosting");
    ("headline", TString "{{title}}");
    ("description", TString "{{description}}");
    ("image", TString "{{mainImage}}");
    ("author", TObject [
      ("@type", TString "Person");
      ("name", TString "{{authorName}}")]);
    ("publisher", TObject [
      ("@type", TString "Organization");
      ("name", TString "{{publisherName}}");
      ("logo", TObject [
        ("@type", TString "ImageObject");
        ("url", TString "{{publisherLogo}}")])]);
    ("datePublished", TString "{{publishDate}}");
    ("dateModified", TString "{{modifiedDate}}");
    ("mainEntityOfPage", TObject [
      ("@type", TString "WebPage");
      ("@id", TString "{{url}}")]);
    ("keywords", TString "{{keywords}}")].

Definition getProductTemplate : template :=
  TObject [
    ("@context", TString "https://schema.org");
    ("@type", TString "Product");
    ("name", TString "{{productName}}");
    ("description", TString "{{description}}");
    ("image", TString "{{productImage}}");
    ("brand", TObject [
      ("@type", TString "Brand");
      ("name", TString "{{brandName}}")]);
    ("offers", TObject [
      ("@type", TString "Offer");
      ("price", TString "{{price}}");
      ("priceCurrency", TString "JPY");
      ("availability", TString "{{availability}}");
      ("seller", TObject [
        ("@type", TString "Organization");
        ("name", TString "{{sellerName}}")])]);
    ("aggregateRating", TObject [
      ("@type", TString "AggregateRating");
      ("ratingValue", TString "{{ratingValue}}");
      ("reviewCount", TString "{{reviewCount}}")]);
    ("sku", TString "{{sku}}");
    ("gtin", TString "{{gtin}}")].

Definition getLocalBusinessTemplate : template :=
  TObject [
    ("@context", TString "https://schema.org");
    ("@type", TString "LocalBusiness");
    ("name", TString "{{businessName}}");
    ("description", TString "{{description}}");
    ("image", TString "{{businessImage}}");
    ("address", TObject [
      ("@type", TString "PostalAddress");
      ("streetAddress", TString "{{streetAddress}}");
      ("addressLocality", TString "{{city}}");
      ("addressRegion", TString "{{state}}");
      ("postalCode", TString "{{postalCode}}");
      ("addressCountry", TString "JP")]);
    ("telephone", TString "{{phone}}");
    ("url", TString "{{website}}");
    ("geo", TObject [
      ("@type", TString "GeoCoordinates");
      ("latitude", TString "{{latitude}}");
      ("longitude", TString "{{longitude}}")]);
    ("openingHoursSpecification", TArray [TObject [
        ("@type", TString "OpeningHoursSpecification");
        ("dayOfWeek", TArray [TString "Monday"; TString "Tuesday"; TString "Wednesday"; TString "Thursday"; TString "Friday"]);
        ("opens", TString "{{weekdayOpen}}");
        ("closes", TString "{{weekdayClose}}")]]);
    ("priceRange", TString "{{priceRange}}")].

Definition getRecipeTemplate : template :=
  TObject [
    ("@context", TString "https://schema.org");
    ("@type", TString "Recipe");
    ("name", TString "{{recipeName}}");
    ("description", TString "{{description}}");
    ("image", TString "{{recipeImage}}");
    ("author", TObject [
      ("@type", TString "Person");
      ("name", TString "{{authorName}}")]);
    ("prepTime", TString "{{prepTime}}");
    ("cookTime", TString "{{cookTime}}");
    ("totalTime", TString "{{totalTime}}");
    ("recipeYield", TString "{{servings}}");
    ("recipeCategory", TString "{{category}}");
    ("recipeCuisine", TString "{{cuisine}}");
    ("recipeIngredient", TString "{{ingredients}}");
    ("recipeInstructions", TString "{{instructions}}");
    ("nutrition", TObject [
      ("@type", TString "NutritionInformation");
      ("calories", TString "{{calories}}")]);
    ("aggregateRating", TObject [
      ("@type", TString "AggregateRating");
      ("ratingValue", TString "{{ratingValue}}");
      ("reviewCount", TString "{{reviewCount}}")])].

Definition getEventTemplate : template :=
  TObject [
    ("@context", TString "https://schema.org");
    ("@type", TString "Event");
    ("name", TString "{{eventName}}");
    ("description", TString "{{description}}");
    ("image", TString "{{eventImage}}");
    ("startDate", TString "{{startDate}}");
    ("endDate", TString "{{endDate}}");
    ("location", TObject [
      ("@type", TString "Place");
      ("name", TString "{{venueName}}");
      ("address", TObject [
        ("@type", TString "PostalAddress");
        ("streetAddress", TString "{{streetAddress}}");
        ("addressLocality", TString "{{city}}");
        ("addressRegion", TString "{{state}}");
        ("postalCode", TString "{{postalCode}}");
        ("addressCountry", TString "JP")])]);
    ("organizer", TObject [
      ("@type", TString "Organization");
      ("name", TString "{{organizerName}}");
      ("url", TString "{{organizerUrl}}")]);
    ("offers", TObject [
      ("@type", TString "Offer");
      ("price", TString "{{ticketPrice}}");
      ("priceCurrency", TString "JPY");
      ("availability", TString "{{availability}}");
      ("url", TString "{{ticketUrl}}")])].

Definition getFAQPageTemplate : template :=
  TObject [
    ("@context", TString "https://schema.org");
    ("@type", TString "FAQPage");
    ("mainEntity", TString "{{faqItems}}")].

Definition getHowToTemplate : template :=
  TObject [
    ("@context", TString "https://schema.org");
    ("@type", TString "HowTo");
    ("name", TString "{{title}}");
    ("description", TString "{{description}}");
    ("image", TString "{{image}}");
    ("totalTime", TString "{{totalTime}}");
    ("supply", TString "{{supplies}}");
    ("tool", TString "{{tools}}");
    ("step", TString "{{steps}}")].

Definition getReviewTemplate : template :=
  TObject [
    ("@context", TString "https://schema.org");
    ("@type", TString "Review");
    ("itemReviewed", TObject [
      ("@type", TString "{{reviewedItemType}}");
      ("name", TString "{{reviewedItemName}}")]);
    ("reviewRating", TObject [
      ("@type", TString "Rating");
      ("ratingValue", TString "{{ratingValue}}");
      ("bestRating", TString "5")]);
    ("author", TObject [
      ("@type", TString "Person");
      ("name", TString "{{authorName}}")]);
    ("reviewBody", TString "{{reviewText}}");
    ("datePublished", TString "{{publishDate}}")].

Definition getJobPostingTemplate : template :=
  TObject [
    ("@context", TString "https://schema.org");
    ("@type", TString "JobPosting");
    ("title", TString "{{jobTitle}}");
    ("description", TString "{{jobDescription}}");
    ("hiringOrganization", TObject [
      ("@type", TString "Organization");
      ("name", TString "{{companyName}}");
      ("sameAs", TString "{{companyUrl}}")]);
    ("jobLocation", TObject [
      ("@type", TString "Place");
      ("address", TObject [
        ("@type", TString "PostalAddress");
        ("addressLocality", TString "{{city}}");
        ("addressRegion", TString "{{state}}");
        ("addressCountry", TString "JP")])]);
    ("baseSalary", TObject [
      ("@type", TString "MonetaryAmount");
      ("currency", TString "JPY");
      ("value", TObject [
        ("@type", TString "QuantitativeValue");
        ("minValue", TString "{{minSalary}}");
        ("maxValue", TString "{{maxSalary}}");
        ("unitText", TString "MONTH")])]);
    ("employmentType", TString "{{employmentType}}");
    ("datePosted", TString "{{postDate}}");
    ("validThrough", TString "{{validThrough}}")].

Definition getCourseTemplate : template :=
  TObject [
    ("@context", TString "https://schema.org");
    ("@type", TString "Course");
    ("name", TString "{{courseName}}");
    ("description", TString "{{description}}");
    ("provider", TObject [
      ("@type", TString "Organization");
      ("name", TString "{{providerName}}")]);
    ("hasCourseInstance", TObject [
      ("@type", TString "CourseInstance");
      ("courseMode", TString "{{courseMode}}");
      ("courseSchedule", TObject [
        ("@type", TString "Schedule");
        ("duration", TString "{{duration}}");
        ("repeatFrequency", TString "{{frequency}}")]);
      ("instructor", TObject [
        ("@type", TString "Person");
        ("name", TString "{{instructorName}}")])]);
    ("offers", TObject [
      ("@type", TString "Offer");
      ("price", TString "{{price}}");
      ("priceCurrency", TString "JPY")])].

Definition getOrganizationTemplate : template :=
  TObject [
    ("@context", TString "https://schema.org");
    ("@type", TString "Organization");
    ("name", TString "{{organizationName}}");
    ("url", TString "{{website}}");
    ("logo", TString "{{logo}}");
    ("description", TString "{{description}}");
    ("address", TObject [
      ("@type", TString "PostalAddress");
      ("streetAddress", TString "{{streetAddress}}");
      ("addressLocality", TString "{{city}}");
      ("addressRegion", TString "{{state}}");
      ("postalCode", TString "{{postalCode}}");
      ("addressCountry", TString "JP")]);
    ("contactPoint", TObject [
      ("@type", TString "ContactPoint");
      ("telephone", TString "{{phone}}");
      ("contactType", TString "customer service")]);
    ("sameAs", TString "{{socialProfiles}}")].

Definition getPersonTemplate : template :=
  TObject [
    ("@context", TString "https://schema.org");
    ("@type", TString "Person");
    ("name", TString "{{name}}");
    ("jobTitle", TString "{{jobTitle}}");
    ("affiliation", TObject [
      ("@type", TString "Organization");
      ("name", TString "{{organization}}")]);
    ("url", TString "{{website}}");
    ("sameAs", TString "{{socialProfiles}}")].

Definition getBreadcrumbListTemplate : template :=
  TObject [
    ("@context", TString "https://schema.org");
    ("@type", TString "BreadcrumbList");
    ("itemListElement", TString "{{breadcrumbItems}}")].

(** The table of [getTemplate]. *)
Definition templates : list (string * template) :=
  [("Article", getArticleTemplate); ("NewsArticle", getNewsArticleTemplate);
   ("BlogPosting", getBlogPostingTemplate); ("Product", getProductTemplate);
   ("LocalBusiness", getLocalBusinessTemplate); ("Recipe", getRecipeTemplate);
   ("Event", getEventTemplate); ("FAQPage", getFAQPageTemplate);
   ("HowTo", getHowToTemplate); ("Review", getReviewTemplate);
   ("JobPosting", getJobPostingTemplate); ("Course", getCourseTemplate);
   ("Organization", getOrganizationTemplate); ("Person", getPersonTemplate);
   ("BreadcrumbList", getBreadcrumbListTemplate)].

(** [templates[schemaType] || null], for a name that is not inherited. *)
Definition getTemplate (schemaType : string) : option template :=
  get String.eqb templates schemaType.

(** ** Extraction and filling *)

(** The page data handed to the templates.  The callers build it with a
    title, a description, a body text and a URL. *)
Record PageData : Type := {
  title : string;
  metaDescription : string;
  url : string;
  bodyText : string;
  headings : option (list string)  (* [None]: the object has no such property *)
}.

(** What the helpers that query the document or match a regular
    expression return, each as the text it gives in a replacement.  The
    document and its queries belong to the DOM library. *)
Record Extracts : Type := {
  documentTitle : string;         (* the trimmed text of the title element *)
  documentDescription : string;   (* the description meta tag, or nothing *)
  generatedDescription : string;  (* generateDescription(pageData.bodyText) *)
  extractAuthor : string;
  extractPublisher : string;
  extractPublishDate : string;
  extractModifiedDate : string;
  today : string;                 (* new Date().toISOString().split('T')[0] *)
  extractMainImage : string;
  extractLogo : string;
  keywordsMeta : string;          (* the keywords meta tag, or nothing *)
  extractCategory : string;
  extractPrice : string;
  extractRating : string;
  extractAddress : string;
  extractPhone : string;
  faqItems : string               (* the array of questions, as text *)
}.

(** [a || b] on strings. *)
Definition orElse (a b : string) : string :=
  if String.eqb a "" then b else a.

(** [Object.assign(target, source)] *)
Definition objectAssign (target source : list (string * string)) : list (string * string) :=
  fold_left (fun target kv => set String.eqb target (fst kv) (snd kv)) source target.

(** The keywords meta tag, or else the first five headings of the page
    data; reading them throws when the page data has no headings. *)
Definition extractKeywords (pageData : PageData) (x : Extracts) : outcome string :=
  if negb (String.eqb (keywordsMeta x) "") then Returned (keywordsMeta x)
  else
    match headings pageData with
    | Some hs => Returned (orElse (String.concat ", " (firstn 5 hs)) "")
    | None => Thrown "TypeError: Cannot read properties of undefined (reading 'slice')"
    end.

Definition extractArticleData (pageData : PageData) (x : Extracts)
    : outcome (list (string * string)) :=
  bind (extractKeywords pageData x) (fun keywords =>
    Returned
      [("authorName", orElse (extractAuthor x) "サイト運営者");
       ("publisherName", orElse (extractPublisher x) "サイト名");
       ("publishDate", orElse (extractPublishDate x) (today x));
       ("modifiedDate", orElse (extractModifiedDate x) (today x));
       ("mainImage", extractMainImage x);
       ("publisherLogo", extractLogo x);
       ("keywords", keywords);
       ("category", extractCategory x)]).

Definition extractProductData (pageData : PageData) (x : Extracts) : list (string * string) :=
  [("productName", title pageData);
   ("productImage", extractMainImage x);
   ("brandName", "");
   ("price", extractPrice x);
   ("availability", "InStock");
   ("sellerName", "");
   ("ratingValue", extractRating x);
   ("reviewCount", "");
   ("sku", "");
   ("gtin", "")].

Definition extractLocalBusinessData (pageData : PageData) (x : Extracts)
    : list (string * string) :=
  [("businessName", title pageData);
   ("businessImage", extractMainImage x);
   ("streetAddress", extractAddress x);
   ("city", "");
   ("state", "");
   ("postalCode", "");
   ("phone", extractPhone x);
   ("website", url pageData);
   ("latitude", "");
   ("longitude", "");
   ("weekdayOpen", "09:00");
   ("weekdayClose", "18:00");
   ("priceRange", "$$")].

Definition extractFAQData (x : Extracts) : list (string * string) :=
  [("faqItems", faqItems x)].

(** The extractors of the other six types call a helper the class does
    not define. *)
Definition notAFunction (helper : string) : outcome (list (string * string)) :=
  Thrown ("TypeError: this." ++ helper ++ " is not a function").

Definition isOneOf (s : string) (names : list string) : bool :=
  existsb (String.eqb s) names.

Definition extractDataFromPage (pageData : PageData) (x : Extracts)
    (schemaType : option string) : outcome (list (string * string)) :=
  let extracted :=
    [("title", orElse (title pageData) (documentTitle x));
     ("description",
      orElse (metaDescription pageData)
             (orElse (documentDescription x) (generatedDescription x)));
     ("url", orElse (url pageData) "")] in
  match schemaType with
  | None => Returned extracted
  | Some schemaType =>
      if isOneOf schemaType ["Article"; "NewsArticle"; "BlogPosting"]
      then bind (extractArticleData pageData x) (fun data =>
             Returned (objectAssign extracted data))
      else if String.eqb schemaType "Product"
      then Returned (objectAssign extracted (extractProductData pageData x))
      else if String.eqb schemaType "LocalBusiness"
      then Returned (objectAssign extracted (extractLocalBusinessData pageData x))
      else if String.eqb schemaType "Recipe" then notAFunction "extractPrepTime"
      else if String.eqb schemaType "Event" then notAFunction "extractStartDate"
      else if String.eqb schemaType "FAQPage"
      then Returned (objectAssign extracted (extractFAQData x))
      else if String.eqb schemaType "HowTo" then notAFunction "extractTotalTime"
      else if String.eqb schemaType "Review" then notAFunction "extractReviewedItemType"
      else if String.eqb schemaType "JobPosting" then notAFunction "extractCompanyName"
      else if String.eqb schemaType "Course" then notAFunction "extractProvider"
      else Returned extracted
  end.

(** [template['@type']] *)
Definition templateType (t : template) : option string :=
  match t with
  | TObject props =>
      match get String.eqb props "@type" with
      | Some (TString s) => Some s
      | _ => None
      end
  | _ => None
  end.

(** [fillTemplate(template, pageData, $)], the properties of the object
    it returns.  The keys of the extracted data are made of letters, so
    the expression built from a placeholder matches it literally. *)
Definition fillTemplate (t : template) (pageData : PageData) (x : Extracts)
    : outcome (list (string * value)) :=
  let templateStr := stringify t in
  bind (extractDataFromPage pageData x (templateType t)) (fun extractedData =>
    let filledStr :=
      fold_left
        (fun filledStr kv =>
           let placeholder := "{{" ++ fst kv ++ "}}" in
           replaceAll placeholder (orElse (snd kv) "") filledStr)
        extractedData templateStr in
    bind (JSON_parse filledStr) (fun filled =>
      Returned (cleanSchema filled))).

End SchemaTemplates.

(* ------------------------------------------------------------------ *)
(** * Vocabulary of the templates' properties *)

Module TemplateSpec.
Import Js Json SchemaTemplates.

(** The text has a placeholder token: two opening braces and, after
    them, two closing braces. *)
Fixpoint containsPlaceholder (s : string) : bool :=
  match s with
  | EmptyString => false
  | String _ rest =>
      (startsWith "{{" s && includes (dropChars 2 s) "}}")
      || containsPlaceholder rest
  end.

(** Some string at any depth of the value satisfies the test. *)
Fixpoint someString (test : string -> bool) (v : value) : bool :=
  match v with
  | JString s => test s
  | JArray items => existsb (someString test) items
  | JObject props => existsb (fun kv => someString test (snd kv)) props
  | JNull | JBool _ | JNumber _ => false
  end.

(** A template as the value it denotes. *)
Fixpoint templateValue (t : template) : value :=
  match t with
  | TString s => JString s
  | TArray items => JArray (map templateValue items)
  | TObject props => JObject (map (fun kv => (fst kv, templateValue (snd kv))) props)
  end.

(** Placeholder closure as the specification states it. *)
Definition placeholderFree_spec (schema : list (string * value)) : Prop :=
  someString containsPlaceholder (JObject schema) = false.

(** A result that is not a shortage of fuel and, when a value was read,
    leaves less than [n] characters. *)
Definition consumes {A} (r : parsed A) (n : nat) : Prop :=
  match r with
  | Parsed _ rest => (String.length rest < n)%nat
  | SyntaxError => True
  | OutOfFuel => False
  end.

(** An entry the loop of [cleanSchema] copies as it is. *)
Definition stable (entry : string * value) : Prop :=
  fst entry <> "__proto__" /\
  match snd entry with
  | JNull => False
  | JString s => s <> "" /\ s <> "{{" ++ fst entry ++ "}}"
  | JArray items => items <> [] /\ filter keepItem items = items
  | JObject props => props <> [] /\ cleanSchema (JObject props) = props
  | JBool _ | JNumber _ => True
  end.

(** An object all of whose entries are copied, under distinct names. *)
Definition settled (cleaned : list (string * value)) : Prop :=
  Forall stable cleaned /\ NoDup (keys cleaned).

(** A page with a title, a description and an address, and a document
    that gives the helpers nothing more. *)
Definition shopPage : PageData := {|
  title := "Tanaka Books";
  metaDescription := "A second-hand bookshop in Kyoto.";
  url := "https://example.com/about/";
  bodyText := "Tanaka Books sells second-hand books.";
  headings := None
|}.

(** The same page with its headings. *)
Definition shopPageWithHeadings : PageData := {|
  title := title shopPage;
  metaDescription := metaDescription shopPage;
  url := url shopPage;
  bodyText := bodyText shopPage;
  headings := Some ["Tanaka Books"; "Opening hours"]
|}.

Definition bareExtracts : Extracts := {|
  documentTitle := "Tanaka Books";
  documentDescription := "A second-hand bookshop in Kyoto.";
  generatedDescription := "";
  extractAuthor := ""; extractPublisher := "Tanaka Books";
  extractPublishDate := ""; extractModifiedDate := ""; today := "2025-01-15";
  extractMainImage := ""; extractLogo := ""; keywordsMeta := "";
  extractCategory := ""; extractPrice := ""; extractRating := "";
  extractAddress := ""; extractPhone := ""; faqItems := ""
|}.

End TemplateSpec.

(* ------------------------------------------------------------------ *)
(** * Vocabulary of the classifier's properties *)

Module ClassifierSpec.
Import Js PageTypeAnalyzer.
Local Open Scope Q_scope.

(** Position of a type in the declaration of the signature table. *)
Definition position (type : PageType) : nat :=
  match type with
  | Article => 0 | Product => 1 | LocalBusiness => 2 | Recipe => 3
  | Event => 4 | FAQ => 5 | HowTo => 6 | Review => 7
  | JobPosting => 8 | Course => 9
  end%nat.

(** The bonus of a type as the specification lists it. *)
Definition specialElementBonus_spec (se : SpecialElements) (type : PageType) : Q :=
  match type with
  | Product => (if price se then 10 else 0) + (if review se then 5 else 0)
  | Review => if review se then 8 else 0
  | Event => if event se then 12 else 0
  | Recipe => if recipe se then 15 else 0
  | FAQ => if faq se then 15 else 0
  | JobPosting => if job se then 12 else 0
  | Course => if course se then 10 else 0
  | Article | LocalBusiness | HowTo => 0
  end.

Definition noSpecialElement (se : SpecialElements) : Prop :=
  price se = false /\ review se = false /\ event se = false /\
  recipe se = false /\ faq se = false /\ job se = false /\ course se = false.

(** The score object before the bonuses: one property per type, in the
    order of the signature table. *)
Definition baseScores (f : PageType -> Q) : Scores :=
  map (fun type => (type, f type)) patternKeys.

(** Scores never increase along the list. *)
Inductive descending : list (PageType * Q) -> Prop :=
| descending_nil : descending []
| descending_cons x l :
    Forall (fun y => snd y <= snd x) l -> descending l -> descending (x :: l).

(** An extraction that succeeds: the document is its own page data. *)
Definition extractSelf (doc : ExtractedPageData) (url : string)
    : outcome ExtractedPageData :=
  Returned doc.

Section WithLowerCase.
Variable toLowerCase : string -> string.

(** The score a type has in the object [calculateTypeScores] returns. *)
Definition finalScore (pageData : ExtractedPageData) (type : PageType) : Q :=
  match get PageType_eqb (calculateTypeScores toLowerCase pageData) type with
  | Some q => q
  | None => 0
  end.

(** The base score as the specification writes it: keyword hits are
    occurrence counts, pattern hits are 0 or 1 per pattern, for the
    title, the URL and the body text alike. *)
Definition scoreFormula_spec (type : PageType) (pageData : ExtractedPageData) : Q :=
  let sig := patterns type in
  let keywordHits text := num (countMatches toLowerCase text (keywords sig)) in
  let titlePatternHits := num (countPatternMatches (title pageData) (titlePatterns sig)) in
  let urlPatternHits := num (countPatternMatches (url pageData) (urlPatterns sig)) in
  let contentPatternHits :=
    num (countPatternMatches (bodyText pageData) (contentPatterns sig)) in
  3 * (keywordHits (title pageData) + titlePatternHits)
  + (5 # 2) * keywordHits (metaDescription pageData)
  + 2 * keywordHits (String.concat " " (headings pageData))
  + 2 * urlPatternHits
  + 1 * (keywordHits (bodyText pageData) + contentPatternHits).

(** No keyword and no pattern of any signature matches the page, as the
    specification reads a match: a keyword occurs, whatever its case; a
    pattern of the title, the URL or the content is contained as it is
    written. *)
Definition noSignatureMatch (pageData : ExtractedPageData) : Prop :=
  forall type,
    let sig := patterns type in
    countMatches toLowerCase (title pageData) (keywords sig) = 0%nat /\
    countPatternMatches (title pageData) (titlePatterns sig) = 0%nat /\
    countMatches toLowerCase (metaDescription pageData) (keywords sig) = 0%nat /\
    countMatches toLowerCase (String.concat " " (headings pageData)) (keywords sig) = 0%nat /\
    countPatternMatches (url pageData) (urlPatterns sig) = 0%nat /\
    countMatches toLowerCase (bodyText pageData) (keywords sig) = 0%nat /\
    countPatternMatches (bodyText pageData) (contentPatterns sig) = 0%nat.

(** No content pattern is counted by the code, which looks for it
    lower-cased in the lower-cased body text. *)
Definition noCountedContentPattern (pageData : ExtractedPageData) : Prop :=
  forall type,
    countMatches toLowerCase (bodyText pageData) (contentPatterns (patterns type)) = 0%nat.

(** The ranking [getTopTypes] cuts its answer from. *)
Definition ranking (pageData : ExtractedPageData) : list PageType :=
  map fst (sortEntries (calculateTypeScores toLowerCase pageData)).

(** Final scores never increase along a list of types. *)
Definition rankedDescending (pageData : ExtractedPageData) (types : list PageType) : Prop :=
  forall i j a b,
    (i < j)%nat -> nth_error types i = Some a -> nth_error types j = Some b ->
    finalScore pageData b <= finalScore pageData a.
End WithLowerCase.

(** A document with no title, no description, no heading and no text. *)
Definition emptyPage : ExtractedPageData := {|
  title := ""; metaDescription := ""; headings := []; url := "";
  bodyText := ""; contentLength := 0;
  specialElements := {| price := false; review := false; event := false;
                        recipe := false; faq := false; job := false;
                        course := false |}
|}.

(** A page whose only text is an English sentence. *)
Definition hotelPage : ExtractedPageData := {|
  title := ""; metaDescription := ""; headings := []; url := "";
  bodyText := "Welcome to our hotel"; contentLength := 20;
  specialElements := {| price := false; review := false; event := false;
                        recipe := false; faq := false; job := false;
                        course := false |}
|}.

(** A product page whose text names the price twice. *)
Definition pricePage : ExtractedPageData := {|
  title := ""; metaDescription := ""; headings := []; url := "";
  bodyText := "価格 価格"; contentLength := 5;
  specialElements := {| price := false; review := false; event := false;
                        recipe := false; faq := false; job := false;
                        course := false |}
|}.

End ClassifierSpec.

(* ------------------------------------------------------------------ *)
(** * Vocabulary of the recommender's properties *)

Module RecommenderSpec.
Import Js Json StructuredDataRecommender.

(** The strings among a list of values. *)
Fixpoint stringsOf (items : list value) : list string :=
  match items with
  | [] => []
  | JString s :: rest => s :: stringsOf rest
  | _ :: rest => stringsOf rest
  end.

(** The schema names an inventory entry [{data: {...}}] declares, as the
    specification reads them: the [@type] of its data, a string or every
    string of an array. *)
Definition declaredTypeNames_spec (entry : value) : list string :=
  match optionalMember (prop entry "data") "@type" with
  | Some (JString s) => [s]
  | Some (JArray items) => stringsOf items
  | _ => []
  end.

(** The same with an array standing for its first element only. *)
Definition leadingTypeNames (entry : value) : list string :=
  match optionalMember (prop entry "data") "@type" with
  | Some (JString s) => [s]
  | Some (JArray (JString s :: _)) => [s]
  | _ => []
  end.

(** What an entry contributes to the set of present types. *)
Definition entryTypeValue (entry : value) : option value :=
  match optionalMember (prop entry "data") "@type" with
  | Some (JArray items) => nth_error items 0
  | other => other
  end.

(** The type the recommender works with: [primaryType || 'Article']. *)
Definition effectiveType (pa : PageAnalysis) : string :=
  match pa_primaryType pa with
  | Some t => if String.eqb t "" then "Article" else t
  | None => "Article"
  end.

(** The entries of an inventory. *)
Definition entriesOf (existingSchemas : ExistingSchemas) : list value :=
  match jsonLd existingSchemas with
  | Some entries => entries
  | None => []
  end.

(** The schemas of all three recommendation lists. *)
Definition recommendedSchemas (r : Recommendations) : list string :=
  (map schema (missing (r_recommendations r))
   ++ map schema (improvements (r_recommendations r))
   ++ map schema (optionalItems (r_recommendations r)))%list.

(** Missing-set correctness as the specification states it, with every
    element of an array-valued [@type] counting as present. *)
Definition missingSetCorrect_spec (pageAnalysis : PageAnalysis)
    (existingSchemas : ExistingSchemas) : Prop :=
  let result := generateRecommendations pageAnalysis existingSchemas in
  (forall name entry,
      In name (recommendedSchemas result) ->
      In entry (entriesOf existingSchemas) ->
      ~ In name (declaredTypeNames_spec entry)) /\
  (forall name,
      In name (map schema (missing (r_recommendations result))) ->
      In name (primary (getBaseRecommendations (pageType result)))).

(** Two lists of names share a name. *)
Definition intersects (xs ys : list string) : bool :=
  existsb (fun x => existsb (String.eqb x) ys) xs.

Definition noInventory : ExistingSchemas :=
  {| jsonLd := None; microdata := []; rdfa := [] |}.

Definition inventoryOf (entries : list value) : ExistingSchemas :=
  {| jsonLd := Some entries; microdata := []; rdfa := [] |}.

Definition classifiedAs (type : string) : PageAnalysis :=
  {| pa_primaryType := Some type; pa_confidence := Some 3%Q |}.

(** An inventory entry, in the wrapped shape, of a page whose JSON-LD
    block has the types WebPage and Article. *)
Definition webPageArticleEntry : value :=
  JObject [("data", JObject [("@context", JString "https://schema.org");
                              ("@type", JArray [JString "WebPage"; JString "Article"])]);
           ("position", JNumber 1); ("isValid", JBool true)].

(** An inventory entry, in the wrapped shape, of an Organization block. *)
Definition organizationEntry : value :=
  JObject [("data", JObject [("@context", JString "https://schema.org");
                              ("@type", JString "Organization")]);
           ("position", JNumber 1); ("isValid", JBool true)].

(** A parsed Product block, not wrapped. *)
Definition bareProductBlock : value :=
  JObject [("@context", JString "https://schema.org");
           ("@type", JString "Product"); ("name", JString "Desk")].

End RecommenderSpec.

(* ------------------------------------------------------------------ *)
(** * StructuredDataRecommender, the business-specific part
      (structured-data-recommender.js) *)

Module BusinessSpecific.
Import Js.

(** [this.businessTypes], in declaration order. *)
Definition businessTypes : list (string * list string) :=
  [("Restaurant", ["レストラン"; "カフェ"; "カレー"; "食べ物"; "飲食店"]);
   ("Store", ["ストア"; "ショップ"; "店舗"; "販売"; "小売"]);
   ("Hotel", ["ホテル"; "宿泊"; "旅館"; "リゾート"]);
   ("Hospital", ["病院"; "クリニック"; "診療所"; "医療"]);
   ("School", ["学校"; "大学"; "塾"; "教育"; "スクール"]);
   ("Gym", ["ジム"; "フィットネス"; "スポーツクラブ"]);
   ("BeautySalon", ["美容室"; "サロン"; "エステ"; "美容"])].

(** The page data the recommender reads; a field is [None] when the
    object has no such property. *)
Record PageData : Type := {
  title : option string;
  bodyText : option string
}.

(** A field as the text it gives when concatenated or tested. *)
Definition asText (field : option string) : string :=
  match field with
  | Some s => s
  | None => "undefined"
  end.

(** A regular expression that is an alternation of literals, tested on a
    text. *)
Definition testAny (alternatives : list string) (text : string) : bool :=
  existsb (includes text) alternatives.

Definition hasBusinessHoursInfo (pageData : PageData) : bool :=
  testAny ["営業時間"; "開店"; "閉店"; "定休日"] (asText (bodyText pageData)).

Definition hasLocationInfo (pageData : PageData) : bool :=
  testAny ["住所"; "所在地"; "アクセス"; "地図"] (asText (bodyText pageData)).

Record BusinessRecommendation : Type := {
  b_type : string;
  suggestion : string;
  description : string;
  implementation : string
}.

Section WithLowerCase.
Variable toLowerCase : string -> string.

(** The text [detectBusinessType] searches. *)
Definition businessText (pageData : PageData) : string :=
  toLowerCase (asText (title pageData) ++ " " ++ asText (bodyText pageData)).

(** The test of the loop: some keyword of the category is in the text. *)
Definition mentions (text : string) (category : string * list string) : bool :=
  existsb (fun keyword => includes text (toLowerCase keyword)) (snd category).

(** The loop returns at the first category that passes the test. *)
Definition detectBusinessType (pageData : PageData) : option string :=
  option_map fst (find (mentions (businessText pageData)) businessTypes).

Definition getBusinessSpecificRecommendations (pageType : string)
    (pageData : PageData) : list BusinessRecommendation :=
  if negb (String.eqb pageType "LocalBusiness") then []
  else
    let businessType := detectBusinessType pageData in
    let recommendations :=
      match businessType with
      | Some businessType =>
          [ {| b_type := "BusinessType";
               suggestion := "LocalBusinessを" ++ businessType ++ "に特化";
               description :=
                 "より具体的な" ++ businessType
                 ++ "スキーマを使用することで、検索結果での表示が向上します";
               implementation :=
                 String (ascii_of_nat 34) "@type" ++ String (ascii_of_nat 34) ": "
                 ++ String (ascii_of_nat 34) businessType
                 ++ String (ascii_of_nat 34) "" |} ]
      | None => []
      end in
    let recommendations :=
      if hasBusinessHoursInfo pageData
      then (recommendations ++
            [ {| b_type := "OpeningHours";
                 suggestion := "OpeningHoursSpecificationの追加";
                 description :=
                   "営業時間情報を構造化することで、Googleマップでの表示が改善されます";
                 implementation := "openingHoursSpecificationプロパティを追加" |} ])%list
      else recommendations in
    let recommendations :=
      if hasLocationInfo pageData
      then (recommendations ++
            [ {| b_type := "GeoCoordinates";
                 suggestion := "GeoCoordinatesの追加";
                 description := "緯度経度情報により、ローカル検索での精度が向上します";
                 implementation := "geoプロパティにGeoCoordinatesを追加" |} ])%list
      else recommendations in
    recommendations.
End WithLowerCase.

(** A page of a cafe that is also a shop. *)
Definition cafePage : PageData := {|
  title := Some "カフェ たなか";
  bodyText := Some "店舗のご案内 営業時間 10:00-18:00 定休日 水曜"
|}.

End BusinessSpecific.

(* ------------------------------------------------------------------ *)
(** * More vocabulary of the recommender's properties *)

Module RecommenderSpecMore.
Import Js Json StructuredDataRecommender RecommenderSpec.

(** Names without duplicates, as a test. *)
Fixpoint distinct (names : list string) : bool :=
  match names with
  | [] => true
  | x :: rest => negb (existsb (String.eqb x) rest) && distinct rest
  end.


(** A classification without a primary type. *)
Definition unclassified : PageAnalysis :=
  {| pa_primaryType := None; pa_confidence := None |}.

End RecommenderSpecMore.

(* ------------------------------------------------------------------ *)
(** * SchemaTemplates, the entry point (schema-templates.js) *)

Module SchemaGeneration.
Import Js Json SchemaTemplates.

(** [guides[schemaType] || [...]], for a name that is not inherited. *)
Definition getImplementationGuide (schemaType : string) : list string :=
  match
    get String.eqb
      [("Article",
        ["headタグ内にJSON-LDスクリプトを追加";
         "headline、author、publisherは必須項目";
         "datePublished、dateModifiedを含めることを推奨";
         "mainEntityOfPageでページURLを指定"]);
       ("Product",
        ["name、offers、imageは必須項目";
         "aggregateRatingがあるとリッチスニペット表示の可能性が向上";
         "priceValidUntilで価格の有効期限を指定";
         "availabilityで在庫状況を明示"]);
       ("LocalBusiness",
        ["name、addressは必須項目";
         "openingHoursSpecificationで営業時間を詳細に記載";
         "geoCoordinatesでより正確な位置情報を提供";
         "telephoneでの連絡先情報は必ず含める"])]
      schemaType
  with
  | Some guide => guide
  | None =>
      ["Schema.orgの仕様に従って実装";
       "必須プロパティを確認して設定";
       "Google構造化データテストツールで検証"]
  end.

(** The table of [getRequiredData]. *)
Definition requiredData : list (string * list string) :=
  [("Article", ["headline"; "author"; "publisher"; "datePublished"]);
   ("Product", ["name"; "offers"; "image"]);
   ("LocalBusiness", ["name"; "address"]);
   ("Recipe", ["name"; "recipeIngredient"; "recipeInstructions"]);
   ("Event", ["name"; "startDate"; "location"]);
   ("FAQPage", ["mainEntity"]);
   ("HowTo", ["name"; "step"]);
   ("Review", ["itemReviewed"; "reviewRating"; "author"]);
   ("JobPosting", ["title"; "description"; "hiringOrganization"]);
   ("Course", ["name"; "provider"])].

(** [requiredData[schemaType] || []], for a name that is not inherited. *)
Definition getRequiredData (schemaType : string) : list string :=
  match get String.eqb requiredData schemaType with
  | Some fields => fields
  | None => []
  end.

(** The table of [getOptionalData]. *)
Definition optionalData : list (string * list string) :=
  [("Article", ["image"; "dateModified"; "mainEntityOfPage"; "keywords"]);
   ("Product", ["brand"; "aggregateRating"; "review"; "sku"]);
   ("LocalBusiness", ["telephone"; "openingHours"; "priceRange"; "geo"]);
   ("Recipe", ["author"; "nutrition"; "aggregateRating"; "prepTime"]);
   ("Event", ["offers"; "organizer"; "image"; "endDate"]);
   ("FAQPage", ["breadcrumb"; "lastReviewed"]);
   ("HowTo", ["image"; "video"; "totalTime"; "supply"]);
   ("Review", ["reviewBody"; "datePublished"]);
   ("JobPosting", ["baseSalary"; "benefits"; "qualifications"]);
   ("Course", ["offers"; "coursePrerequisites"; "educationalCredentialAwarded"])].

(** [optionalData[schemaType] || []], for a name that is not inherited. *)
Definition getOptionalData (schemaType : string) : list string :=
  match get String.eqb optionalData schemaType with
  | Some fields => fields
  | None => []
  end.

(** The properties of the object [getBasicTemplate] returns. *)
Definition getBasicTemplate (schemaType : string) : list (string * value) :=
  [("@context", JString "https://schema.org");
   ("@type", JString schemaType);
   ("name", JString "ページタイトルを入力してください");
   ("description", JString "ページの説明を入力してください")].

(** The answer of [generateSchema]; the failure answer has an error and
    no field lists.  The error is the message of what was thrown, with
    the name of the exception before it as [Thrown] carries it. *)
Record GeneratedSchema : Type := {
  success : bool;
  error : option string;
  schema : list (string * value);
  implementationGuide : list string;
  g_requiredData : option (list string);
  g_optionalData : option (list string)
}.

(** [generateSchema(schemaType, pageData, $)], for a type name that is
    not a name every object inherits. *)
Definition generateSchema (schemaType : string) (pageData : PageData) (x : Extracts)
    : GeneratedSchema :=
  tryCatch
    (bind
       (match getTemplate schemaType with
        | Some template => Returned template
        | None => Thrown ("Error: Unknown schema type: " ++ schemaType)
        end)
       (fun template =>
          bind (fillTemplate template pageData x) (fun filledTemplate =>
            Returned {|
              success := true;
              error := None;
              schema := filledTemplate;
              implementationGuide := getImplementationGuide schemaType;
              g_requiredData := Some (getRequiredData schemaType);
              g_optionalData := Some (getOptionalData schemaType)
            |})))
    (fun message => {|
       success := false;
       error := Some message;
       schema := getBasicTemplate schemaType;
       implementationGuide := getImplementationGuide schemaType;
       g_requiredData := None;
       g_optionalData := None
     |}).

End SchemaGeneration.

(* ------------------------------------------------------------------ *)
(** * More vocabulary of the templates' properties *)

Module TemplateSpecMore.
Import Js Json SchemaTemplates TemplateSpec.

(** An entry as the cleanup leaves it, at every depth of objects: no
    [null], no empty string, no placeholder named after the property, no
    empty array or object, no array item the filter refuses, and names
    that are distinct within an object. *)
#[warnings="-register-all"]
Inductive prunedEntry : string * value -> Prop :=
| pruned_bool key b :
    key <> "__proto__" -> prunedEntry (key, JBool b)
| pruned_number key n :
    key <> "__proto__" -> prunedEntry (key, JNumber n)
| pruned_string key s :
    key <> "__proto__" -> s <> "" -> s <> "{{" ++ key ++ "}}" ->
    prunedEntry (key, JString s)
| pruned_array key items :
    key <> "__proto__" -> items <> [] ->
    Forall (fun item => keepItem item = true) items ->
    prunedEntry (key, JArray items)
| pruned_object key props :
    key <> "__proto__" -> props <> [] -> NoDup (keys props) ->
    Forall prunedEntry props ->
    prunedEntry (key, JObject props).

(** The invariant of the loop of [cleanSchema]. *)
Definition wellPruned (cleaned : list (string * value)) : Prop :=
  NoDup (keys cleaned) /\ Forall prunedEntry cleaned.

(** What the loop of [cleanSchema] makes of one property value, taken by
    itself: nothing, or the value to store. *)
Definition cleanedValue (key : string) (v : value) : option value :=
  match v with
  | JNull => None
  | JString s =>
      if String.eqb s "" || String.eqb s ("{{" ++ key ++ "}}") then None else Some v
  | JArray items =>
      match filter keepItem items with
      | [] => None
      | kept => Some (JArray kept)
      end
  | JObject _ =>
      match cleanSchema v with
      | [] => None
      | cleaned => Some (JObject cleaned)
      end
  | JBool _ | JNumber _ => Some v
  end.

(** The entries of an object, each cleaned by itself, in their order. *)
Fixpoint cleanedEntries (props : list (string * value)) : list (string * value) :=
  match props with
  | [] => []
  | (key, v) :: rest =>
      match cleanedValue key v with
      | Some w => (key, w) :: cleanedEntries rest
      | None => cleanedEntries rest
      end
  end.




(** The property names of a template object. *)
Definition templateKeys (t : template) : list string :=
  match t with
  | TObject props => keys props
  | _ => []
  end.

(** The types whose extractor returns. *)
Definition extractedTypes : list string :=
  ["Article"; "NewsArticle"; "BlogPosting"; "Product"; "LocalBusiness"; "FAQPage"].

(** The types [generateSchema] can succeed on. *)
Definition fillableTypes : list string :=
  (extractedTypes ++ ["Organization"; "Person"; "BreadcrumbList"])%list.


(** An object with an empty string, a placeholder named after its
    property, a nested object that cleans to nothing and an array. *)
Definition messyObject : list (string * value) :=
  [("@type", JString "Thing");
   ("name", JString "");
   ("sku", JString "{{sku}}");
   ("brand", JObject [("name", JString "{{name}}")]);
   ("tags", JArray [JString "a"; JNull; JString "{{b}}"; JObject [("x", JString "")]]);
   ("count", JNumber 0)].

End TemplateSpecMore.

(* ------------------------------------------------------------------ *)
(** * SEOChecker (index.js) *)

Module SEOChecker.
Import Js Json.

(** ** Lengths and scores *)

(** What [loadConfig] returns, on either of its paths. *)
Record Config : Type := {
  titleMaxLength : Q;
  titleMinLength : Q;
  descriptionMaxLength : Q;
  descriptionMinLength : Q;
  h2MinCount : nat;
  h3MinCount : nat;
  internalLinksMin : nat
}.

Definition loadConfig : Config := {|
  titleMaxLength := 30;
  titleMinLength := 15;
  descriptionMaxLength := 80;
  descriptionMinLength := 60;
  h2MinCount := 2;
  h3MinCount := 3;
  internalLinksMin := 10
|}.

(** [lo <= code && code <= hi] *)
Definition between (lo hi code : N) : bool :=
  ((lo <=? code) && (code <=? hi))%N.

(** The test of the loop of [calculateFullWidthLength] on the code unit
    [charCodeAt] gives. *)
Definition isFullWidth (code : N) : bool :=
  between 0x3040 0x309F code ||
  between 0x30A0 0x30FF code ||
  between 0x4E00 0x9FAF code ||
  between 0xFF00 0xFFEF code ||
  (code =? 0x3000)%N ||
  between 0x3400 0x4DBF code ||
  between 0x20000 0x2A6DF code ||
  between 0x2A700 0x2B73F code ||
  between 0x2B740 0x2B81F code ||
  between 0x2B820 0x2CEAF code ||
  between 0xF900 0xFAFF code ||
  between 0x2F800 0x2FA1F code.

(** [calculateFullWidthLength(text)] on the UTF-16 code units of the
    text; the empty text is the falsy one. *)
Definition calculateFullWidthLength (text : list N) : Q :=
  fold_left
    (fun length code => if isFullWidth code then length + 1 else length + (1 # 2))
    text 0.

(** [a < b] on numbers. *)
Definition lessThan (a b : Q) : bool := negb (Qle_bool b a).

(** [calculateTitleScore(title, length)] *)
Definition calculateTitleScore (title : list N) (length : Q) : Z :=
  match title with
  | [] => 0
  | _ =>
      if lessThan length (titleMinLength loadConfig)
         || lessThan (titleMaxLength loadConfig) length
      then 50 else 100
  end%Z.

(** [calculateDescriptionScore(description, length)] *)
Definition calculateDescriptionScore (description : list N) (length : Q) : Z :=
  match description with
  | [] => 0
  | _ =>
      if lessThan length (descriptionMinLength loadConfig)
         || lessThan (descriptionMaxLength loadConfig) length
      then 50 else 100
  end%Z.

(** The two lists every check answers with. *)
Record Findings : Type := {
  issues : list string;
  recommendations : list string
}.

Definition noFindings : Findings := {| issues := []; recommendations := [] |}.

(** [if (c) score += points] *)
Definition addIf (c : bool) (points score : Z) : Z :=
  if c then (score + points)%Z else score.

(** [calculateHeadingScore(h1Count, h2Count, h3Count, hierarchy, content)] *)
Definition calculateHeadingScore (h1Count h2Count h3Count : nat)
    (hierarchy content : Findings) : Z :=
  let score := 0%Z in
  let score := addIf (h1Count =? 1)%nat 30 score in
  let score := addIf (h2MinCount loadConfig <=? h2Count)%nat 25 score in
  let score := addIf (h3MinCount loadConfig <=? h3Count)%nat 20 score in
  let score := addIf (length (issues hierarchy) =? 0)%nat 15 score in
  let score := addIf (length (issues content) =? 0)%nat 10 score in
  Z.min score 100.

(** [calculateLinkScore(totalLinks, internalLinks, externalLinks)] *)
Definition calculateLinkScore (totalLinks internalLinks externalLinks : nat) : Z :=
  if (totalLinks =? 0)%nat then 0%Z
  else
    let score := 0%Z in
    let score := addIf (internalLinksMin loadConfig <=? internalLinks)%nat 50 score in
    let score := addIf (0 <? externalLinks)%nat 30 score in
    let score := addIf (10 <=? totalLinks)%nat 20 score in
    Z.min score 100.

(** [calculateStructuredDataScore(jsonLd, microdata, rdfa, details)] *)
Definition calculateStructuredDataScore {A B C : Type}
    (jsonLd : list A) (microdata : list B) (rdfa : list C) (details : Findings) : Z :=
  let score := 0%Z in
  let score := addIf (0 <? length jsonLd)%nat 40 score in
  let score := addIf (0 <? length microdata)%nat 30 score in
  let score := addIf (0 <? length rdfa)%nat 30 score in
  let score := addIf (length (issues details) =? 0)%nat 20 score in
  Z.min score 100.

(** [calculateOtherSEOScore(urlIssues, mobileIssues, noindexIssues,
    securityIssues)] *)
Definition calculateOtherSEOScore
    (urlIssues mobileIssues noindexIssues securityIssues : Findings) : Z :=
  let count (f : Findings) := Z.of_nat (length (issues f)) in
  let score := 100%Z in
  let score := (score - count urlIssues * 10)%Z in
  let score := (score - count mobileIssues * 15)%Z in
  let score := (score - count noindexIssues * 20)%Z in
  let score := (score - count securityIssues * 5)%Z in
  Z.max score 0.

(** ** The JSON-LD checks *)

(** [issues.push(message)] and [recommendations.push(message)] *)
Definition pushIssue (message : string) (f : Findings) : Findings :=
  {| issues := (issues f ++ [message])%list; recommendations := recommendations f |}.

Definition pushRecommendation (message : string) (f : Findings) : Findings :=
  {| issues := issues f; recommendations := (recommendations f ++ [message])%list |}.

(** [issues.push(...other.issues); recommendations.push(...other.recommendations)] *)
Definition pushAll (other f : Findings) : Findings :=
  {| issues := (issues f ++ issues other)%list;
     recommendations := (recommendations f ++ recommendations other)%list |}.

(** [Boolean(x)] on a value or [undefined]. *)
Definition present (x : option value) : bool :=
  match x with
  | Some v => truthy v
  | None => false
  end.

(** [x === name] on a value or [undefined]. *)
Definition isString (x : option value) (name : string) : bool :=
  match x with
  | Some (JString s) => String.eqb s name
  | _ => false
  end.

(** [Array.isArray(x)] *)
Definition isArray (x : option value) : bool :=
  match x with
  | Some (JArray _) => true
  | _ => false
  end.

(** The number in a template literal. *)
Definition decimal (n : nat) : string :=
  DecimalString.NilEmpty.string_of_uint (Nat.to_uint n).

(** One [if (!schema.name) { ... }] of [validateSchema]. *)
Definition requireProp (schema : value) (name issue recommendation : string)
    (f : Findings) : Findings :=
  if negb (present (prop schema name))
  then pushRecommendation recommendation (pushIssue issue f)
  else f.

(** [validateSchema(schema, index)] *)
Definition validateSchema (schema : value) (index : nat) : outcome Findings :=
  bind (member schema "@type") (fun type =>
    if negb (present type)
    then
      Returned
        (pushRecommendation "JSON-LDに@typeを追加してください"
           (pushIssue ("JSON-LD[" ++ decimal index ++ "]に@typeがありません") noFindings))
    else
      let schemaType :=
        match type with
        | Some (JArray items) => nth_error items 0
        | other => other
        end in
      let f := noFindings in
      let f :=
        if isString schemaType "Organization"
        then
          requireProp schema "url"
            "Organizationスキーマにurlがありません"
            "Organizationスキーマにurlを追加してください"
            (requireProp schema "name"
               "Organizationスキーマにnameがありません"
               "Organizationスキーマにnameを追加してください" f)
        else f in
      let f :=
        if isString schemaType "WebSite"
        then
          requireProp schema "potentialAction"
            "WebSiteスキーマにpotentialActionがありません"
            "WebSiteスキーマにSearchActionを追加してください"
            (requireProp schema "url"
               "WebSiteスキーマにurlがありません"
               "WebSiteスキーマにurlを追加してください"
               (requireProp schema "name"
                  "WebSiteスキーマにnameがありません"
                  "WebSiteスキーマにnameを追加してください" f))
        else f in
      let f :=
        if isString schemaType "Product"
        then
          requireProp schema "offers"
            "Productスキーマにoffersがありません"
            "Productスキーマにoffersを追加してください"
            (requireProp schema "description"
               "Productスキーマにdescriptionがありません"
               "Productスキーマにdescriptionを追加してください"
               (requireProp schema "name"
                  "Productスキーマにnameがありません"
                  "Productスキーマにnameを追加してください" f))
        else f in
      let f :=
        if isString schemaType "BreadcrumbList"
        then
          if negb (present (prop schema "itemListElement"))
             || negb (isArray (prop schema "itemListElement"))
          then
            pushRecommendation "BreadcrumbListスキーマにitemListElementを追加してください"
              (pushIssue "BreadcrumbListスキーマにitemListElementがありません" f)
          else f
        else f in
      Returned f).

(** The first loop of [checkJsonLdDetails]: the members added to
    [foundSchemas] for one entry, after those already there. *)
Definition addFound (foundSchemas : list value) (schema : value) : outcome (list value) :=
  bind (member schema "@type") (fun type =>
    if present type
    then
      match type with
      | Some (JArray items) => Returned (foundSchemas ++ items)%list
      | Some v => Returned (foundSchemas ++ [v])%list
      | None => Returned foundSchemas
      end
    else Returned foundSchemas).

Fixpoint collectFound (foundSchemas : list value) (jsonLdArray : list value)
    : outcome (list value) :=
  match jsonLdArray with
  | [] => Returned foundSchemas
  | schema :: rest =>
      bind (addFound foundSchemas schema) (fun foundSchemas =>
        collectFound foundSchemas rest)
  end.

(** [foundSchemas.has(schema)] for a string. *)
Definition hasSchema (foundSchemas : list value) (schema : string) : bool :=
  existsb (fun v => isString (Some v) schema) foundSchemas.

Definition requiredSchemas : list string :=
  ["Organization"; "WebSite"; "Product"; "BreadcrumbList"].

(** The second loop: one required schema. *)
Definition reportMissing (foundSchemas : list value) (f : Findings) (schema : string)
    : Findings :=
  if negb (hasSchema foundSchemas schema)
  then
    pushRecommendation (schema ++ "スキーマを実装してください")
      (pushIssue (schema ++ "スキーマが不足しています") f)
  else f.

(** The third loop, from the entry at [index] on. *)
Fixpoint validateAll (jsonLdArray : list value) (index : nat) (f : Findings)
    : outcome Findings :=
  match jsonLdArray with
  | [] => Returned f
  | schema :: rest =>
      bind (validateSchema schema index) (fun schemaIssues =>
        validateAll rest (S index) (pushAll schemaIssues f))
  end.

(** [checkJsonLdDetails(jsonLdArray)] *)
Definition checkJsonLdDetails (jsonLdArray : list value) : outcome Findings :=
  match jsonLdArray with
  | [] => Returned noFindings
  | _ =>
      bind (collectFound [] jsonLdArray) (fun foundSchemas =>
        validateAll jsonLdArray 0
          (fold_left (reportMissing foundSchemas) requiredSchemas noFindings))
  end.

End SEOChecker.

(* ------------------------------------------------------------------ *)
(** * OptimizedSEOChecker (analysis/seo-checker/index.js) *)

Module OptimizedSEOChecker.
Import SEOChecker.

(** The test of the loop of this class's [calculateFullWidthLength]. *)
Definition isFullWidth (code : N) : bool :=
  between 0x3040 0x309F code ||
  between 0x30A0 0x30FF code ||
  between 0x4E00 0x9FAF code ||
  between 0xFF00 0xFFEF code ||
  (code =? 0x3000)%N.

Definition calculateFullWidthLength (text : list N) : Q :=
  fold_left
    (fun length code => if isFullWidth code then length + 1 else length + (1 # 2))
    text 0.

End OptimizedSEOChecker.

(* ------------------------------------------------------------------ *)
(** * Vocabulary of the checker's properties *)

Module CheckerSpec.
Import Js Json SEOChecker.

(** A UTF-16 code unit. *)
Definition codeUnit (code : N) : Prop := (code < 0x10000)%N.

(** The two halves of a character outside the basic plane. *)
Definition highSurrogate (code : N) : Prop := (0xD800 <= code <= 0xDBFF)%N.
Definition lowSurrogate (code : N) : Prop := (0xDC00 <= code <= 0xDFFF)%N.

(** The number of code units the test takes for full-width. *)
Definition fullWidthCount (text : list N) : nat :=
  length (filter isFullWidth text).

(** The two ranges only the larger test knows. *)
Definition extensionOnly (code : N) : bool :=
  between 0x3400 0x4DBF code || between 0xF900 0xFAFF code.

(** The entry declares the type: as its [@type], or as a member of an
    array-valued [@type]. *)
Definition declares (schema : value) (name : string) : Prop :=
  prop schema "@type" = Some (JString name) \/
  exists items, prop schema "@type" = Some (JArray items) /\ In (JString name) items.

(** Both lists have the same length, at most [k]. *)
Definition paired (k : nat) (f : Findings) : Prop :=
  length (issues f) = length (recommendations f) /\ (length (issues f) <= k)%nat.

(** An organization with a name and no address of its own. *)
Definition namedOrganization : value :=
  JObject [("@type", JString "Organization"); ("name", JString "Tanaka Books")].

(** A block whose type is a list. *)
Definition siteAndCrumbs : value :=
  JObject [("@type", JArray [JString "WebSite"; JString "BreadcrumbList"]);
           ("name", JString "Tanaka Books");
           ("url", JString "https://example.com/")].

End CheckerSpec.

(* ------------------------------------------------------------------ *)
(** * DetailedAnalyzer (detailed-analyzer.js) *)

Module DetailedAnalyzer.
Import Js Json.

(** An entry of the [jsonLd] list of [analyzeStructuredData]. *)
Record JsonLdEntry : Type := {
  data : value;
  position : nat;
  isValid : bool;
  error : option string  (* [None]: the object has no such property *)
}.

(** What the loop over the JSON-LD scripts pushes for the script at
    index [i], given what [JSON.parse] made of its text. *)
Definition jsonLdEntry (i : nat) (parsed : outcome value) : JsonLdEntry :=
  match parsed with
  | Returned parsedData =>
      {| data := parsedData; position := i + 1; isValid := true; error := None |}
  | Thrown message =>
      {| data := JNull; position := i + 1; isValid := false; error := Some message |}
  end.

(** The [jsonLd] list after the loop, from the script at index [i] on. *)
Fixpoint collectJsonLd (i : nat) (scripts : list (outcome value)) : list JsonLdEntry :=
  match scripts with
  | [] => []
  | parsed :: rest => jsonLdEntry i parsed :: collectJsonLd (S i) rest
  end.

(** The entry as the object the recommender is handed. *)
Definition asValue (entry : JsonLdEntry) : value :=
  JObject
    ([("data", data entry);
      ("position", JNumber (inject_Z (Z.of_nat (position entry))));
      ("isValid", JBool (isValid entry))]
     ++ match error entry with
        | Some message => [("error", JString message)]
        | None => []
        end)%list.

(** One turn of the loop that fills [foundSchemas]: the members added
    for one entry, after those already there. *)
Definition addFound (foundSchemas : list value) (schema : JsonLdEntry) : list value :=
  if isValid schema && truthy (data schema)
  then
    match prop (data schema) "@type" with
    | Some (JArray items) => (foundSchemas ++ items)%list
    | Some type => if truthy type then (foundSchemas ++ [type])%list else foundSchemas
    | None => foundSchemas
    end
  else foundSchemas.

(** The members of [foundSchemas] after the loop, in the order they
    were added. *)
Definition foundSchemas (jsonLd : list JsonLdEntry) : list value :=
  fold_left addFound jsonLd [].

(** The fields of a specific issue that the priorities read. *)
Record SpecificIssue : Type := {
  issueType : string;
  issueSchema : option string;
  issuePriority : option string
}.

(** [determinePriority(issue)] *)
Definition determinePriority (issue : SpecificIssue) : string :=
  if String.eqb (issueType issue) "missing"
     || String.eqb (issueType issue) "jsonld_syntax"
  then "critical"
  else if String.eqb (issueType issue) "missing_schema"
          && match issueSchema issue with
             | Some schema =>
                 existsb (String.eqb schema) ["Article"; "Product"; "LocalBusiness"]
             | None => false
             end
  then "high"
  else if String.eqb (issueType issue) "improvement" then "medium"
  else "low".

Record Priorities : Type := {
  critical : list SpecificIssue;
  high : list SpecificIssue;
  medium : list SpecificIssue;
  low : list SpecificIssue
}.

(** [issue.priority || this.determinePriority(issue)] *)
Definition priorityOf (issue : SpecificIssue) : string :=
  match issuePriority issue with
  | Some priority => if String.eqb priority "" then determinePriority issue else priority
  | None => determinePriority issue
  end.

(** One turn of the loop of [calculateImplementationPriority].  A name
    every object inherits gives a value that is truthy and has no
    [push]. *)
Definition pushByPriority (priorities : Priorities) (issue : SpecificIssue)
    : outcome Priorities :=
  let priority := priorityOf issue in
  if String.eqb priority "critical" then
    Returned {| critical := (critical priorities ++ [issue])%list;
                high := high priorities; medium := medium priorities;
                low := low priorities |}
  else if String.eqb priority "high" then
    Returned {| critical := critical priorities;
                high := (high priorities ++ [issue])%list;
                medium := medium priorities; low := low priorities |}
  else if String.eqb priority "medium" then
    Returned {| critical := critical priorities; high := high priorities;
                medium := (medium priorities ++ [issue])%list;
                low := low priorities |}
  else if String.eqb priority "low" then
    Returned {| critical := critical priorities; high := high priorities;
                medium := medium priorities;
                low := (low priorities ++ [issue])%list |}
  else if existsb (String.eqb priority) StructuredDataRecommender.inheritedNames then
    Thrown "TypeError: priorities[priority].push is not a function"
  else
    Returned {| critical := critical priorities; high := high priorities;
                medium := (medium priorities ++ [issue])%list;
                low := low priorities |}.

Fixpoint pushAllByPriority (priorities : Priorities) (specificIssues : list SpecificIssue)
    : outcome Priorities :=
  match specificIssues with
  | [] => Returned priorities
  | issue :: rest =>
      bind (pushByPriority priorities issue) (fun priorities =>
        pushAllByPriority priorities rest)
  end.

(** [calculateImplementationPriority(specificIssues)] *)
Definition calculateImplementationPriority (specificIssues : list SpecificIssue)
    : outcome Priorities :=
  pushAllByPriority {| critical := []; high := []; medium := []; low := [] |}
    specificIssues.

End DetailedAnalyzer.

(* ------------------------------------------------------------------ *)
(** * Vocabulary of the detailed analysis's properties *)

Module AnalyzerSpec.
Import Js Json DetailedAnalyzer.

(** The list an issue ends in. *)
Definition bucketOf (issue : SpecificIssue) : string :=
  if existsb (String.eqb (priorityOf issue)) ["critical"; "high"; "low"]
  then priorityOf issue else "medium".

Definition inBucket (name : string) (issue : SpecificIssue) : bool :=
  String.eqb (bucketOf issue) name.

(** The priority is a property the four lists can be looked up by. *)
Definition plainPriority (issue : SpecificIssue) : Prop :=
  ~ In (priorityOf issue) StructuredDataRecommender.inheritedNames.

(** A script whose type is a list of two names. *)
Definition articleAndFaq : outcome value :=
  Returned (JObject [("@type", JArray [JString "Article"; JString "FAQPage"]);
                     ("headline", JString "Opening hours")]).

End AnalyzerSpec.

(* ================================================================== *)
(** * Properties *)

(** ** Property maps *)

Section PropertyMapFacts.
Import Js.
Context {K V : Type}.
Variable keyEqb : K -> K -> bool.
Hypothesis keyEqb_spec : forall a b, keyEqb a b = true <-> a = b.

Lemma keyEqb_refl (k : K) : keyEqb k k = true.
Proof. now apply keyEqb_spec. Qed.

Lemma keyEqb_neq (a b : K) : a <> b -> keyEqb a b = false.
Proof.
  intro Hne. destruct (keyEqb a b) eqn:E; [|reflexivity].
  apply keyEqb_spec in E. contradiction.
Qed.

Lemma get_set_same (obj : list (K * V)) k v :
  get keyEqb (set keyEqb obj k v) k = Some v.
Proof.
  induction obj as [|[k' v'] rest IH]; simpl.
  - now rewrite keyEqb_refl.
  - destruct (keyEqb k k') eqn:E; simpl; rewrite E; [reflexivity | exact IH].
Qed.

Lemma get_set_other (obj : list (K * V)) k k0 v :
  k0 <> k -> get keyEqb (set keyEqb obj k v) k0 = get keyEqb obj k0.
Proof.
  intro Hne. induction obj as [|[k' v'] rest IH]; simpl.
  - now rewrite (keyEqb_neq _ _ Hne).
  - destruct (keyEqb k k') eqn:E; simpl.
    + apply keyEqb_spec in E. subst k'.
      now rewrite (keyEqb_neq _ _ Hne).
    + now rewrite IH.
Qed.

Lemma keys_set_present (obj : list (K * V)) k v :
  In k (keys obj) -> keys (set keyEqb obj k v) = keys obj.
Proof.
  unfold keys. induction obj as [|[k' v'] rest IH]; simpl; [tauto|].
  intros [Heq | Hin].
  - subst k'. now rewrite keyEqb_refl.
  - destruct (keyEqb k k'); simpl; [reflexivity | now rewrite IH].
Qed.

Lemma keys_set_absent (obj : list (K * V)) k v :
  ~ In k (keys obj) -> set keyEqb obj k v = (obj ++ [(k, v)])%list.
Proof.
  unfold keys. induction obj as [|[k' v'] rest IH]; simpl; [reflexivity|].
  intro Hnot. rewrite keyEqb_neq by (intro; subst; tauto).
  rewrite IH by tauto. reflexivity.
Qed.

Lemma get_In (obj : list (K * V)) k v :
  NoDup (keys obj) -> In (k, v) obj -> get keyEqb obj k = Some v.
Proof.
  unfold keys. induction obj as [|[k' v'] rest IH]; simpl; [tauto|].
  intros Hnd [Heq | Hin]; inversion Hnd as [|? ? Hnotin Hnd']; subst.
  - inversion Heq; subst. now rewrite keyEqb_refl.
  - rewrite keyEqb_neq; [now apply IH|].
    intro; subst. apply Hnotin. now apply (in_map fst) in Hin.
Qed.
Lemma get_Some_In (obj : list (K * V)) k v :
  get keyEqb obj k = Some v -> In (k, v) obj.
Proof.
  induction obj as [|[k' v'] rest IH]; simpl; [discriminate|].
  destruct (keyEqb k k') eqn:E.
  - apply keyEqb_spec in E. subst k'. intro H. inversion H. now left.
  - intro H. right. now apply IH.
Qed.
End PropertyMapFacts.

(** ** The classifier *)

Section ClassifierFacts.
Import Js PageTypeAnalyzer ClassifierSpec.
Local Open Scope Q_scope.
Variable toLowerCase : string -> string.

Lemma PageType_eqb_spec (a b : PageType) : PageType_eqb a b = true <-> a = b.
Proof. destruct a, b; simpl; split; intro H; try reflexivity; discriminate. Qed.

Lemma orZero_Some (q : Q) : orZero (Some q) == q.
Proof.
  unfold orZero. destruct (Qeq_bool q 0) eqn:E; [|reflexivity].
  apply Qeq_bool_eq in E. now rewrite E.
Qed.

Lemma comesAfter_lt (a b : PageType * Q) :
  comesAfter a b = true <-> snd a < snd b.
Proof.
  unfold comesAfter. rewrite negb_true_iff.
  destruct (Qle_bool (snd b - snd a) 0) eqn:E.
  - apply Qle_bool_iff in E. split; [discriminate | intro; lra].
  - split; [intros _ | reflexivity].
    destruct (Qlt_le_dec (snd a) (snd b)) as [Hlt | Hle]; [exact Hlt|].
    assert (H : Qle_bool (snd b - snd a) 0 = true) by (apply Qle_bool_iff; lra).
    congruence.
Qed.

Lemma comesAfter_ge (a b : PageType * Q) :
  comesAfter a b = false <-> snd b <= snd a.
Proof.
  split; intro H.
  - destruct (Qlt_le_dec (snd a) (snd b)) as [Hlt | Hle]; [|exact Hle].
    apply comesAfter_lt in Hlt. congruence.
  - destruct (comesAfter a b) eqn:E; [|reflexivity].
    apply comesAfter_lt in E. lra.
Qed.

(** *** The sort and the score object *)

Lemma insertEntry_perm x l : Permutation (insertEntry x l) (x :: l).
Proof.
  induction l as [|y rest IH]; simpl; [apply Permutation_refl|].
  destruct (comesAfter x y).
  - eapply perm_trans; [apply perm_skip, IH | apply perm_swap].
  - apply Permutation_refl.
Qed.

Lemma sortEntries_perm l : Permutation (sortEntries l) l.
Proof.
  induction l as [|x rest IH]; simpl; [constructor|].
  eapply perm_trans; [apply insertEntry_perm | now apply perm_skip].
Qed.

Lemma insertEntry_descending x l :
  descending l -> descending (insertEntry x l).
Proof.
  induction 1 as [|y rest Hall Hdesc IH]; simpl.
  - constructor; constructor.
  - destruct (comesAfter x y) eqn:E.
    + apply comesAfter_lt in E. constructor; [|exact IH].
      apply (Permutation_Forall (Permutation_sym (insertEntry_perm x rest))).
      constructor; [lra | exact Hall].
    + apply comesAfter_ge in E. constructor.
      * constructor; [exact E|].
        eapply Forall_impl; [|exact Hall]. simpl. intros z Hz. lra.
      * now constructor.
Qed.

Lemma sortEntries_descending l : descending (sortEntries l).
Proof.
  induction l as [|x rest IH]; simpl; [constructor|].
  now apply insertEntry_descending.
Qed.

(** Stability at the top: the first entry of the result is the first
    entry of the input whose score is maximal. *)
Lemma sortEntries_head l x r :
  sortEntries l = x :: r ->
  exists before after,
    l = (before ++ x :: after)%list /\
    Forall (fun y => snd y < snd x) before /\
    Forall (fun y => snd y <= snd x) after.
Proof.
  revert x r. induction l as [|a rest IH]; simpl; intros x r Hs; [discriminate|].
  destruct (sortEntries rest) as [|y r'] eqn:Er.
  - assert (rest = []) as ->.
    { apply Permutation_nil. rewrite <- Er. apply sortEntries_perm. }
    simpl in Hs. inversion Hs; subst.
    exists [], []. repeat split; constructor.
  - destruct (IH y r' eq_refl) as (before & after & Hl & Hb & Ha).
    simpl in Hs. destruct (comesAfter a y) eqn:E.
    + inversion Hs; subst x r. apply comesAfter_lt in E.
      exists (a :: before), after. subst rest. repeat split; auto.
    + inversion Hs; subst x r. apply comesAfter_ge in E.
      exists [], rest. repeat split; [constructor|].
      subst rest. apply Forall_app. split.
      * eapply Forall_impl; [|exact Hb]. simpl. intros z Hz. lra.
      * constructor; [exact E|].
        eapply Forall_impl; [|exact Ha]. simpl. intros z Hz. lra.
Qed.

Lemma calculateTypeScores_unfold pageData :
  calculateTypeScores toLowerCase pageData =
  applySpecialElementBonus
    (baseScores (fun type => calculateSingleTypeScore toLowerCase type pageData))
    (specialElements pageData).
Proof. reflexivity. Qed.

Local Arguments orZero : simpl never.

Lemma applySpecialElementBonus_get f se type :
  exists q,
    get PageType_eqb (applySpecialElementBonus (baseScores f) se) type = Some q /\
    q == f type + specialElementBonus_spec se type.
Proof.
  destruct se as [p r e c q j k].
  destruct p, r, e, c, q, j, k, type; cbn;
    (eexists; split; [reflexivity | rewrite ?orZero_Some; ring]).
Qed.

Lemma applySpecialElementBonus_keys f se :
  keys (applySpecialElementBonus (baseScores f) se) = patternKeys.
Proof.
  destruct se as [p r e c q j k].
  destruct p, r, e, c, q, j, k; reflexivity.
Qed.

Lemma calculateTypeScores_keys pageData :
  keys (calculateTypeScores toLowerCase pageData) = patternKeys.
Proof. rewrite calculateTypeScores_unfold. apply applySpecialElementBonus_keys. Qed.

Lemma patternKeys_NoDup : NoDup patternKeys.
Proof.
  unfold patternKeys.
  repeat (constructor; [simpl; intuition discriminate|]). constructor.
Qed.

Lemma patternKeys_complete type : In type patternKeys.
Proof. destruct type; simpl; tauto. Qed.

Lemma position_nth type : nth_error patternKeys (position type) = Some type.
Proof. destruct type; reflexivity. Qed.

Lemma nth_position i type : nth_error patternKeys i = Some type -> position type = i.
Proof.
  intro H. do 10 (destruct i as [|i]; [inversion H; reflexivity|]).
  destruct i; discriminate.
Qed.

(** An entry of the score object records the final score of its type. *)
Lemma finalScore_entry pageData entry :
  In entry (calculateTypeScores toLowerCase pageData) ->
  finalScore toLowerCase pageData (fst entry) = snd entry.
Proof.
  intro Hin. unfold finalScore. destruct entry as [t q]. simpl.
  rewrite (get_In PageType_eqb PageType_eqb_spec _ t q); [reflexivity| |exact Hin].
  rewrite calculateTypeScores_keys. apply patternKeys_NoDup.
Qed.

Lemma finalScore_bonus pageData type :
  finalScore toLowerCase pageData type ==
  calculateSingleTypeScore toLowerCase type pageData
  + specialElementBonus_spec (specialElements pageData) type.
Proof.
  unfold finalScore. rewrite calculateTypeScores_unfold.
  destruct (applySpecialElementBonus_get
              (fun t => calculateSingleTypeScore toLowerCase t pageData)
              (specialElements pageData) type) as (q & -> & Hq).
  exact Hq.
Qed.

Lemma entry_of_type pageData type :
  exists q, In (type, q) (calculateTypeScores toLowerCase pageData).
Proof.
  pose proof (patternKeys_complete type) as Hin.
  rewrite <- (calculateTypeScores_keys pageData) in Hin.
  unfold keys in Hin. apply in_map_iff in Hin.
  destruct Hin as ([t q] & Hfst & Hin). simpl in Hfst. subst t. now exists q.
Qed.

Lemma ranking_perm pageData : Permutation (ranking toLowerCase pageData) patternKeys.
Proof.
  unfold ranking. rewrite <- (calculateTypeScores_keys pageData).
  apply Permutation_map, sortEntries_perm.
Qed.

Lemma descending_ranked pageData entries :
  descending entries ->
  (forall e, In e entries -> finalScore toLowerCase pageData (fst e) = snd e) ->
  rankedDescending toLowerCase pageData (map fst entries).
Proof.
  induction 1 as [|x l Hall Hdesc IH]; intros Hscore i j a b Hlt Hi Hj.
  - destruct i; discriminate.
  - destruct j as [|j]; [lia|]. simpl in Hj.
    destruct i as [|i]; simpl in Hi.
    + inversion Hi; subst a.
      apply nth_error_In, in_map_iff in Hj. destruct Hj as (e & <- & Hin).
      rewrite (Hscore x), (Hscore e) by (simpl; auto).
      rewrite Forall_forall in Hall. now apply Hall.
    + apply (IH (fun e He => Hscore e (or_intror He)) i j); [lia | assumption..].
Qed.

Lemma ranking_descending pageData : rankedDescending toLowerCase pageData (ranking toLowerCase pageData).
Proof.
  apply descending_ranked; [apply sortEntries_descending|].
  intros e He. apply finalScore_entry.
  eapply Permutation_in; [apply sortEntries_perm | exact He].
Qed.

Lemma ranking_length pageData : length (ranking toLowerCase pageData) = 10%nat.
Proof. now rewrite (Permutation_length (ranking_perm pageData)). Qed.

(** The first type of the ranking has the greatest final score and is
    the first such type of the signature table. *)
Lemma ranking_head pageData t rest :
  ranking toLowerCase pageData = t :: rest ->
  (forall u, finalScore toLowerCase pageData u <= finalScore toLowerCase pageData t) /\
  (forall u, (position u < position t)%nat ->
             finalScore toLowerCase pageData u < finalScore toLowerCase pageData t).
Proof.
  unfold ranking. intro Hr.
  destruct (sortEntries (calculateTypeScores toLowerCase pageData)) as [|x r] eqn:Es;
    [discriminate|].
  simpl in Hr. inversion Hr; subst t rest. clear Hr.
  destruct (sortEntries_head _ _ _ Es) as (before & after & Hl & Hb & Ha).
  assert (Hx : finalScore toLowerCase pageData (fst x) = snd x).
  { apply finalScore_entry. rewrite Hl. apply in_elt. }
  pose proof (calculateTypeScores_keys pageData) as Hk.
  unfold keys in Hk. rewrite Hl, map_app in Hk. simpl in Hk.
  rewrite Forall_forall in Hb, Ha. split.
  - intro u. destruct (entry_of_type pageData u) as (q & Hin).
    pose proof (finalScore_entry pageData (u, q) Hin) as Hu. simpl in Hu.
    rewrite Hu, Hx. change q with (snd (u, q)).
    rewrite Hl in Hin. apply in_app_or in Hin. destruct Hin as [Hin | [Heq | Hin]].
    + apply Qlt_le_weak. apply (Hb _ Hin).
    + subst x. simpl. apply Qle_refl.
    + apply (Ha _ Hin).
  - intros u Hpos.
    assert (Hpx : position (fst x) = length before).
    { apply nth_position. rewrite <- Hk.
      rewrite nth_error_app2 by (rewrite length_map; lia).
      rewrite length_map, Nat.sub_diag. reflexivity. }
    pose proof (position_nth u) as Hu. rewrite <- Hk in Hu.
    rewrite nth_error_app1 in Hu by (rewrite length_map; lia).
    apply nth_error_In, in_map_iff in Hu. destruct Hu as (e & Hfst & Hin).
    subst u. rewrite Hx.
    rewrite (finalScore_entry pageData e); [now apply Hb|].
    rewrite Hl. apply in_or_app. now left.
Qed.

(** *** analyzePage *)

Variable Document : Type.
Variable extractPageData : Document -> string -> outcome ExtractedPageData.

Lemma analyzePage_returned doc url pageData :
  extractPageData doc url = Returned pageData ->
  exists t1 t2 t3 rest,
    ranking toLowerCase pageData = t1 :: t2 :: t3 :: rest /\
    let result := analyzePage toLowerCase Document extractPageData doc url in
    primaryType result = Some t1 /\
    secondaryTypes result = [t2; t3] /\
    allScores result = calculateTypeScores toLowerCase pageData /\
    confidence result == finalScore toLowerCase pageData t1.
Proof.
  intro Hx. pose proof (ranking_length pageData) as Hlen.
  destruct (ranking toLowerCase pageData) as [|t1 [|t2 [|t3 [|t4 [|t5 rest]]]]] eqn:Er;
    try discriminate.
  exists t1, t2, t3, (t4 :: t5 :: rest). split; [reflexivity|].
  unfold analyzePage, getTopTypes. rewrite Hx. simpl.
  fold (ranking toLowerCase pageData). rewrite Er. simpl. repeat split.
  unfold finalScore.
  destruct (entry_of_type pageData t1) as (q & Hin).
  rewrite (get_In PageType_eqb PageType_eqb_spec _ t1 q);
    [apply orZero_Some | | exact Hin].
  rewrite calculateTypeScores_keys. apply patternKeys_NoDup.
Qed.

(** When the extraction throws, the answer is the default one. *)
Lemma analyzePage_thrown doc url message :
  extractPageData doc url = Thrown message ->
  let result := analyzePage toLowerCase Document extractPageData doc url in
  primaryType result = Some Article /\ confidence result = 0 /\
  secondaryTypes result = [] /\ allScores result = [].
Proof. intro Hx. unfold analyzePage. rewrite Hx. simpl. repeat split. Qed.

Lemma noMatch_base_zero pageData type :
  noSignatureMatch toLowerCase pageData ->
  noCountedContentPattern toLowerCase pageData ->
  calculateSingleTypeScore toLowerCase type pageData == 0.
Proof.
  intros Hno Hcontent.
  destruct (Hno type) as (H1 & H2 & H3 & H4 & H5 & H6 & _).
  pose proof (Hcontent type) as H7.
  unfold calculateSingleTypeScore.
  cbv zeta. rewrite H1, H2, H3, H4, H5, H6, H7. reflexivity.
Qed.

Lemma noSpecial_bonus_zero se type :
  noSpecialElement se -> specialElementBonus_spec se type = 0.
Proof.
  intros (H1 & H2 & H3 & H4 & H5 & H6 & H7).
  destruct type; simpl; rewrite ?H1, ?H2, ?H3, ?H4, ?H5, ?H6, ?H7; reflexivity.
Qed.

(** The base score the code computes: the weighted sum in which the
    content patterns are counted by occurrence, like keywords. *)
Lemma calculateSingleTypeScore_formula type pageData :
  let sig := patterns type in
  let hits text words := num (countMatches toLowerCase text words) in
  calculateSingleTypeScore toLowerCase type pageData ==
  3 * (hits (title pageData) (keywords sig)
       + num (countPatternMatches (title pageData) (titlePatterns sig)))
  + (5 # 2) * hits (metaDescription pageData) (keywords sig)
  + 2 * hits (String.concat " " (headings pageData)) (keywords sig)
  + 2 * num (countPatternMatches (url pageData) (urlPatterns sig))
  + 1 * (hits (bodyText pageData) (keywords sig)
         + hits (bodyText pageData) (contentPatterns sig)).
Proof. unfold calculateSingleTypeScore, weights. simpl. ring. Qed.

(** C6: in the score object the classifier returns, every type has its
    base score plus exactly the bonuses the specification lists for it:
    +10 on Product for a price element, +8 on Review and +5 on Product
    for a review element, +12 on Event, +15 on Recipe, +15 on FAQ, +12
    on JobPosting, +10 on Course, each for its own marker, and nothing
    on the other types. *)
Theorem special_element_bonus_exact pageData type :
  exists q,
    get PageType_eqb (calculateTypeScores toLowerCase pageData) type = Some q /\
    q == calculateSingleTypeScore toLowerCase type pageData
         + specialElementBonus_spec (specialElements pageData) type.
Proof.
  rewrite calculateTypeScores_unfold.
  apply (applySpecialElementBonus_get
           (fun t => calculateSingleTypeScore toLowerCase t pageData)).
Qed.

(** C8: on a run whose extraction succeeds, the types ranked by final
    score (a permutation of the ten types along which the final score
    never increases) give the answer: the primary type is the first, so
    its final score is maximal; the secondary types are the second and
    the third; the confidence is the primary type's score as recorded in
    [allScores], unscaled. *)
Theorem analyzePage_ranking doc url pageData :
  extractPageData doc url = Returned pageData ->
  let result := analyzePage toLowerCase Document extractPageData doc url in
  exists t1 t2 t3 rest,
    Permutation (t1 :: t2 :: t3 :: rest) patternKeys /\
    rankedDescending toLowerCase pageData (t1 :: t2 :: t3 :: rest) /\
    primaryType result = Some t1 /\
    (forall u, finalScore toLowerCase pageData u <= finalScore toLowerCase pageData t1) /\
    secondaryTypes result = [t2; t3] /\
    exists q, get PageType_eqb (allScores result) t1 = Some q /\
              confidence result == q /\
              q == calculateSingleTypeScore toLowerCase t1 pageData
                   + specialElementBonus_spec (specialElements pageData) t1.
Proof.
  intro Hx.
  destruct (analyzePage_returned doc url pageData Hx)
    as (t1 & t2 & t3 & rest & Hr & Hp & Hs & Ha & Hc).
  exists t1, t2, t3, rest. rewrite <- Hr.
  split; [apply ranking_perm|]. split; [apply ranking_descending|].
  split; [exact Hp|]. split; [apply (ranking_head pageData t1 _ Hr)|].
  split; [exact Hs|].
  cbv zeta. rewrite Ha.
  destruct (entry_of_type pageData t1) as (q & Hin). exists q.
  pose proof (finalScore_entry pageData _ Hin) as Hq. simpl in Hq.
  split.
  - apply (get_In PageType_eqb PageType_eqb_spec); [|exact Hin].
    rewrite calculateTypeScores_keys. apply patternKeys_NoDup.
  - rewrite <- Hq. split; [exact Hc | apply finalScore_bonus].
Qed.

(** What holds of the tie-break: on a run whose extraction succeeds the
    primary type is the first type, in the declaration order of the
    signature table, whose final score is maximal; so a page on which no
    keyword and no pattern matches, no content pattern is counted by the
    code either and no special element is detected is classified
    Article with confidence 0. *)
Theorem analyzePage_tie_break doc url pageData :
  extractPageData doc url = Returned pageData ->
  let result := analyzePage toLowerCase Document extractPageData doc url in
  (exists t,
      primaryType result = Some t /\
      (forall u, finalScore toLowerCase pageData u <= finalScore toLowerCase pageData t) /\
      (forall u, (position u < position t)%nat ->
                 finalScore toLowerCase pageData u < finalScore toLowerCase pageData t)) /\
  (noSignatureMatch toLowerCase pageData ->
   noCountedContentPattern toLowerCase pageData ->
   noSpecialElement (specialElements pageData) ->
   primaryType result = Some Article /\ confidence result == 0).
Proof.
  intro Hx.
  destruct (analyzePage_returned doc url pageData Hx)
    as (t1 & t2 & t3 & rest & Hr & Hp & Hs & Ha & Hc).
  destruct (ranking_head pageData t1 _ Hr) as (Hmax & Hfirst).
  cbv zeta. split; [exists t1; auto|].
  intros Hno Hcontent Hse.
  assert (Hzero : forall u, finalScore toLowerCase pageData u == 0).
  { intro u. rewrite finalScore_bonus, noMatch_base_zero by assumption.
    rewrite noSpecial_bonus_zero by exact Hse. reflexivity. }
  assert (Ht : t1 = Article).
  { destruct (Nat.eq_dec (position t1) 0) as [H0 | Hpos].
    - destruct t1; try discriminate. reflexivity.
    - exfalso. assert (Hlt : (position Article < position t1)%nat) by (simpl; lia).
      apply Hfirst in Hlt. rewrite (Hzero Article), (Hzero t1) in Hlt.
      now apply Qlt_irrefl in Hlt. }
  subst t1. split; [exact Hp|]. now rewrite Hc.
Qed.
End ClassifierFacts.

(** ** The classifier on concrete pages *)

Section ClassifierExamples.
Import Js PageTypeAnalyzer ClassifierSpec.
Local Open Scope Q_scope.

(** Lower-cased, the keywords and content patterns of the signature
    table are non-empty literal sources: the regular expression built
    from one matches exactly its occurrences. *)
Lemma signature_sources_literal (type : PageType) :
  forallb
    (fun k => isLiteralSource (toLowerCaseLatin k) && negb (isEmpty k))
    (keywords (patterns type) ++ contentPatterns (patterns type))%list = true.
Proof. destruct type; vm_compute; reflexivity. Qed.

Lemma emptyPage_noSignatureMatch : noSignatureMatch toLowerCaseLatin emptyPage.
Proof. intro type. destruct type; vm_compute; repeat split. Qed.

Lemma emptyPage_noCountedContentPattern :
  noCountedContentPattern toLowerCaseLatin emptyPage.
Proof. intro type. destruct type; vm_compute; reflexivity. Qed.

Lemma emptyPage_noSpecialElement : noSpecialElement (specialElements emptyPage).
Proof. vm_compute. repeat split. Qed.

(** C4 at a page whose only text is an English sentence.  No keyword
    occurs in it, no pattern of any signature is contained in it and no
    special element is detected: the formula of the specification scores
    every type 0, and the answer itself lists no matched pattern.  Yet
    the code counts the content pattern TEL, lower-cased, inside the
    word hotel, and answers LocalBusiness with confidence 1 where the
    claim has Article with confidence 0. *)
Example unmatched_page_not_default :
  noSignatureMatch toLowerCaseLatin hotelPage /\
  noSpecialElement (specialElements hotelPage) /\
  (forall type, scoreFormula_spec toLowerCaseLatin type hotelPage == 0) /\
  countPatternMatches (bodyText hotelPage) (contentPatterns (patterns LocalBusiness))
  = 0%nat /\
  countMatches toLowerCaseLatin (bodyText hotelPage)
    (contentPatterns (patterns LocalBusiness)) = 1%nat /\
  let result := analyzePage toLowerCaseLatin ExtractedPageData extractSelf hotelPage "" in
  primaryType result = Some LocalBusiness /\
  confidence result == 1 /\
  matchedPatterns result
  = Some {| m_keywords := []; m_titlePatterns := []; m_urlPatterns := [];
            m_contentPatterns := [] |} /\
  ~ (primaryType result = Some Article /\ confidence result == 0).
Proof.
  split; [intro type; destruct type; vm_compute; repeat split|].
  split; [vm_compute; repeat split|].
  split; [intro type; destruct type; vm_compute; reflexivity|].
  split; [vm_compute; reflexivity|].
  split; [vm_compute; reflexivity|].
  cbv zeta.
  split; [vm_compute; reflexivity|].
  split; [vm_compute; reflexivity|].
  split; [vm_compute; reflexivity|].
  intros [Hprimary _]. vm_compute in Hprimary. discriminate.
Qed.

(** C2 at a page whose text names the price twice: the code counts the
    content pattern twice and scores Product 4, the formula of the
    specification counts it once and gives 3. *)
Example content_pattern_counted_by_occurrence :
  countMatches toLowerCaseLatin (bodyText pricePage) (contentPatterns (patterns Product)) = 2%nat /\
  countPatternMatches (bodyText pricePage) (contentPatterns (patterns Product)) = 1%nat /\
  calculateSingleTypeScore toLowerCaseLatin Product pricePage == 4 /\
  scoreFormula_spec toLowerCaseLatin Product pricePage == 3 /\
  ~ calculateSingleTypeScore toLowerCaseLatin Product pricePage
    == scoreFormula_spec toLowerCaseLatin Product pricePage.
Proof.
  repeat split; try (vm_compute; reflexivity).
  vm_compute. discriminate.
Qed.

(** The ranking theorem at the page that names the price twice. *)
Lemma analyzePage_ranking_witness :
  extractSelf pricePage "https://example.com/" = Returned pricePage /\
  let result :=
    analyzePage toLowerCaseLatin ExtractedPageData extractSelf pricePage
                "https://example.com/" in
  exists t1 t2 t3 rest,
    Permutation (t1 :: t2 :: t3 :: rest) patternKeys /\
    rankedDescending toLowerCaseLatin pricePage (t1 :: t2 :: t3 :: rest) /\
    primaryType result = Some t1 /\
    (forall u, finalScore toLowerCaseLatin pricePage u
               <= finalScore toLowerCaseLatin pricePage t1) /\
    secondaryTypes result = [t2; t3] /\
    exists q, get PageType_eqb (allScores result) t1 = Some q /\
              confidence result == q /\
              q == calculateSingleTypeScore toLowerCaseLatin t1 pricePage
                   + specialElementBonus_spec (specialElements pricePage) t1.
Proof.
  split; [reflexivity|].
  apply (analyzePage_ranking toLowerCaseLatin ExtractedPageData extractSelf
           pricePage "https://example.com/" pricePage).
  reflexivity.
Defined.

(** The tie-break theorem at the empty page. *)
Lemma analyzePage_tie_break_witness :
  extractSelf emptyPage "" = Returned emptyPage /\
  noSignatureMatch toLowerCaseLatin emptyPage /\
  noCountedContentPattern toLowerCaseLatin emptyPage /\
  noSpecialElement (specialElements emptyPage) /\
  let result := analyzePage toLowerCaseLatin ExtractedPageData extractSelf emptyPage "" in
  primaryType result = Some Article /\ confidence result == 0.
Proof.
  split; [reflexivity|].
  split; [exact emptyPage_noSignatureMatch|].
  split; [exact emptyPage_noCountedContentPattern|].
  split; [exact emptyPage_noSpecialElement|].
  apply (analyzePage_tie_break toLowerCaseLatin ExtractedPageData extractSelf
           emptyPage "" emptyPage).
  - reflexivity.
  - exact emptyPage_noSignatureMatch.
  - exact emptyPage_noCountedContentPattern.
  - exact emptyPage_noSpecialElement.
Defined.
End ClassifierExamples.

(** ** The recommender *)

Section RecommenderFacts.
Import Js Json StructuredDataRecommender RecommenderSpec.

Lemma String_eqb_spec (a b : string) : String.eqb a b = true <-> a = b.
Proof. apply String.eqb_eq. Qed.

Lemma entryType_notNull entry :
  entry <> JNull -> entryType entry = Returned (entryTypeValue entry).
Proof.
  intro Hnn. unfold entryType, entryTypeValue, member.
  destruct entry; try contradiction; simpl; try reflexivity.
  destruct (optionalMember _ "@type") as [[]|]; reflexivity.
Qed.

Lemma mapEntries_notNull entries :
  Forall (fun entry => entry <> JNull) entries ->
  mapEntries entries = Returned (map entryTypeValue entries).
Proof.
  induction 1 as [|entry rest Hnn _ IH]; simpl; [reflexivity|].
  now rewrite (entryType_notNull entry Hnn), IH.
Qed.

Lemma existingTypes_notNull inv :
  Forall (fun entry => entry <> JNull) (entriesOf inv) ->
  existingTypes inv = Returned (filterBoolean (map entryTypeValue (entriesOf inv))).
Proof.
  unfold existingTypes, entriesOf. destruct (jsonLd inv) as [entries|]; intro H.
  - now rewrite (mapEntries_notNull entries H).
  - reflexivity.
Qed.

Lemma has_leading entries entry name :
  In entry entries -> In name (leadingTypeNames entry) -> name <> "" ->
  has (filterBoolean (map entryTypeValue entries)) name = true.
Proof.
  intros Hin Hname Hne. induction entries as [|e rest IH]; [contradiction|].
  simpl. destruct Hin as [-> | Hin].
  - clear IH. unfold leadingTypeNames in Hname. unfold entryTypeValue.
    assert (Hs : forall s, In name [s] -> truthy (JString s) = true /\ String.eqb s name = true).
    { intros s [-> | []]. split; [|apply String.eqb_refl].
      simpl. destruct (String.eqb name "") eqn:E; [|reflexivity].
      apply String.eqb_eq in E. contradiction. }
    destruct (optionalMember (prop entry "data") "@type")
      as [[ | b | n | s | [|[ | b | n | s | items | props] others] | props]|];
      try contradiction; simpl nth_error; cbv iota;
      destruct (Hs s Hname) as (Ht & He); cbn [filterBoolean]; rewrite Ht;
      simpl; now rewrite He.
  - specialize (IH Hin). destruct (entryTypeValue e) as [v|]; [|exact IH].
    destruct (truthy v); [|exact IH]. simpl. rewrite IH. apply orb_true_r.
Qed.

Lemma prioritize_missing m :
  map schema (missing (prioritizeRecommendations m)) = primary m.
Proof. simpl. rewrite map_map. simpl. apply map_id. Qed.

Lemma prioritize_improvements m :
  map schema (improvements (prioritizeRecommendations m)) = secondary m.
Proof. simpl. rewrite map_map. simpl. apply map_id. Qed.

Lemma prioritize_optional m :
  map schema (optionalItems (prioritizeRecommendations m)) = optional m.
Proof. simpl. rewrite map_map. simpl. apply map_id. Qed.

(** The answer when no entry of the inventory is [null]. *)
Lemma generateRecommendations_notNull pa inv :
  Forall (fun entry => entry <> JNull) (entriesOf inv) ->
  let existing := filterBoolean (map entryTypeValue (entriesOf inv)) in
  let base := getBaseRecommendations (effectiveType pa) in
  let result := generateRecommendations pa inv in
  pageType result = effectiveType pa /\
  map schema (missing (r_recommendations result))
  = filter (fun s => negb (has existing s)) (primary base) /\
  map schema (improvements (r_recommendations result))
  = filter (fun s => negb (has existing s)) (secondary base) /\
  map schema (optionalItems (r_recommendations result))
  = filter (fun s => negb (has existing s)) (optional base).
Proof.
  intro H. cbv zeta. unfold generateRecommendations, findMissingSchemas.
  fold (effectiveType pa). rewrite (existingTypes_notNull inv H).
  cbn [bind tryCatch pageType r_recommendations].
  rewrite prioritize_missing, prioritize_improvements, prioritize_optional.
  repeat split.
Qed.

Lemma tier_names_nonempty pageType name :
  let base := getBaseRecommendations pageType in
  In name (primary base ++ secondary base ++ optional base)%list -> name <> "".
Proof.
  cbv zeta. unfold getBaseRecommendations, recommendations. cbn [get].
  repeat match goal with
         | |- context [String.eqb pageType ?k] => destruct (String.eqb pageType k)
         end;
    try (destruct (existsb (String.eqb pageType) inheritedNames));
    cbn; intros H Hname; subst name;
    repeat (destruct H as [H | H]; [discriminate|]); exact H.
Qed.

Lemma intersects_false xs ys :
  intersects xs ys = false -> forall name, ~ (In name xs /\ In name ys).
Proof.
  unfold intersects. intros H name [Hx Hy].
  assert (Ht : existsb (fun x => existsb (String.eqb x) ys) xs = true).
  { apply existsb_exists. exists name. split; [exact Hx|].
    apply existsb_exists. exists name. split; [exact Hy | apply String.eqb_refl]. }
  congruence.
Qed.

(** C1, as the specification states it, fails on a page whose JSON-LD
    block has the types WebPage and Article: Article is the second
    element of the array and is recommended all the same, the
    recommender keeping the first element of an array only. *)
Lemma missing_set_ignores_later_array_types :
  ~ missingSetCorrect_spec (classifiedAs "Article") (inventoryOf [webPageArticleEntry]).
Proof.
  intros [Hfresh _].
  apply (Hfresh "Article" webPageArticleEntry).
  - vm_compute. left. reflexivity.
  - left. reflexivity.
  - vm_compute. right. left. reflexivity.
Qed.

(** What the recommender does guarantee: when no entry of the inventory
    is [null], no schema of the three lists is the [@type] of an entry's
    data, where an array stands for its first element only; and every
    schema of [missing] belongs to the primary tier of the type the
    recommender works with. *)
Theorem missing_set_correct_leading pa inv :
  Forall (fun entry => entry <> JNull) (entriesOf inv) ->
  let result := generateRecommendations pa inv in
  (forall name entry,
      In name (recommendedSchemas result) ->
      In entry (entriesOf inv) ->
      ~ In name (leadingTypeNames entry)) /\
  (forall name,
      In name (map schema (missing (r_recommendations result))) ->
      In name (primary (getBaseRecommendations (pageType result)))).
Proof.
  intro Hnn.
  destruct (generateRecommendations_notNull pa inv Hnn) as (Hty & Hm & Hi & Ho).
  cbv zeta. split.
  - intros name entry Hrec Hentry Hlead.
    assert (Hboth :
      In name (primary (getBaseRecommendations (effectiveType pa))
               ++ secondary (getBaseRecommendations (effectiveType pa))
               ++ optional (getBaseRecommendations (effectiveType pa)))%list /\
      has (filterBoolean (map entryTypeValue (entriesOf inv))) name = false).
    { unfold recommendedSchemas in Hrec. rewrite Hm, Hi, Ho in Hrec.
      rewrite !in_app_iff, !filter_In, !negb_true_iff in Hrec.
      rewrite !in_app_iff. tauto. }
    destruct Hboth as (Htier & Hhas).
    apply tier_names_nonempty in Htier.
    rewrite (has_leading _ entry name Hentry Hlead Htier) in Hhas. discriminate.
  - intros name Hin. rewrite Hm in Hin. rewrite Hty.
    now apply filter_In in Hin.
Qed.

(** The same at a LocalBusiness page with an Organization block. *)
Lemma missing_set_correct_leading_witness :
  Forall (fun entry => entry <> JNull) (entriesOf (inventoryOf [organizationEntry])) /\
  let result :=
    generateRecommendations (classifiedAs "LocalBusiness")
                            (inventoryOf [organizationEntry]) in
  (forall name entry,
      In name (recommendedSchemas result) ->
      In entry (entriesOf (inventoryOf [organizationEntry])) ->
      ~ In name (leadingTypeNames entry)) /\
  (forall name,
      In name (map schema (missing (r_recommendations result))) ->
      In name (primary (getBaseRecommendations (pageType result)))).
Proof.
  assert (H : Forall (fun entry => entry <> JNull)
                     (entriesOf (inventoryOf [organizationEntry]))).
  { simpl. constructor; [discriminate | constructor]. }
  split; [exact H|].
  exact (missing_set_correct_leading (classifiedAs "LocalBusiness")
           (inventoryOf [organizationEntry]) H).
Defined.

(** The scenario of the specification: an Organization block on a
    LocalBusiness page leaves Organization out of the recommendations. *)
Example existing_organization_excluded :
  recommendedSchemas
    (generateRecommendations (classifiedAs "LocalBusiness")
                             (inventoryOf [organizationEntry]))
  = ["LocalBusiness"; "PostalAddress"; "ContactPoint";
     "OpeningHoursSpecification"; "GeoCoordinates"; "Review"].
Proof. vm_compute. reflexivity. Qed.

(** A [null] entry makes the arrow function throw: the answer is the
    default one, whatever the page type. *)
Example null_entry_gives_default :
  generateRecommendations (classifiedAs "Product") (inventoryOf [JNull])
  = getDefaultRecommendations.
Proof. reflexivity. Qed.

(** C5: in the catalog entry of every page type no schema name belongs
    to two of the three tiers. *)
Theorem catalog_tiers_disjoint (type : PageTypeAnalyzer.PageType) (name : string) :
  let entry := getBaseRecommendations (typeName type) in
  ~ (In name (primary entry) /\ In name (secondary entry)) /\
  ~ (In name (primary entry) /\ In name (optional entry)) /\
  ~ (In name (secondary entry) /\ In name (optional entry)).
Proof.
  cbv zeta. repeat split; apply intersects_false; destruct type; reflexivity.
Qed.

(** Every page type has its own entry in the catalog, and the catalog
    has no other entry. *)
Lemma catalog_keys :
  keys recommendations = map typeName PageTypeAnalyzer.patternKeys.
Proof. reflexivity. Qed.

(** C7: the expected-benefit figures are min(90, 30c + 15h),
    min(20, 5c + 3h) and min(25, 8c + 5h) for c items in [missing] and h
    items in [improvements], and the local-search figure is 40 when some
    item of [missing] is LocalBusiness or Organization, 10 otherwise. *)
Theorem expected_benefits_formula (prioritizedList : PrioritizedList) :
  let c := Z.of_nat (length (missing prioritizedList)) in
  let h := Z.of_nat (length (improvements prioritizedList)) in
  let benefits := calculateExpectedBenefits prioritizedList in
  (richSnippets_probability benefits = Z.min 90 (30 * c + 15 * h) /\
   searchRanking_improvement benefits = Some (Z.min 20 (5 * c + 3 * h)) /\
   clickThroughRate_improvement benefits = Some (Z.min 25 (8 * c + 5 * h)) /\
   exists v, localSearch_visibility benefits = Some v /\
     (((exists item, In item (missing prioritizedList) /\
                     (schema item = "LocalBusiness" \/ schema item = "Organization"))
       /\ v = 40)
      \/
      ((forall item, In item (missing prioritizedList) ->
                     schema item <> "LocalBusiness" /\ schema item <> "Organization")
       /\ v = 10)))%Z.
Proof.
  cbv zeta. unfold calculateExpectedBenefits. cbn [richSnippets_probability
    searchRanking_improvement clickThroughRate_improvement localSearch_visibility].
  repeat split; try (do 2 f_equal; lia).
  eexists. split; [reflexivity|].
  destruct (existsb _ (missing prioritizedList)) eqn:E.
  - left. split; [|reflexivity].
    apply existsb_exists in E. destruct E as (item & Hin & Hitem).
    exists item. split; [exact Hin|].
    simpl in Hitem. rewrite !orb_true_iff, !String.eqb_eq in Hitem.
    intuition congruence.
  - right. split; [|reflexivity].
    intros item Hin.
    assert (Hf : existsb (String.eqb (schema item)) ["LocalBusiness"; "Organization"] = false).
    { destruct (existsb (String.eqb (schema item)) _) eqn:Ei; [|reflexivity].
      assert (Ht : existsb
                     (fun item => existsb (String.eqb (schema item))
                                          ["LocalBusiness"; "Organization"])
                     (missing prioritizedList) = true)
        by (apply existsb_exists; exists item; split; assumption).
      congruence. }
    simpl in Hf. rewrite !orb_false_iff, !String.eqb_neq in Hf. tauto.
Qed.

(** C9: when the inventory holds the parsed blocks themselves, none of
    them [null] and none with a [data] property, no type is found
    present and the three lists are the three whole tiers of the type. *)
Theorem bare_inventory_detects_nothing pa inv :
  Forall (fun entry => entry <> JNull /\ prop entry "data" = None) (entriesOf inv) ->
  let result := generateRecommendations pa inv in
  let base := getBaseRecommendations (pageType result) in
  existingTypes inv = Returned [] /\
  map schema (missing (r_recommendations result)) = primary base /\
  map schema (improvements (r_recommendations result)) = secondary base /\
  map schema (optionalItems (r_recommendations result)) = optional base.
Proof.
  intro Hbare.
  assert (Hnn : Forall (fun entry => entry <> JNull) (entriesOf inv)).
  { eapply Forall_impl; [|exact Hbare]. simpl. tauto. }
  assert (Hnone : filterBoolean (map entryTypeValue (entriesOf inv)) = []).
  { induction Hbare as [|entry rest [_ Hdata] _ IH]; [reflexivity|].
    simpl. unfold entryTypeValue at 1. rewrite Hdata. simpl.
    inversion Hnn; subst. now apply IH. }
  destruct (generateRecommendations_notNull pa inv Hnn) as (Hty & Hm & Hi & Ho).
  cbv zeta. rewrite (existingTypes_notNull inv Hnn), Hty, Hm, Hi, Ho, Hnone.
  assert (Hall : forall l : list string, filter (fun s => negb (has [] s)) l = l).
  { induction l as [|x l IHl]; simpl; [reflexivity | f_equal; exact IHl]. }
  rewrite !Hall. repeat split.
Qed.

(** A Product page that embeds a Product block, handed over unwrapped:
    Product is recommended all the same. *)
Lemma bare_inventory_detects_nothing_witness :
  Forall (fun entry => entry <> JNull /\ prop entry "data" = None)
         (entriesOf (inventoryOf [bareProductBlock])) /\
  existingTypes (inventoryOf [bareProductBlock]) = Returned [] /\
  map schema
      (missing (r_recommendations
                  (generateRecommendations (classifiedAs "Product")
                                           (inventoryOf [bareProductBlock]))))
  = ["Product"].
Proof.
  assert (H : Forall (fun entry => entry <> JNull /\ prop entry "data" = None)
                     (entriesOf (inventoryOf [bareProductBlock]))).
  { simpl. constructor; [split; [discriminate | reflexivity] | constructor]. }
  split; [exact H|].
  destruct (bare_inventory_detects_nothing (classifiedAs "Product")
              (inventoryOf [bareProductBlock]) H) as (He & Hm & _).
  split; [exact He | exact Hm].
Defined.
End RecommenderFacts.

(** ** The JSON parser *)

Section ParserFacts.
Import Js Json SchemaTemplates TemplateSpec.
Local Open Scope nat_scope.

Lemma skipWhiteSpace_length s : String.length (skipWhiteSpace s) <= String.length s.
Proof.
  induction s as [|c rest IH]; simpl; [lia|].
  destruct (isWhiteSpace c); simpl; lia.
Qed.

Lemma skipWhiteSpace_cons s c rest :
  skipWhiteSpace s = String c rest -> String.length rest < String.length s.
Proof.
  intro H. pose proof (skipWhiteSpace_length s) as Hl. rewrite H in Hl. simpl in Hl. lia.
Qed.

Lemma parseStringBody_length n : forall s acc units rest,
  String.length s <= n ->
  parseStringBody s acc = Some (units, rest) ->
  String.length rest < String.length s.
Proof.
  induction n as [|n IH]; intros s acc units rest Hn H.
  - destruct s; [discriminate | simpl in Hn; lia].
  - destruct s as [|c s1]; [discriminate|]. simpl in Hn. cbn [parseStringBody] in H.
    destruct (Ascii.eqb c quoteChar).
    { inversion H; subst. simpl. lia. }
    destruct (Ascii.eqb c backslash).
    + destruct s1 as [|e s2]; [discriminate|].
      destruct (Ascii.eqb e "u").
      * destruct s2 as [|h1 [|h2 [|h3 [|h4 s3]]]]; try discriminate.
        destruct (hex4 h1 h2 h3 h4); [|discriminate].
        apply IH in H; simpl in *; lia.
      * destruct (simpleEscape e); [|discriminate].
        apply IH in H; simpl in *; lia.
    + destruct (nat_of_ascii c <? 32); [discriminate|].
      apply IH in H; simpl in *; lia.
Qed.

Lemma parseString_consumes s : consumes (parseString s) (String.length s).
Proof.
  unfold parseString. destruct (parseStringBody s []) as [[units rest]|] eqn:E; simpl; [|exact I].
  eapply parseStringBody_length; [apply Nat.le_refl | exact E].
Qed.

Lemma takeDigits_length s : forall count val count' val' rest,
  takeDigits s count val = (count', val', rest) ->
  String.length rest + count' = String.length s + count.
Proof.
  induction s as [|c s1 IH]; intros count val count' val' rest H; simpl in H.
  - inversion H; subst. reflexivity.
  - destruct (isDigit c).
    + apply IH in H. simpl. lia.
    + inversion H; subst. reflexivity.
Qed.

Lemma startsWith_dropChars word s :
  startsWith word s = true ->
  String.length (dropChars (String.length word) s) + String.length word = String.length s.
Proof.
  revert s. induction word as [|a word IH]; intros s H; simpl in *.
  - destruct s; simpl; lia.
  - destruct s as [|b s1]; [discriminate|].
    apply andb_true_iff in H. destruct H as [_ H]. apply IH in H. simpl. lia.
Qed.

Lemma expectWord_consumes word v s :
  word <> "" -> consumes (expectWord word v s) (String.length s).
Proof.
  intro Hne. unfold expectWord. destruct (startsWith word s) eqn:E; simpl; [|exact I].
  apply startsWith_dropChars in E. destruct word; [contradiction | simpl in *; lia].
Qed.

Lemma parseNumber_consumes s : consumes (parseNumber s) (String.length s).
Proof.
  unfold parseNumber.
  set (sign := match s with
               | String c rest => if Ascii.eqb c "-" then (true, rest) else (false, s)
               | EmptyString => (false, s)
               end).
  assert (Hsign : String.length (snd sign) <= String.length s).
  { subst sign. destruct s as [|c rest]; simpl; [lia|].
    destruct (Ascii.eqb c "-"); simpl; lia. }
  destruct sign as [negative s1]. simpl in Hsign.
  destruct (takeDigits s1 0 0%Z) as [[intCount intVal] s2] eqn:E1.
  apply takeDigits_length in E1.
  destruct (intCount =? 0) eqn:E0; [exact I|]. apply Nat.eqb_neq in E0.
  match goal with |- context [orb false ?b] => destruct b end; [exact I|]. cbn [orb].
  set (fraction := match s2 with
                   | String c rest => _
                   | EmptyString => _
                   end).
  assert (Hfrac : match fraction with
                  | Some (_, _, s3) => String.length s3 <= String.length s2
                  | None => True
                  end).
  { subst fraction. destruct s2 as [|c rest]; [simpl; lia|].
    destruct (Ascii.eqb c "."); [|simpl; lia].
    destruct (takeDigits rest 0 intVal) as [[fracCount val] s3] eqn:E2.
    apply takeDigits_length in E2.
    destruct (fracCount =? 0); [exact I | simpl; lia]. }
  destruct fraction as [[[fracCount mantissa] s3]|]; [|exact I].
  set (exponent := match s3 with
                   | String c rest => _
                   | EmptyString => _
                   end).
  assert (Hexp : match exponent with
                 | Some (_, rest) => String.length rest <= String.length s3
                 | None => True
                 end).
  { subst exponent. destruct s3 as [|c rest]; [simpl; lia|].
    destruct (Ascii.eqb c "e" || Ascii.eqb c "E"); [|simpl; lia].
    set (signed := match rest with
                   | String d rest' => _
                   | EmptyString => _
                   end).
    assert (Hs : String.length (snd signed) <= String.length rest).
    { subst signed. destruct rest as [|d rest']; simpl; [lia|].
      destruct (Ascii.eqb d "-"); [simpl; lia|].
      destruct (Ascii.eqb d "+"); simpl; lia. }
    destruct signed as [minus s4]. simpl in Hs.
    destruct (takeDigits s4 0 0%Z) as [[expCount expVal] s5] eqn:E3.
    apply takeDigits_length in E3.
    destruct (expCount =? 0); [exact I | simpl; lia]. }
  destruct exponent as [[e rest]|]; [|exact I].
  simpl. lia.
Qed.

Lemma consumes_le {A} (r : parsed A) n m : consumes r n -> n <= m -> consumes r m.
Proof. destruct r; simpl; [lia | trivial | trivial]. Qed.

(** After white space, [text] lost a character: [rest] is shorter. *)
Ltac skip_ws s c rest H :=
  let E := fresh "Ews" in
  destruct (skipWhiteSpace s) as [|c rest] eqn:E; [exact I|];
  pose proof (skipWhiteSpace_cons _ _ _ E) as H; clear E.

(** A call whose result the caller inspects. *)
Ltac inspect_call Hcall :=
  match goal with
  | |- consumes (match ?call with _ => _ end) _ =>
      let H := fresh "Hcall" in
      pose proof Hcall as H;
      destruct call as [? ?| |]; [simpl in H | exact I | contradiction H]
  end.

Lemma parser_fuel fuel :
  (forall s, 2 * String.length s + 2 <= fuel ->
             consumes (parseValue fuel s) (String.length s)) /\
  (forall s acc, 2 * String.length s + 2 <= fuel ->
                 consumes (parseMembers fuel s acc) (String.length s)) /\
  (forall s acc, 2 * String.length s + 3 <= fuel ->
                 consumes (parseElements fuel s acc) (String.length s)).
Proof.
  induction fuel as [|fuel (IHv & IHm & IHe)].
  - repeat split; intros; lia.
  - repeat split.
    + intros s Hf. cbn [parseValue].
      pose proof (skipWhiteSpace_length s) as Htext.
      destruct (skipWhiteSpace s) as [|c rest] eqn:Ews; [exact I|]. simpl in Htext.
      destruct (Ascii.eqb c "{").
      { skip_ws rest d rest' Hd.
        destruct (Ascii.eqb d "}"); [simpl; lia|].
        apply (consumes_le _ (String.length rest)); [apply IHm; lia | lia]. }
      destruct (Ascii.eqb c "[").
      { skip_ws rest d rest' Hd.
        destruct (Ascii.eqb d "]"); [simpl; lia|].
        apply (consumes_le _ (String.length rest)); [apply IHe; lia | lia]. }
      destruct (Ascii.eqb c quoteChar).
      { inspect_call (parseString_consumes rest). simpl. lia. }
      destruct (Ascii.eqb c "t").
      { eapply consumes_le; [apply expectWord_consumes; discriminate | simpl; lia]. }
      destruct (Ascii.eqb c "f").
      { eapply consumes_le; [apply expectWord_consumes; discriminate | simpl; lia]. }
      destruct (Ascii.eqb c "n").
      { eapply consumes_le; [apply expectWord_consumes; discriminate | simpl; lia]. }
      inspect_call (parseNumber_consumes (String c rest)). simpl in *. lia.
    + intros s acc Hf. cbn [parseMembers].
      skip_ws s c rest Hc.
      destruct (Ascii.eqb c quoteChar); [|exact I].
      inspect_call (parseString_consumes rest).
      skip_ws rest0 colon rest2 Hcolon.
      destruct (Ascii.eqb colon ":"); [|exact I].
      inspect_call (IHv rest2 ltac:(lia)).
      skip_ws rest1 sep rest4 Hsep.
      destruct (Ascii.eqb sep ",").
      { apply (consumes_le _ (String.length rest4)); [apply IHm; lia | lia]. }
      destruct (Ascii.eqb sep "}"); [simpl; lia | exact I].
    + intros s acc Hf. cbn [parseElements].
      inspect_call (IHv s ltac:(lia)).
      skip_ws rest sep rest2 Hsep.
      destruct (Ascii.eqb sep ",").
      { apply (consumes_le _ (String.length rest2)); [apply IHe; lia | lia]. }
      destruct (Ascii.eqb sep "]"); [simpl; lia | exact I].
Qed.

(** The fuel [JSON.parse] gives the parser never runs out. *)
Lemma parseValue_fuel text : parseValue (parseFuel text) text <> OutOfFuel.
Proof.
  pose proof (proj1 (parser_fuel (parseFuel text)) text) as H.
  unfold parseFuel in *. intro E. rewrite E in H. apply H. lia.
Qed.

(** [JSON.parse] returns a value or throws a syntax error. *)
Lemma JSON_parse_total text :
  (exists v, JSON_parse text = Returned v) \/
  JSON_parse text = Thrown "SyntaxError: Unexpected token in JSON" \/
  JSON_parse text = Thrown "SyntaxError: Unexpected non-whitespace character after JSON".
Proof.
  unfold JSON_parse. pose proof (parseValue_fuel text) as H.
  destruct (parseValue (parseFuel text) text) as [v rest| |].
  - destruct (skipWhiteSpace rest); [left; now exists v | right; right; reflexivity].
  - right. left. reflexivity.
  - contradiction.
Qed.
End ParserFacts.

(** ** The cleanup pass *)

(** Induction on a value with the hypothesis for every item of an array
    and for every property value of an object. *)
Lemma value_nested_ind (P : Json.value -> Prop) :
  P Json.JNull ->
  (forall b, P (Json.JBool b)) ->
  (forall n, P (Json.JNumber n)) ->
  (forall s, P (Json.JString s)) ->
  (forall items, Forall P items -> P (Json.JArray items)) ->
  (forall props, Forall (fun kv => P (snd kv)) props -> P (Json.JObject props)) ->
  forall v, P v.
Proof.
  intros Hnull Hbool Hnumber Hstring Harray Hobject.
  fix self 1. intros [ | b | n | s | items | props].
  - exact Hnull.
  - apply Hbool.
  - apply Hnumber.
  - apply Hstring.
  - apply Harray. induction items as [|item rest IH]; constructor.
    + apply self.
    + exact IH.
  - apply Hobject. induction props as [|kv rest IH]; constructor.
    + apply self.
    + exact IH.
Qed.

Section CleanSchemaFacts.
Import Js Json SchemaTemplates TemplateSpec.

Lemma assign_stable cleaned key v :
  key <> "__proto__" -> assign cleaned key v = set String.eqb cleaned key v.
Proof.
  intro H. unfold assign. apply String.eqb_neq in H. now rewrite H.
Qed.

Lemma cleanEntry_stable cleaned entry :
  stable entry ->
  cleanEntry cleanSchema cleaned entry = set String.eqb cleaned (fst entry) (snd entry).
Proof.
  destruct entry as [key v]. unfold stable. simpl. intros [Hkey Hv].
  destruct v as [ | b | n | s | items | props]; simpl.
  - contradiction.
  - now apply assign_stable.
  - now apply assign_stable.
  - destruct Hv as [Hne Hph].
    apply String.eqb_neq in Hne, Hph. rewrite Hne, Hph. simpl.
    now apply assign_stable.
  - destruct Hv as [Hne Hf]. rewrite Hf.
    destruct items; [contradiction | now apply assign_stable].
  - destruct Hv as [Hne Hc]. simpl in Hc. rewrite Hc.
    destruct props; [contradiction | now apply assign_stable].
Qed.

Lemma fold_settled props acc :
  Forall stable props -> NoDup (keys (acc ++ props)%list) ->
  fold_left (cleanEntry cleanSchema) props acc = (acc ++ props)%list.
Proof.
  revert acc. induction props as [|[key v] rest IH]; intros acc Hst Hnd;
    cbn [fold_left].
  - now rewrite app_nil_r.
  - inversion Hst as [|? ? Hentry Hrest]; subst.
    rewrite (cleanEntry_stable acc (key, v) Hentry). cbn [fst snd].
    rewrite (keys_set_absent String.eqb String_eqb_spec).
    + change (acc ++ (key, v) :: rest)%list with (acc ++ [(key, v)] ++ rest)%list.
      rewrite app_assoc. apply IH; [exact Hrest|].
      now rewrite <- app_assoc.
    + unfold keys in *. rewrite map_app in Hnd. simpl in Hnd.
      apply NoDup_remove_2 in Hnd. intro Hin. apply Hnd.
      apply in_or_app. now left.
Qed.

Lemma set_settled cleaned key v :
  settled cleaned -> stable (key, v) -> settled (set String.eqb cleaned key v).
Proof.
  intros [Hst Hnd] Hentry. split.
  - clear Hnd. induction cleaned as [|[k' v'] rest IH]; simpl.
    + now constructor.
    + inversion Hst; subst. destruct (String.eqb key k') eqn:E.
      * apply String.eqb_eq in E. subst k'. now constructor.
      * constructor; [assumption | now apply IH].
  - destruct (in_dec string_dec key (keys cleaned)) as [Hin | Hnot].
    + now rewrite (keys_set_present String.eqb String_eqb_spec).
    + rewrite (keys_set_absent String.eqb String_eqb_spec) by exact Hnot.
      unfold keys in *. rewrite map_app. simpl.
      apply NoDup_app; [exact Hnd | repeat constructor; tauto | ].
      intros x Hx [Heq | []]. subst x. contradiction.
Qed.

Lemma assign_settled cleaned key v :
  settled cleaned ->
  (key <> "__proto__" -> stable (key, v)) ->
  settled (assign cleaned key v).
Proof.
  intros Hs Hentry. unfold assign.
  destruct (String.eqb key "__proto__") eqn:E; [exact Hs|].
  apply String.eqb_neq in E. apply set_settled; auto.
Qed.

Lemma filter_keepItem_idem items :
  filter keepItem (filter keepItem items) = filter keepItem items.
Proof.
  induction items as [|item rest IH]; simpl; [reflexivity|].
  destruct (keepItem item) eqn:E; simpl; [rewrite E, IH|]; auto.
Qed.

(** One turn of the loop keeps the object settled, when cleaning the
    value of the entry is itself idempotent. *)
Lemma cleanEntry_settled cleaned entry :
  cleanSchema (JObject (cleanSchema (snd entry))) = cleanSchema (snd entry) ->
  settled cleaned -> settled (cleanEntry cleanSchema cleaned entry).
Proof.
  destruct entry as [key v]. simpl snd. intros Hidem Hs.
  destruct v as [ | b | n | s | items | props]; cbn [cleanEntry].
  - exact Hs.
  - apply assign_settled; [exact Hs|]. intro Hk. split; simpl; auto.
  - apply assign_settled; [exact Hs|]. intro Hk. split; simpl; auto.
  - destruct (String.eqb s "") eqn:E1; [exact Hs|].
    destruct (String.eqb s ("{{" ++ key ++ "}}")) eqn:E2; [exact Hs|].
    cbn [orb]. apply assign_settled; [exact Hs|]. intro Hk.
    apply String.eqb_neq in E1, E2. split; simpl; auto.
  - pose proof (filter_keepItem_idem items) as Hf.
    destruct (filter keepItem items) as [|item rest]; [exact Hs|].
    apply assign_settled; [exact Hs|]. intro Hk. unfold stable. cbn [fst snd].
    split; [exact Hk|]. split; [discriminate | exact Hf].
  - destruct (cleanSchema (JObject props)) as [|kv rest]; [exact Hs|].
    apply assign_settled; [exact Hs|]. intro Hk. unfold stable. cbn [fst snd].
    split; [exact Hk|]. split; [discriminate | exact Hidem].
Qed.

Lemma fold_cleanEntry_settled props acc :
  Forall (fun kv => cleanSchema (JObject (cleanSchema (snd kv))) = cleanSchema (snd kv))
         props ->
  settled acc -> settled (fold_left (cleanEntry cleanSchema) props acc).
Proof.
  revert acc. induction props as [|entry rest IH]; intros acc Hall Hs; simpl.
  - exact Hs.
  - inversion Hall; subst. apply IH; [assumption|].
    now apply cleanEntry_settled.
Qed.

Lemma cleanSchema_settled_fixed cleaned :
  settled cleaned -> cleanSchema (JObject cleaned) = cleaned.
Proof.
  intros [Hst Hnd]. simpl. now rewrite (fold_settled cleaned [] Hst Hnd).
Qed.

Lemma cleanSchema_idempotent_value (v : value) :
  cleanSchema (JObject (cleanSchema v)) = cleanSchema v.
Proof.
  induction v using value_nested_ind; try reflexivity.
  apply cleanSchema_settled_fixed. simpl.
  apply fold_cleanEntry_settled; [assumption|].
  split; constructor.
Qed.


(** What the pass does ensure: no property of the result holds the
    placeholder named after the property itself, an empty string or
    [null], and no array of it holds a string with two opening braces. *)
Lemma cleanSchema_entries_stable (props : list (string * value)) :
  Forall stable (cleanSchema (JObject props)).
Proof.
  simpl. apply fold_cleanEntry_settled; [|split; constructor].
  apply Forall_forall. intros kv _. apply cleanSchema_idempotent_value.
Qed.
Lemma append_length (a b : string) :
  String.length (a ++ b) = (String.length a + String.length b)%nat.
Proof. induction a as [|c a IH]; simpl; [reflexivity | now rewrite IH]. Qed.

Lemma append_cancel_r (a b c : string) : a ++ c = b ++ c -> a = b.
Proof.
  revert b. induction a as [|x a IH]; intros [|y b] H; simpl in H.
  - reflexivity.
  - apply (f_equal String.length) in H. simpl in H. rewrite append_length in H. lia.
  - apply (f_equal String.length) in H. simpl in H. rewrite append_length in H. lia.
  - inversion H; subst. f_equal. now apply IH.
Qed.

Lemma includes_append_r (a b : string) : includes (a ++ b) b = true.
Proof.
  assert (Hself : forall t, startsWith t t = true).
  { induction t as [|c t IH]; simpl; [reflexivity|].
    now rewrite Ascii.eqb_refl, IH. }
  induction a as [|c a IH]; simpl.
  - destruct b; simpl; [reflexivity|]. now rewrite Ascii.eqb_refl, Hself.
  - rewrite IH. apply orb_true_r.
Qed.

(** One turn of the loop touches the property of its own entry only. *)
Lemma cleanEntry_get_other cleaned entry key :
  fst entry <> key ->
  get String.eqb (cleanEntry cleanSchema cleaned entry) key = get String.eqb cleaned key.
Proof.
  destruct entry as [k v]. simpl fst. intro Hne.
  assert (Hassign : forall w, get String.eqb (assign cleaned k w) key
                              = get String.eqb cleaned key).
  { intro w. unfold assign. destruct (String.eqb k "__proto__"); [reflexivity|].
    apply (get_set_other String.eqb String_eqb_spec). congruence. }
  destruct v as [ | b | n | s | items | props]; cbn [cleanEntry]; auto.
  - destruct (String.eqb s "" || String.eqb s ("{{" ++ k ++ "}}")); auto.
  - destruct (filter keepItem items); auto.
  - destruct (cleanSchema (JObject props)); auto.
Qed.

Lemma fold_cleanEntry_get_absent props acc key :
  ~ In key (keys props) ->
  get String.eqb (fold_left (cleanEntry cleanSchema) props acc) key
  = get String.eqb acc key.
Proof.
  revert acc. induction props as [|entry rest IH]; intros acc Hnot; cbn [fold_left].
  - reflexivity.
  - unfold keys in Hnot. simpl in Hnot.
    rewrite IH by (unfold keys; tauto).
    apply cleanEntry_get_other. tauto.
Qed.

(** What the pass leaves in: a string property that is not empty and is
    not the placeholder named after the property itself is copied, a
    placeholder of another name included. *)
Lemma cleanSchema_keeps_string props key s :
  NoDup (keys props) -> In (key, JString s) props ->
  key <> "__proto__" -> s <> "" -> s <> "{{" ++ key ++ "}}" ->
  get String.eqb (cleanSchema (JObject props)) key = Some (JString s).
Proof.
  intros Hnd Hin Hkey Hne Hph.
  destruct (in_split _ _ Hin) as (l1 & l2 & ->).
  unfold keys in Hnd. rewrite map_app in Hnd. simpl in Hnd.
  apply NoDup_remove_2 in Hnd.
  cbn [cleanSchema]. rewrite fold_left_app. cbn [fold_left].
  rewrite fold_cleanEntry_get_absent
    by (unfold keys; intro H; apply Hnd; apply in_or_app; now right).
  rewrite cleanEntry_stable by (split; simpl; auto).
  apply (get_set_same String.eqb String_eqb_spec).
Qed.

(** So an object with a placeholder under another property name is not
    placeholder-free after the pass. *)
Lemma cleanSchema_keeps_foreign_placeholder props key name :
  NoDup (keys props) -> In (key, JString ("{{" ++ name ++ "}}")) props ->
  key <> "__proto__" -> name <> key ->
  ~ placeholderFree_spec (cleanSchema (JObject props)).
Proof.
  intros Hnd Hin Hkey Hname.
  assert (Hget : get String.eqb (cleanSchema (JObject props)) key
                 = Some (JString ("{{" ++ name ++ "}}"))).
  { apply cleanSchema_keeps_string; auto; [discriminate|].
    simpl. intro H. inversion H as [H']. apply append_cancel_r in H'. auto. }
  apply (get_Some_In String.eqb String_eqb_spec) in Hget.
  unfold placeholderFree_spec. intro Hfree.
  assert (Ht : someString containsPlaceholder (JObject (cleanSchema (JObject props))) = true).
  { cbn [someString]. apply existsb_exists.
    exists (key, JString ("{{" ++ name ++ "}}")). split; [exact Hget|].
    cbn [snd someString].
    cbn [containsPlaceholder append startsWith dropChars String.length].
    rewrite !Ascii.eqb_refl, includes_append_r. reflexivity. }
  congruence.
Qed.
End CleanSchemaFacts.

(** ** Filling the templates *)

Section FillTemplateExamples.
Import Js Json SchemaTemplates TemplateSpec.

(** Every template of the catalog is an object with a type, and its text
    parses back to it. *)
Lemma catalog_roundtrip :
  Forall
    (fun entry =>
       templateType (snd entry) = Some (fst entry) /\
       JSON_parse (stringify (snd entry)) = Returned (templateValue (snd entry)))
    templates.
Proof. repeat constructor. Qed.

(** C3 at the Organization template: the extraction has no case for the
    type and fills the description only; the cleanup drops the
    placeholder named after its own property ([logo]) and keeps the
    others, so the object returned still holds placeholder tokens. *)
Example organization_template_keeps_placeholders :
  getTemplate "Organization" = Some getOrganizationTemplate /\
  exists schema,
    fillTemplate getOrganizationTemplate shopPage bareExtracts = Returned schema /\
    get String.eqb schema "name" = Some (JString "{{organizationName}}") /\
    get String.eqb schema "url" = Some (JString "{{website}}") /\
    get String.eqb schema "logo" = None /\
    ~ placeholderFree_spec schema.
Proof.
  split; [reflexivity|].
  eexists. split; [vm_compute; reflexivity|].
  repeat split; try reflexivity.
  unfold placeholderFree_spec. vm_compute. discriminate.
Qed.

(** The Person and BreadcrumbList templates fare the same. *)
Example person_and_breadcrumb_keep_placeholders :
  (exists schema,
      fillTemplate getPersonTemplate shopPage bareExtracts = Returned schema /\
      ~ placeholderFree_spec schema) /\
  (exists schema,
      fillTemplate getBreadcrumbListTemplate shopPage bareExtracts = Returned schema /\
      ~ placeholderFree_spec schema).
Proof.
  split; (eexists; split; [vm_compute; reflexivity|]);
    unfold placeholderFree_spec; vm_compute; discriminate.
Qed.

(** A template whose extraction has a case is filled completely. *)
Example article_template_filled :
  exists schema,
    fillTemplate getArticleTemplate shopPageWithHeadings bareExtracts = Returned schema /\
    get String.eqb schema "headline" = Some (JString "Tanaka Books") /\
    placeholderFree_spec schema.
Proof.
  eexists. split; [vm_compute; reflexivity|]. split; reflexivity.
Qed.

(** The callers hand over page data without headings: with no keywords
    meta tag the Article extractor throws. *)
Example article_template_throws_without_headings :
  fillTemplate getArticleTemplate shopPage bareExtracts
  = Thrown "TypeError: Cannot read properties of undefined (reading 'slice')".
Proof. reflexivity. Qed.

(** Six extractors call a helper that does not exist: filling throws. *)
Example recipe_template_throws :
  fillTemplate getRecipeTemplate shopPage bareExtracts
  = Thrown "TypeError: this.extractPrepTime is not a function".
Proof. reflexivity. Qed.
End FillTemplateExamples.

(** ** More on the classifier *)

Section ClassifierMore.
Import Js PageTypeAnalyzer ClassifierSpec.
Local Open Scope Q_scope.
Variable toLowerCase : string -> string.

Lemma num_nonneg n : 0 <= num n.
Proof.
  unfold num. change 0 with (inject_Z 0). rewrite <- Zle_Qle. lia.
Qed.

Lemma num_pos n : n <> 0%nat -> 1 <= num n.
Proof.
  intro H. unfold num. change 1 with (inject_Z 1). rewrite <- Zle_Qle. lia.
Qed.

Lemma specialElementBonus_nonneg se type : 0 <= specialElementBonus_spec se type.
Proof.
  destruct se as [p r e c q j k].
  destruct type; simpl;
    repeat match goal with |- context [if ?b then _ else _] => destruct b end; lra.
Qed.

Lemma calculateSingleTypeScore_nonneg type pageData :
  0 <= calculateSingleTypeScore toLowerCase type pageData.
Proof.
  rewrite calculateSingleTypeScore_formula. cbv zeta.
  repeat match goal with
         | |- context [num ?n] =>
             let H := fresh in
             pose proof (num_nonneg n) as H; generalize dependent (num n); intros
         end.
  lra.
Qed.

(** The weighted sum of seven counts is 0 when all are 0 and at least 1
    otherwise. *)
Lemma weighted_counts_cases (a b c d e f g : nat) :
  let total :=
    3 * (num a + num b) + (5 # 2) * num c + 2 * num d + 2 * num e
    + 1 * (num f + num g) in
  (total == 0 <-> Forall (fun n => n = 0%nat) [a; b; c; d; e; f; g]) /\
  (total == 0 \/ 1 <= total).
Proof.
  cbv zeta.
  pose proof (num_nonneg a). pose proof (num_nonneg b). pose proof (num_nonneg c).
  pose proof (num_nonneg d). pose proof (num_nonneg e). pose proof (num_nonneg f).
  pose proof (num_nonneg g).
  destruct (Nat.eq_dec a 0) as [-> | Ha]; [|apply num_pos in Ha];
  destruct (Nat.eq_dec b 0) as [-> | Hb]; [|apply num_pos in Hb | | apply num_pos in Hb];
  destruct (Nat.eq_dec c 0) as [-> | Hc]; try apply num_pos in Hc;
  destruct (Nat.eq_dec d 0) as [-> | Hd]; try apply num_pos in Hd;
  destruct (Nat.eq_dec e 0) as [-> | He]; try apply num_pos in He;
  destruct (Nat.eq_dec f 0) as [-> | Hf]; try apply num_pos in Hf;
  destruct (Nat.eq_dec g 0) as [-> | Hg]; try apply num_pos in Hg;
  (split;
   [ split;
     [ intro Hz;
       try (repeat constructor; fail);
       exfalso; change (num 0) with 0 in *; lra
     | intro Hall;
       try reflexivity;
       exfalso;
       repeat match goal with
              | Hx : Forall _ (_ :: _) |- _ => inversion Hx; clear Hx; subst
              end;
       change (num 0) with 0 in *; lra ]
   | try (left; reflexivity); right; change (num 0) with 0 in *; lra ]).
Qed.

(** X1: the base score of a type is 0 exactly when none of its keywords
    and patterns is counted in the title, the description, the headings,
    the URL or the body text, and it is at least 1 otherwise. *)
Theorem base_score_zero_iff type pageData :
  let sig := patterns type in
  let counts :=
    [countMatches toLowerCase (title pageData) (keywords sig);
     countPatternMatches (title pageData) (titlePatterns sig);
     countMatches toLowerCase (metaDescription pageData) (keywords sig);
     countMatches toLowerCase (String.concat " " (headings pageData)) (keywords sig);
     countPatternMatches (url pageData) (urlPatterns sig);
     countMatches toLowerCase (bodyText pageData) (keywords sig);
     countMatches toLowerCase (bodyText pageData) (contentPatterns sig)] in
  (calculateSingleTypeScore toLowerCase type pageData == 0 <->
   Forall (fun n => n = 0%nat) counts) /\
  (calculateSingleTypeScore toLowerCase type pageData == 0 \/
   1 <= calculateSingleTypeScore toLowerCase type pageData).
Proof.
  cbv zeta.
  pose proof (calculateSingleTypeScore_formula toLowerCase type pageData) as Hf.
  cbv zeta in Hf. rewrite Hf.
  match goal with
  | |- (_ <-> Forall _ [?a; ?b; ?c; ?d; ?e; ?f; ?g]) /\ _ =>
      exact (weighted_counts_cases a b c d e f g)
  end.
Qed.

Lemma finalScore_nonneg pageData type :
  0 <= finalScore toLowerCase pageData type.
Proof.
  rewrite finalScore_bonus.
  pose proof (calculateSingleTypeScore_nonneg type pageData).
  pose proof (specialElementBonus_nonneg (specialElements pageData) type). lra.
Qed.

Variable Document : Type.
Variable extractPageData : Document -> string -> outcome ExtractedPageData.

(** X2: whatever the document, no score of the answer is negative: the
    confidence and every entry of [allScores] are at least 0, and an
    entry is at least the base score of its type. *)
Theorem analyzePage_scores_nonnegative doc url :
  let result := analyzePage toLowerCase Document extractPageData doc url in
  0 <= confidence result /\
  forall type q, In (type, q) (allScores result) ->
    0 <= q /\
    forall pageData, extractPageData doc url = Returned pageData ->
      calculateSingleTypeScore toLowerCase type pageData <= q.
Proof.
  cbv zeta. destruct (extractPageData doc url) as [pageData | message] eqn:Hx.
  - destruct (analyzePage_returned toLowerCase Document extractPageData doc url
                pageData Hx) as (t1 & t2 & t3 & rest & _ & _ & _ & Ha & Hc).
    cbv zeta in Ha, Hc. split.
    + rewrite Hc. apply finalScore_nonneg.
    + intros type q Hin. rewrite Ha in Hin.
      pose proof (finalScore_entry toLowerCase pageData _ Hin) as Hq. simpl in Hq.
      split.
      * rewrite <- Hq. apply finalScore_nonneg.
      * intros pd Hpd. inversion Hpd; subst pd. rewrite <- Hq.
        rewrite finalScore_bonus.
        pose proof (specialElementBonus_nonneg (specialElements pageData) type). lra.
  - destruct (analyzePage_thrown toLowerCase Document extractPageData doc url
                message Hx) as (_ & Hc & _ & Ha).
    cbv zeta in Ha, Hc. rewrite Hc, Ha. split; [lra|]. intros type q [].
Qed.

Lemma ranking_NoDup pageData : NoDup (ranking toLowerCase pageData).
Proof.
  apply (Permutation_NoDup (Permutation_sym (ranking_perm toLowerCase pageData))).
  apply patternKeys_NoDup.
Qed.

(** X3: the primary type is never among the secondary types, the
    secondary types are distinct and there are at most two of them; a run
    whose extraction succeeds has exactly two, and the default answer of
    the catch branch has none. *)
Theorem secondary_types_distinct doc url :
  let result := analyzePage toLowerCase Document extractPageData doc url in
  NoDup (secondaryTypes result) /\
  (length (secondaryTypes result) <= 2)%nat /\
  (forall type, primaryType result = Some type -> ~ In type (secondaryTypes result)) /\
  (forall pageData, extractPageData doc url = Returned pageData ->
                    length (secondaryTypes result) = 2%nat) /\
  (forall message, extractPageData doc url = Thrown message ->
                   secondaryTypes result = []).
Proof.
  cbv zeta. destruct (extractPageData doc url) as [pageData | message] eqn:Hx.
  - destruct (analyzePage_returned toLowerCase Document extractPageData doc url
                pageData Hx) as (t1 & t2 & t3 & rest & Hr & Hp & Hs & _).
    cbv zeta in Hp, Hs. rewrite Hp, Hs.
    pose proof (ranking_NoDup pageData) as Hnd. rewrite Hr in Hnd.
    inversion Hnd as [|? ? H1 Hnd1]; subst.
    inversion Hnd1 as [|? ? H2 Hnd2]; subst.
    inversion Hnd2 as [|? ? H3 Hnd3]; subst.
    repeat split.
    + constructor; [|constructor; [tauto | constructor]].
      intros [Heq | []]. subst. apply H2. now left.
    + simpl. lia.
    + intros type Ht. inversion Ht; subst type.
      intros [Heq | [Heq | []]]; subst; apply H1; simpl; tauto.
    + intros message Hthrown. discriminate.
  - destruct (analyzePage_thrown toLowerCase Document extractPageData doc url
                message Hx) as (_ & _ & Hs & _).
    cbv zeta in Hs. rewrite Hs.
    split; [constructor|]. split; [simpl; lia|].
    split; [intros type _ []|].
    split; [intros pd Hpd; discriminate | intros _ _; reflexivity].
Qed.

(** The position of a list element. *)
Lemma In_firstn_skipn {A} (x : A) n l : In x l -> In x (firstn n l) \/ In x (skipn n l).
Proof. intro H. rewrite <- (firstn_skipn n l) in H. now apply in_app_or in H. Qed.

(** X4: [getTopTypes] returns five distinct types of the score object,
    and no type it leaves out scores more than a type it returns. *)
Theorem getTopTypes_top_five pageData :
  let top := getTopTypes (calculateTypeScores toLowerCase pageData) in
  length top = 5%nat /\ NoDup top /\
  forall kept left,
    In kept top -> ~ In left top ->
    finalScore toLowerCase pageData left <= finalScore toLowerCase pageData kept.
Proof.
  cbv zeta. unfold getTopTypes. fold (ranking toLowerCase pageData).
  pose proof (ranking_length toLowerCase pageData) as Hlen.
  pose proof (ranking_NoDup pageData) as Hnd.
  pose proof (ranking_descending toLowerCase pageData) as Hdesc.
  pose proof (ranking_perm toLowerCase pageData) as Hperm.
  set (r := ranking toLowerCase pageData) in *.
  split; [rewrite length_firstn; lia|].
  split.
  { rewrite <- (firstn_skipn 5 r) in Hnd. now apply NoDup_app_remove_r in Hnd. }
  intros kept left Hkept Hleft.
  assert (Hin : In left r).
  { apply (Permutation_in _ (Permutation_sym Hperm)). apply patternKeys_complete. }
  destruct (In_firstn_skipn left 5 r Hin) as [H | Hskip]; [contradiction|].
  apply In_nth_error in Hkept. destruct Hkept as (i & Hi).
  apply In_nth_error in Hskip. destruct Hskip as (j & Hj).
  rewrite nth_error_firstn in Hi.
  destruct (Nat.ltb_spec i 5) as [Hi5 | Hge]; [|discriminate].
  rewrite nth_error_skipn in Hj.
  apply (Hdesc i (5 + j)%nat kept left); [lia | exact Hi | exact Hj].
Qed.

Lemma fold_count_filter {A} (test : A -> bool) (l : list A) (n : nat) :
  fold_left (fun count x => if test x then (count + 1)%nat else count) l n
  = (n + length (filter test l))%nat.
Proof.
  revert n. induction l as [|x l IH]; intro n; simpl; [lia|].
  rewrite IH. destruct (test x); simpl; lia.
Qed.

Lemma countPatternMatches_length text pats :
  filter (includes "") pats = [] ->
  countPatternMatches text pats = length (filter (includes text) pats).
Proof.
  intro Hempty. unfold countPatternMatches.
  destruct text as [|c text]; simpl isEmpty; cbv iota.
  - now rewrite Hempty.
  - now rewrite fold_count_filter.
Qed.

(** No pattern of the signature table is the empty string. *)
Lemma signature_patterns_nonempty type :
  filter (includes "") (titlePatterns (patterns type)) = [] /\
  filter (includes "") (urlPatterns (patterns type)) = [] /\
  filter (includes "") (contentPatterns (patterns type)) = [].
Proof. destruct type; repeat split. Qed.

(** X5: the patterns [getMatchedPatterns] reports for a type are those
    the 0-or-1 count sees: it lists as many title, URL and content
    patterns as [countPatternMatches] counts, each taken from the
    signature of the type. *)
Theorem matched_patterns_counted type pageData :
  exists m,
    getMatchedPatterns toLowerCase pageData (Some type) = Some m /\
    length (m_titlePatterns m)
    = countPatternMatches (title pageData) (titlePatterns (patterns type)) /\
    length (m_urlPatterns m)
    = countPatternMatches (url pageData) (urlPatterns (patterns type)) /\
    length (m_contentPatterns m)
    = countPatternMatches (bodyText pageData) (contentPatterns (patterns type)) /\
    incl (m_keywords m) (keywords (patterns type)) /\
    incl (m_titlePatterns m) (titlePatterns (patterns type)) /\
    incl (m_urlPatterns m) (urlPatterns (patterns type)) /\
    incl (m_contentPatterns m) (contentPatterns (patterns type)).
Proof.
  destruct (signature_patterns_nonempty type) as (Ht & Hu & Hc).
  eexists. split; [reflexivity|]. cbn [m_titlePatterns m_urlPatterns
    m_contentPatterns m_keywords].
  rewrite (countPatternMatches_length _ _ Ht), (countPatternMatches_length _ _ Hu),
    (countPatternMatches_length _ _ Hc).
  repeat split; try reflexivity; apply incl_filter.
Qed.
End ClassifierMore.

(** ** More on the recommender *)

Section RecommenderMore.
Import Js Json StructuredDataRecommender RecommenderSpec RecommenderSpecMore.

(** The answer is the default one when reading the inventory throws, and
    is built from the filtered tiers otherwise. *)
Lemma generateRecommendations_cases pa inv :
  (exists message,
      existingTypes inv = Thrown message /\
      generateRecommendations pa inv = getDefaultRecommendations) \/
  (exists existing,
      existingTypes inv = Returned existing /\
      let base := getBaseRecommendations (effectiveType pa) in
      let kept := filter (fun s => negb (has existing s)) in
      generateRecommendations pa inv =
      {| pageType := effectiveType pa;
         r_confidence := PageTypeAnalyzer.orZero (pa_confidence pa);
         r_recommendations :=
           prioritizeRecommendations
             {| primary := kept (primary base);
                secondary := kept (secondary base);
                optional := kept (optional base) |};
         expectedBenefits :=
           calculateExpectedBenefits
             (prioritizeRecommendations
                {| primary := kept (primary base);
                   secondary := kept (secondary base);
                   optional := kept (optional base) |}) |}).
Proof.
  unfold generateRecommendations, findMissingSchemas. fold (effectiveType pa).
  destruct (existingTypes inv) as [existing | message].
  - right. exists existing. split; reflexivity.
  - left. exists message. split; reflexivity.
Qed.

Lemma mapEntries_null entries :
  In JNull entries -> exists message, mapEntries entries = Thrown message.
Proof.
  induction entries as [|entry rest IH]; [intros []|].
  intros [-> | Hin].
  - eexists. reflexivity.
  - destruct (IH Hin) as (message & Hm). simpl.
    destruct (entryType entry) as [t | m]; simpl; [|eexists; reflexivity].
    rewrite Hm. eexists. reflexivity.
Qed.

(** X6: an inventory with a [null] entry makes the recommender fall back
    to its default answer, whatever the page type: Article alone, at
    critical priority, with nothing else recommended. *)
Theorem null_entry_default pa inv :
  In JNull (entriesOf inv) ->
  generateRecommendations pa inv = getDefaultRecommendations /\
  recommendedSchemas (generateRecommendations pa inv) = ["Article"].
Proof.
  intro Hin.
  assert (H : generateRecommendations pa inv = getDefaultRecommendations).
  { destruct (generateRecommendations_cases pa inv)
      as [(message & _ & Hd) | (existing & He & _)]; [exact Hd|].
    unfold existingTypes, entriesOf in *.
    destruct (jsonLd inv) as [entries|]; [|contradiction].
    destruct (mapEntries_null entries Hin) as (message & Hm).
    rewrite Hm in He. discriminate. }
  rewrite H. split; reflexivity.
Qed.

(** A page whose second JSON-LD block is the text [null]. *)
Lemma null_entry_default_witness :
  In JNull (entriesOf (inventoryOf [organizationEntry; JNull])) /\
  generateRecommendations (classifiedAs "Product")
                          (inventoryOf [organizationEntry; JNull])
  = getDefaultRecommendations.
Proof.
  assert (H : In JNull (entriesOf (inventoryOf [organizationEntry; JNull])))
    by (simpl; tauto).
  split; [exact H|].
  exact (proj1 (null_entry_default (classifiedAs "Product")
                  (inventoryOf [organizationEntry; JNull]) H)).
Defined.

Lemma distinct_NoDup names : distinct names = true -> NoDup names.
Proof.
  induction names as [|x rest IH]; simpl; [constructor|].
  intro H. apply andb_true_iff in H. destruct H as [Hx Hrest].
  constructor; [|now apply IH].
  intro Hin. apply negb_true_iff in Hx.
  assert (Ht : existsb (String.eqb x) rest = true).
  { apply existsb_exists. exists x. split; [exact Hin | apply String.eqb_refl]. }
  congruence.
Qed.

(** Whatever the page type, the three tiers looked up for it share no
    name and repeat none. *)
Lemma tiers_NoDup pageType :
  let base := getBaseRecommendations pageType in
  NoDup (primary base ++ secondary base ++ optional base)%list.
Proof.
  cbv zeta. apply distinct_NoDup.
  unfold getBaseRecommendations, recommendations. cbn [get].
  repeat match goal with
         | |- context [String.eqb pageType ?k] => destruct (String.eqb pageType k)
         end;
    try (destruct (existsb (String.eqb pageType) inheritedNames));
    reflexivity.
Qed.

Lemma NoDup_filter_apps {A} (keep : A -> bool) (a b c : list A) :
  NoDup (a ++ b ++ c)%list ->
  NoDup (filter keep a ++ filter keep b ++ filter keep c)%list.
Proof.
  intro H. rewrite <- !filter_app. now apply NoDup_filter.
Qed.

(** X7: for every classification and every inventory, the schema names
    of the three lists are distinct: no schema is recommended twice,
    within a list or across two lists. *)
Theorem recommended_schemas_distinct pa inv :
  NoDup (recommendedSchemas (generateRecommendations pa inv)).
Proof.
  destruct (generateRecommendations_cases pa inv)
    as [(message & _ & ->) | (existing & _ & Hr)].
  - apply distinct_NoDup. reflexivity.
  - cbv zeta in Hr. rewrite Hr. unfold recommendedSchemas.
    cbn [r_recommendations].
    rewrite prioritize_missing, prioritize_improvements, prioritize_optional.
    cbn [primary secondary optional].
    apply NoDup_filter_apps, tiers_NoDup.
Qed.

Lemma get_absent {V} (table : list (string * V)) key :
  ~ In key (keys table) -> get String.eqb table key = None.
Proof.
  unfold keys. induction table as [|[k v] rest IH]; simpl; [reflexivity|].
  intro Hnot. destruct (String.eqb key k) eqn:E.
  - apply String.eqb_eq in E. subst. tauto.
  - apply IH. tauto.
Qed.

Lemma not_inherited name :
  ~ In name inheritedNames -> existsb (String.eqb name) inheritedNames = false.
Proof.
  intro Hnot. destruct (existsb (String.eqb name) inheritedNames) eqn:E; [|reflexivity].
  apply existsb_exists in E. destruct E as (x & Hin & Hx).
  apply String.eqb_eq in Hx. subst. contradiction.
Qed.

Lemma generateRecommendations_same_base pa pa' inv :
  getBaseRecommendations (effectiveType pa) = getBaseRecommendations (effectiveType pa') ->
  r_recommendations (generateRecommendations pa inv)
  = r_recommendations (generateRecommendations pa' inv) /\
  expectedBenefits (generateRecommendations pa inv)
  = expectedBenefits (generateRecommendations pa' inv).
Proof.
  intro Hbase.
  destruct (generateRecommendations_cases pa inv)
    as [(m & He & ->) | (existing & He & ->)];
    destruct (generateRecommendations_cases pa' inv)
      as [(m' & He' & ->) | (existing' & He' & ->)];
    rewrite He in He'; try discriminate.
  - split; reflexivity.
  - inversion He'; subst existing'. cbn [r_recommendations expectedBenefits].
    rewrite Hbase. split; reflexivity.
Qed.

(** X8: a primary type that is no key of the catalog, and no name every
    object inherits, is answered with the lists and the benefits of
    Article; so is an absent or an empty primary type, whose answer is
    the one for Article altogether. *)
Theorem unknown_type_answered_as_article pageType confidence inv :
  ~ In pageType (keys recommendations) -> ~ In pageType inheritedNames ->
  let article := {| pa_primaryType := Some "Article"; pa_confidence := confidence |} in
  let answer pt :=
    generateRecommendations {| pa_primaryType := pt; pa_confidence := confidence |} inv in
  r_recommendations (answer (Some pageType)) = r_recommendations (answer (Some "Article")) /\
  expectedBenefits (answer (Some pageType)) = expectedBenefits (answer (Some "Article")) /\
  answer None = answer (Some "Article") /\
  answer (Some "") = answer (Some "Article").
Proof.
  intros Hkey Hinh. cbv zeta.
  assert (Hbase : forall pt,
             getBaseRecommendations
               (effectiveType {| pa_primaryType := pt; pa_confidence := confidence |})
             = getBaseRecommendations "Article" ->
             r_recommendations
               (generateRecommendations
                  {| pa_primaryType := pt; pa_confidence := confidence |} inv)
             = r_recommendations
                 (generateRecommendations
                    {| pa_primaryType := Some "Article"; pa_confidence := confidence |} inv) /\
             expectedBenefits
               (generateRecommendations
                  {| pa_primaryType := pt; pa_confidence := confidence |} inv)
             = expectedBenefits
                 (generateRecommendations
                    {| pa_primaryType := Some "Article"; pa_confidence := confidence |} inv)).
  { intros pt H. apply generateRecommendations_same_base. exact H. }
  assert (Hfall : getBaseRecommendations pageType = getBaseRecommendations "Article").
  { unfold getBaseRecommendations at 1.
    rewrite (get_absent recommendations pageType Hkey), (not_inherited pageType Hinh).
    reflexivity. }
  assert (Heff : getBaseRecommendations
                   (effectiveType
                      {| pa_primaryType := Some pageType; pa_confidence := confidence |})
                 = getBaseRecommendations "Article").
  { unfold effectiveType. cbn [pa_primaryType].
    destruct (String.eqb pageType ""); [reflexivity | exact Hfall]. }
  split; [now apply Hbase|]. split; [now apply Hbase|]. split; reflexivity.
Qed.

(** A page classified WebPage, a type the catalog does not know. *)
Lemma unknown_type_answered_as_article_witness :
  ~ In "WebPage" (keys recommendations) /\ ~ In "WebPage" inheritedNames /\
  r_recommendations
    (generateRecommendations
       {| pa_primaryType := Some "WebPage"; pa_confidence := Some 2%Q |} noInventory)
  = r_recommendations
      (generateRecommendations
         {| pa_primaryType := Some "Article"; pa_confidence := Some 2%Q |} noInventory).
Proof.
  assert (Hk : ~ In "WebPage" (keys recommendations))
    by (simpl; intuition discriminate).
  assert (Hi : ~ In "WebPage" inheritedNames) by (simpl; intuition discriminate).
  split; [exact Hk|]. split; [exact Hi|].
  exact (proj1 (unknown_type_answered_as_article "WebPage" (Some 2%Q) noInventory Hk Hi)).
Defined.

(** X9: for every classification and every inventory the expected
    benefits stay within their caps: the rich-snippet probability between
    0 and 90, the ranking estimate between 0 and 20, the click-through
    estimate between 0 and 25, and the local-search figure 10 or 40. *)
Theorem expected_benefits_bounded pa inv :
  let benefits := expectedBenefits (generateRecommendations pa inv) in
  (0 <= richSnippets_probability benefits <= 90 /\
   (forall v, searchRanking_improvement benefits = Some v -> 0 <= v <= 20) /\
   (forall v, clickThroughRate_improvement benefits = Some v -> 0 <= v <= 25) /\
   (forall v, localSearch_visibility benefits = Some v -> v = 10 \/ v = 40))%Z.
Proof.
  cbv zeta.
  destruct (generateRecommendations_cases pa inv)
    as [(message & _ & ->) | (existing & _ & ->)].
  - cbn. split; [lia|].
    split; [intros v Hv; discriminate|].
    split; intros v Hv; discriminate.
  - cbn [expectedBenefits]. unfold calculateExpectedBenefits.
    cbn [richSnippets_probability searchRanking_improvement
         clickThroughRate_improvement localSearch_visibility].
    split; [lia|].
    split; [intros v Hv; inversion Hv; lia|].
    split; [intros v Hv; inversion Hv; lia|].
    intros v Hv; inversion Hv. destruct (existsb _ _); tauto.
Qed.

Lemma getSEOValue_range name : (75 <= getSEOValue name <= 92)%Z.
Proof.
  unfold getSEOValue, lookupOr. cbn [get].
  repeat match goal with
         | |- context [String.eqb name ?k] => destruct (String.eqb name k)
         end; lia.
Qed.

Lemma getSchemaDifficulty_values name :
  In (getSchemaDifficulty name) ["easy"; "medium"; "hard"].
Proof.
  unfold getSchemaDifficulty, lookupOr. cbn [get].
  repeat match goal with
         | |- context [String.eqb name ?k] => destruct (String.eqb name k)
         end; simpl; tauto.
Qed.

(** X10: in every answer the items of [missing] are critical with high
    impact, those of [improvements] high with medium impact and those of
    [optional] low with low impact; an SEO value, when an item has one,
    lies between 75 and 92, and a difficulty is easy, medium or hard. *)
Theorem recommendation_items_labelled pa inv :
  let lists := r_recommendations (generateRecommendations pa inv) in
  (forall item, In item (missing lists) ->
                priority item = "critical" /\ impact item = "high") /\
  (forall item, In item (improvements lists) ->
                priority item = "high" /\ impact item = "medium") /\
  (forall item, In item (optionalItems lists) ->
                priority item = "low" /\ impact item = "low") /\
  (forall item, In item (missing lists ++ improvements lists ++ optionalItems lists)%list ->
                (forall v, seoValue item = Some v -> 75 <= v <= 92)%Z /\
                (forall d, difficulty item = Some d -> In d ["easy"; "medium"; "hard"])).
Proof.
  cbv zeta.
  destruct (generateRecommendations_cases pa inv)
    as [(message & _ & ->) | (existing & _ & ->)].
  - cbn. split; [intros item [<- | []]; split; reflexivity|].
    split; [intros item []|]. split; [intros item []|].
    intros item [<- | []]. split; intros ? Hv; discriminate.
  - cbn [r_recommendations prioritizeRecommendations missing improvements
         optionalItems primary secondary optional].
    split; [intros item H; apply in_map_iff in H;
            destruct H as (name & <- & _); split; reflexivity|].
    split; [intros item H; apply in_map_iff in H;
            destruct H as (name & <- & _); split; reflexivity|].
    split; [intros item H; apply in_map_iff in H;
            destruct H as (name & <- & _); split; reflexivity|].
    intros item H. rewrite !in_app_iff, !in_map_iff in H.
    destruct H as [(name & <- & _) | [(name & <- & _) | (name & <- & _)]];
      cbn [seoValue difficulty];
      (split; [intros v Hv; inversion Hv; subst; apply getSEOValue_range
              | intros d Hd; inversion Hd; subst; apply getSchemaDifficulty_values]).
Qed.
End RecommenderMore.

(** ** The business-specific recommendations *)

Section BusinessSpecificFacts.
Import Js BusinessSpecific.
Variable toLowerCase : string -> string.

Lemma find_first {A} (test : A -> bool) (l : list A) :
  match find test l with
  | Some x =>
      exists before after,
        l = (before ++ x :: after)%list /\ test x = true /\
        Forall (fun y => test y = false) before
  | None => Forall (fun y => test y = false) l
  end.
Proof.
  induction l as [|a l IH]; simpl; [constructor|].
  destruct (test a) eqn:E.
  - exists [], l. repeat split; [exact E | constructor].
  - destruct (find test l) as [x|].
    + destruct IH as (before & after & -> & Hx & Hb).
      exists (a :: before), after. repeat split; [exact Hx | now constructor].
    + now constructor.
Qed.

(** X11: [detectBusinessType] answers with the first category, in the
    order Restaurant, Store, Hotel, Hospital, School, Gym, BeautySalon,
    one of whose keywords is in the text of the page, and with nothing
    when no category has one. *)
Theorem detectBusinessType_first_match pageData :
  let text := businessText toLowerCase pageData in
  match detectBusinessType toLowerCase pageData with
  | Some type =>
      exists before keywords after,
        businessTypes = (before ++ (type, keywords) :: after)%list /\
        (exists keyword, In keyword keywords /\
                         includes text (toLowerCase keyword) = true) /\
        forall category keyword,
          In category before -> In keyword (snd category) ->
          includes text (toLowerCase keyword) = false
  | None =>
      forall category keyword,
        In category businessTypes -> In keyword (snd category) ->
        includes text (toLowerCase keyword) = false
  end.
Proof.
  cbv zeta. unfold detectBusinessType.
  pose proof (find_first (mentions toLowerCase (businessText toLowerCase pageData))
                businessTypes) as H.
  assert (Hnone : forall cats,
             Forall (fun y => mentions toLowerCase (businessText toLowerCase pageData) y
                              = false) cats ->
             forall category keyword,
               In category cats -> In keyword (snd category) ->
               includes (businessText toLowerCase pageData) (toLowerCase keyword) = false).
  { intros cats Hall category keyword Hc Hk.
    rewrite Forall_forall in Hall. specialize (Hall category Hc).
    unfold mentions in Hall.
    destruct (includes _ (toLowerCase keyword)) eqn:E; [|reflexivity].
    assert (Ht : existsb
                   (fun keyword => includes (businessText toLowerCase pageData)
                                            (toLowerCase keyword))
                   (snd category) = true)
      by (apply existsb_exists; exists keyword; split; assumption).
    congruence. }
  destruct (find _ businessTypes) as [[type keywords]|]; cbn [option_map fst].
  - destruct H as (before & after & Hl & Hx & Hb).
    exists before, keywords, after. split; [exact Hl|]. split.
    + unfold mentions in Hx. cbn [snd] in Hx. apply existsb_exists in Hx.
      destruct Hx as (keyword & Hin & Hk). now exists keyword.
    + now apply Hnone.
  - now apply Hnone.
Qed.

(** A cafe that mentions its shop is a Restaurant: the earlier category
    wins. *)
Example cafe_is_restaurant :
  detectBusinessType toLowerCaseLatin cafePage = Some "Restaurant" /\
  map b_type (getBusinessSpecificRecommendations toLowerCaseLatin "LocalBusiness" cafePage)
  = ["BusinessType"; "OpeningHours"].
Proof. split; vm_compute; reflexivity. Qed.
End BusinessSpecificFacts.

(** ** More on the cleanup pass *)

Section CleanSchemaMore.
Import Js Json SchemaTemplates TemplateSpec TemplateSpecMore.

(** Storing an entry that has a property keeps every entry having it. *)
Lemma set_Forall (P : string * value -> Prop) cleaned key v :
  Forall P cleaned -> P (key, v) -> Forall P (set String.eqb cleaned key v).
Proof.
  intros Hall Hnew. induction cleaned as [|[k' v'] rest IH]; simpl.
  - now constructor.
  - inversion Hall; subst. destruct (String.eqb key k') eqn:E.
    + apply String.eqb_eq in E. subst k'. now constructor.
    + constructor; [assumption | now apply IH].
Qed.

Lemma set_keys_NoDup (cleaned : list (string * value)) key v :
  NoDup (keys cleaned) -> NoDup (keys (set String.eqb cleaned key v)).
Proof.
  intro Hnd. destruct (in_dec string_dec key (keys cleaned)) as [Hin | Hnot].
  - now rewrite (keys_set_present String.eqb String_eqb_spec).
  - rewrite (keys_set_absent String.eqb String_eqb_spec) by exact Hnot.
    unfold keys in *. rewrite map_app. simpl.
    apply NoDup_app; [exact Hnd | repeat constructor; tauto | ].
    intros x Hx [Heq | []]. subst x. contradiction.
Qed.

Lemma set_keys_incl (cleaned : list (string * value)) key v :
  incl (keys (set String.eqb cleaned key v)) (key :: keys cleaned).
Proof.
  destruct (in_dec string_dec key (keys cleaned)) as [Hin | Hnot].
  - rewrite (keys_set_present String.eqb String_eqb_spec) by exact Hin.
    apply incl_tl, incl_refl.
  - rewrite (keys_set_absent String.eqb String_eqb_spec) by exact Hnot.
    unfold keys. rewrite map_app. simpl.
    intros x Hx. apply in_app_or in Hx. simpl in *. tauto.
Qed.

Lemma set_length (cleaned : list (string * value)) key v :
  (length (set String.eqb cleaned key v) <= S (length cleaned))%nat.
Proof.
  induction cleaned as [|[k' v'] rest IH]; simpl; [lia|].
  destruct (String.eqb key k'); simpl; lia.
Qed.

(** What one turn of the loop does: nothing, or one store. *)
Lemma cleanEntry_cases cleaned key v :
  cleanEntry cleanSchema cleaned (key, v) =
  match cleanedValue key v with
  | Some w => assign cleaned key w
  | None => cleaned
  end.
Proof.
  destruct v as [ | b | n | s | items | props]; cbn [cleanEntry cleanedValue];
    try reflexivity.
  - destruct (String.eqb s "" || String.eqb s ("{{" ++ key ++ "}}")); reflexivity.
  - destruct (filter keepItem items); reflexivity.
  - destruct (cleanSchema (JObject props)); reflexivity.
Qed.

Lemma cleanedValue_pruned key v w :
  wellPruned (cleanSchema v) ->
  key <> "__proto__" -> cleanedValue key v = Some w -> prunedEntry (key, w).
Proof.
  intros [Hnd Hall] Hkey Hw.
  destruct v as [ | b | n | s | items | props]; cbn [cleanedValue] in Hw.
  - discriminate.
  - inversion Hw; subst. now constructor.
  - inversion Hw; subst. now constructor.
  - destruct (String.eqb s "") eqn:E1; [discriminate|].
    destruct (String.eqb s ("{{" ++ key ++ "}}")) eqn:E2; [discriminate|].
    inversion Hw; subst. apply String.eqb_neq in E1, E2. now constructor.
  - destruct (filter keepItem items) as [|item rest] eqn:Ef; [discriminate|].
    inversion Hw; subst. constructor; [exact Hkey | discriminate|].
    rewrite <- Ef. apply Forall_forall. intros x Hx. now apply filter_In in Hx.
  - destruct (cleanSchema (JObject props)) as [|kv rest] eqn:Ec; [discriminate|].
    inversion Hw; subst. constructor; [exact Hkey | discriminate | exact Hnd | exact Hall].
Qed.

Lemma cleanEntry_wellPruned cleaned entry :
  wellPruned (cleanSchema (snd entry)) ->
  wellPruned cleaned -> wellPruned (cleanEntry cleanSchema cleaned entry).
Proof.
  destruct entry as [key v]. cbn [snd]. intros Hv [Hnd Hall].
  rewrite cleanEntry_cases.
  destruct (cleanedValue key v) as [w|] eqn:Ew; [|now split].
  unfold assign. destruct (String.eqb key "__proto__") eqn:E; [now split|].
  apply String.eqb_neq in E. split.
  - now apply set_keys_NoDup.
  - apply set_Forall; [exact Hall|]. now apply (cleanedValue_pruned key v w).
Qed.

Lemma fold_cleanEntry_wellPruned props acc :
  Forall (fun kv => wellPruned (cleanSchema (snd kv))) props ->
  wellPruned acc -> wellPruned (fold_left (cleanEntry cleanSchema) props acc).
Proof.
  revert acc. induction props as [|entry rest IH]; intros acc Hall Hacc;
    cbn [fold_left]; [exact Hacc|].
  inversion Hall; subst. apply IH; [assumption|].
  now apply cleanEntry_wellPruned.
Qed.

Lemma cleanSchema_wellPruned v : wellPruned (cleanSchema v).
Proof.
  induction v using value_nested_ind; try (split; constructor).
  cbn [cleanSchema]. apply fold_cleanEntry_wellPruned; [assumption|].
  split; constructor.
Qed.

Lemma fold_cleanEntry_keys props acc :
  incl (keys (fold_left (cleanEntry cleanSchema) props acc)) (keys acc ++ keys props) /\
  (length (fold_left (cleanEntry cleanSchema) props acc) <= length acc + length props)%nat.
Proof.
  revert acc. induction props as [|[key v] rest IH]; intro acc; cbn [fold_left].
  - unfold keys. simpl. rewrite app_nil_r. split; [apply incl_refl | lia].
  - destruct (IH (cleanEntry cleanSchema acc (key, v))) as [Hincl Hlen].
    assert (Hstep : incl (keys (cleanEntry cleanSchema acc (key, v))) (key :: keys acc) /\
                    (length (cleanEntry cleanSchema acc (key, v)) <= S (length acc))%nat).
    { rewrite cleanEntry_cases. unfold assign.
      destruct (cleanedValue key v) as [w|];
        [destruct (String.eqb key "__proto__")|];
        try (split; [apply incl_tl, incl_refl | lia]).
      split; [apply set_keys_incl | apply set_length]. }
    destruct Hstep as [Hsi Hsl]. split; [|cbn [length]; lia].
    intros x Hx. apply Hincl in Hx. apply in_app_or in Hx.
    unfold keys in *. simpl. apply in_or_app.
    destruct Hx as [Hx | Hx]; [|right; now right].
    apply Hsi in Hx. destruct Hx as [<- | Hx]; [right; now left | now left].
Qed.

(** X12: whatever object it is given, [cleanSchema] returns an object
    pruned at every depth of nested objects: distinct property names,
    each a name of the input and none [__proto__], no more properties
    than the input, and no [null], empty string, own-name placeholder,
    empty array, empty object or refused array item. *)
Theorem cleanSchema_pruned (props : list (string * value)) :
  let cleaned := cleanSchema (JObject props) in
  NoDup (keys cleaned) /\
  Forall prunedEntry cleaned /\
  incl (keys cleaned) (keys props) /\
  (length cleaned <= length props)%nat.
Proof.
  cbv zeta. destruct (cleanSchema_wellPruned (JObject props)) as [Hnd Hall].
  destruct (fold_cleanEntry_keys props []) as [Hincl Hlen].
  repeat split; assumption.
Qed.

Lemma fold_cleanEntry_entrywise props acc :
  NoDup (map fst acc ++ map fst props) -> ~ In "__proto__" (map fst props) ->
  fold_left (cleanEntry cleanSchema) props acc = (acc ++ cleanedEntries props)%list.
Proof.
  revert acc. induction props as [|[key v] rest IH]; intros acc Hnd Hproto;
    cbn [fold_left cleanedEntries].
  - now rewrite app_nil_r.
  - cbn [map fst] in Hnd, Hproto. rewrite cleanEntry_cases.
    assert (Hnotin : ~ In key (map fst acc)).
    { apply NoDup_remove_2 in Hnd. intro Hin. apply Hnd.
      apply in_or_app. now left. }
    assert (Hkey : key <> "__proto__") by (intro; subst; apply Hproto; now left).
    assert (Hproto' : ~ In "__proto__" (map fst rest))
      by (intro; apply Hproto; now right).
    destruct (cleanedValue key v) as [w|].
    + unfold assign. rewrite (proj2 (String.eqb_neq key "__proto__") Hkey).
      rewrite (keys_set_absent String.eqb String_eqb_spec) by exact Hnotin.
      rewrite IH.
      * now rewrite <- app_assoc.
      * rewrite map_app, <- app_assoc. exact Hnd.
      * exact Hproto'.
    + apply IH; [now apply NoDup_remove_1 in Hnd | exact Hproto'].
Qed.

(** X13: on an object whose property names are distinct and none of
    them [__proto__], [cleanSchema] works property by property and keeps
    the order: each entry is dropped or stored with its cleaned value,
    whatever the other entries are.  Array items are filtered but never
    cleaned inside. *)
Theorem cleanSchema_entrywise (props : list (string * value)) :
  NoDup (keys props) -> ~ In "__proto__" (keys props) ->
  cleanSchema (JObject props) = cleanedEntries props.
Proof.
  intros Hnd Hproto. cbn [cleanSchema].
  now rewrite (fold_cleanEntry_entrywise props [] Hnd Hproto).
Qed.

Lemma cleanSchema_entrywise_witness :
  NoDup (keys messyObject) /\ ~ In "__proto__" (keys messyObject) /\
  cleanSchema (JObject messyObject)
  = [("@type", JString "Thing");
     ("tags", JArray [JString "a"; JObject [("x", JString "")]]);
     ("count", JNumber 0)].
Proof.
  assert (Hnd : NoDup (keys messyObject)).
  { unfold messyObject, keys. simpl.
    repeat (constructor; [simpl; intuition discriminate|]). constructor. }
  assert (Hp : ~ In "__proto__" (keys messyObject))
    by (simpl; intuition discriminate).
  split; [exact Hnd|]. split; [exact Hp|].
  rewrite (cleanSchema_entrywise messyObject Hnd Hp). reflexivity.
Defined.
End CleanSchemaMore.

(** ** The entry point of the templates *)

Section GenerateSchemaFacts.
Import Js Json SchemaTemplates TemplateSpec TemplateSpecMore SchemaGeneration.

Lemma getTemplate_known st t :
  getTemplate st = Some t -> In st (keys templates).
Proof.
  intro Hget. apply (get_Some_In String.eqb String_eqb_spec) in Hget.
  apply (in_map fst) in Hget. exact Hget.
Qed.

(** Outside the nine types the answer is the failure answer. *)
Lemma generateSchema_fails st pd x :
  ~ In st fillableTypes ->
  exists message,
    generateSchema st pd x =
    {| success := false; error := Some message; schema := getBasicTemplate st;
       implementationGuide := getImplementationGuide st;
       g_requiredData := None; g_optionalData := None |}.
Proof.
  intro Hnot. unfold generateSchema.
  destruct (getTemplate st) as [t|] eqn:Et; [|eexists; reflexivity].
  pose proof (getTemplate_known st t Et) as Hin.
  cbn in Hin.
  repeat (destruct Hin as [<- | Hin];
          [first [ exfalso; apply Hnot; cbn; tauto
                 | cbv in Et; inversion Et; subst t; eexists; reflexivity ] | ]).
  destruct Hin.
Qed.

(** X14: for a type name outside the nine that have a template and an
    extractor that returns (the six types whose extractor calls a helper
    the class does not define, and every name without a template),
    [generateSchema] gives the failure answer whatever the page is: the
    basic template of the name, an error and no field lists. *)
Theorem generateSchema_fallback st pd x :
  ~ In st StructuredDataRecommender.inheritedNames ->
  ~ In st fillableTypes ->
  success (generateSchema st pd x) = false /\
  error (generateSchema st pd x) <> None /\
  schema (generateSchema st pd x) = getBasicTemplate st /\
  g_requiredData (generateSchema st pd x) = None /\
  g_optionalData (generateSchema st pd x) = None.
Proof.
  intros _ Hnot. destruct (generateSchema_fails st pd x Hnot) as [message ->].
  cbn. repeat split. discriminate.
Qed.

Lemma generateSchema_fallback_witness :
  ~ In "Recipe" StructuredDataRecommender.inheritedNames /\
  ~ In "Recipe" fillableTypes /\
  schema (generateSchema "Recipe" shopPageWithHeadings bareExtracts)
  = getBasicTemplate "Recipe".
Proof.
  assert (H1 : ~ In "Recipe" StructuredDataRecommender.inheritedNames)
    by (cbn; intuition discriminate).
  assert (H2 : ~ In "Recipe" fillableTypes) by (cbn; intuition discriminate).
  split; [exact H1|]. split; [exact H2|].
  exact (proj1 (proj2 (proj2
    (generateSchema_fallback "Recipe" shopPageWithHeadings bareExtracts H1 H2)))).
Defined.

(** X15: when [generateSchema] succeeds, the type is one of the nine,
    the schema is the cleaned object (distinct names, pruned at every
    depth) and the field lists are those of the tables. *)
Theorem generateSchema_success st pd x :
  ~ In st StructuredDataRecommender.inheritedNames ->
  success (generateSchema st pd x) = true ->
  In st fillableTypes /\
  NoDup (keys (schema (generateSchema st pd x))) /\
  Forall prunedEntry (schema (generateSchema st pd x)) /\
  g_requiredData (generateSchema st pd x) = Some (getRequiredData st) /\
  g_optionalData (generateSchema st pd x) = Some (getOptionalData st).
Proof.
  intros _ Hok. split.
  - destruct (in_dec string_dec st fillableTypes) as [Hin | Hnot]; [exact Hin|].
    destruct (generateSchema_fails st pd x Hnot) as [message Hfail].
    rewrite Hfail in Hok. discriminate.
  - revert Hok. unfold generateSchema.
    destruct (getTemplate st) as [t|]; [|discriminate].
    cbn [bind]. unfold fillTemplate.
    destruct (extractDataFromPage pd x (templateType t)) as [data|]; [|discriminate].
    cbn [bind].
    match goal with |- context [JSON_parse ?text] =>
      destruct (JSON_parse text) as [filled|] end; [|discriminate].
    cbn. intros _.
    destruct (cleanSchema_wellPruned filled) as [Hnd Hall].
    repeat split; assumption.
Qed.

Lemma generateSchema_success_witness :
  ~ In "Product" StructuredDataRecommender.inheritedNames /\
  success (generateSchema "Product" shopPage bareExtracts) = true /\
  g_requiredData (generateSchema "Product" shopPage bareExtracts)
  = Some ["name"; "offers"; "image"].
Proof.
  assert (H1 : ~ In "Product" StructuredDataRecommender.inheritedNames)
    by (cbn; intuition discriminate).
  assert (H2 : success (generateSchema "Product" shopPage bareExtracts) = true)
    by (vm_compute; reflexivity).
  split; [exact H1|]. split; [exact H2|].
  exact (proj1 (proj2 (proj2 (proj2
    (generateSchema_success "Product" shopPage bareExtracts H1 H2))))).
Defined.

(** X16: the three article types read the headings of the page data
    when the document has no keywords meta tag; on page data without
    headings the generation fails and the basic template is answered. *)
Theorem article_schema_needs_headings st pd x :
  In st ["Article"; "NewsArticle"; "BlogPosting"] ->
  keywordsMeta x = "" -> headings pd = None ->
  success (generateSchema st pd x) = false /\
  schema (generateSchema st pd x) = getBasicTemplate st.
Proof.
  intros Hin Hmeta Hhead.
  assert (Hthrown : forall t, getTemplate st = Some t ->
            fillTemplate t pd x
            = Thrown "TypeError: Cannot read properties of undefined (reading 'slice')").
  { intros t Et. cbn in Hin.
    destruct Hin as [<- | [<- | [<- | []]]]; cbv in Et; inversion Et; subst t;
      unfold fillTemplate, extractDataFromPage, extractArticleData, extractKeywords;
      cbn [templateType get String.eqb Ascii.eqb Bool.eqb isOneOf existsb orb];
      rewrite Hmeta, Hhead; reflexivity. }
  unfold generateSchema.
  destruct (getTemplate st) as [t|] eqn:Et.
  - cbn [bind]. rewrite (Hthrown t eq_refl). cbn. split; reflexivity.
  - cbn. split; reflexivity.
Qed.

Lemma article_schema_needs_headings_witness :
  In "BlogPosting" ["Article"; "NewsArticle"; "BlogPosting"] /\
  keywordsMeta bareExtracts = "" /\ headings shopPage = None /\
  success (generateSchema "BlogPosting" shopPage bareExtracts) = false.
Proof.
  assert (H1 : In "BlogPosting" ["Article"; "NewsArticle"; "BlogPosting"])
    by (cbn; tauto).
  split; [exact H1|]. split; [reflexivity|]. split; [reflexivity|].
  exact (proj1 (article_schema_needs_headings "BlogPosting" shopPage bareExtracts
                  H1 eq_refl eq_refl)).
Defined.

(** X17: the detailed analysis asks for the schema of the page type the
    classifier reports.  Only three of the ten page types can get one:
    for the seven others, the FAQ type among them since its template is
    filed under another name, the answer is the basic template. *)
Theorem primary_type_schema_fallback (pt : PageTypeAnalyzer.PageType) pd x :
  ~ In pt [PageTypeAnalyzer.Article; PageTypeAnalyzer.Product;
           PageTypeAnalyzer.LocalBusiness] ->
  success (generateSchema (StructuredDataRecommender.typeName pt) pd x) = false /\
  schema (generateSchema (StructuredDataRecommender.typeName pt) pd x)
  = getBasicTemplate (StructuredDataRecommender.typeName pt).
Proof.
  intro Hnot.
  destruct pt; try (exfalso; apply Hnot; cbn; tauto); split; reflexivity.
Qed.

Lemma primary_type_schema_fallback_witness :
  ~ In PageTypeAnalyzer.FAQ
       [PageTypeAnalyzer.Article; PageTypeAnalyzer.Product;
        PageTypeAnalyzer.LocalBusiness] /\
  schema (generateSchema "FAQ" shopPageWithHeadings bareExtracts)
  = getBasicTemplate "FAQ".
Proof.
  assert (H1 : ~ In PageTypeAnalyzer.FAQ
                    [PageTypeAnalyzer.Article; PageTypeAnalyzer.Product;
                     PageTypeAnalyzer.LocalBusiness])
    by (cbn; intuition discriminate).
  split; [exact H1|].
  exact (proj2 (primary_type_schema_fallback PageTypeAnalyzer.FAQ
                  shopPageWithHeadings bareExtracts H1)).
Defined.


(** X18: the fields [getRequiredData] lists for a type are properties
    of the template of that type, and none of them is listed by
    [getOptionalData] for the same type. *)
Theorem required_fields_in_template st field :
  In field (getRequiredData st) ->
  exists t, getTemplate st = Some t /\
            In field (templateKeys t) /\
            ~ In field (getOptionalData st).
Proof.
  unfold getRequiredData. intro Hin.
  destruct (get String.eqb requiredData st) as [fields|] eqn:Eg; [|destruct Hin].
  apply (get_Some_In String.eqb String_eqb_spec) in Eg. cbn in Eg.
  repeat (destruct Eg as [Eg | Eg];
          [inversion Eg; subst st fields; eexists; split; [reflexivity|];
           cbn in Hin;
           repeat (destruct Hin as [<- | Hin];
                   [split; [cbn; tauto | cbn; intuition discriminate]|]);
           destruct Hin | ]).
  destruct Eg.
Qed.

Lemma required_fields_in_template_witness :
  In "offers" (getRequiredData "Product") /\
  exists t, getTemplate "Product" = Some t /\
            In "offers" (templateKeys t) /\
            ~ In "offers" (getOptionalData "Product").
Proof.
  assert (H1 : In "offers" (getRequiredData "Product")) by (cbn; tauto).
  split; [exact H1|]. exact (required_fields_in_template "Product" "offers" H1).
Defined.


End GenerateSchemaFacts.

(** ** Full-width lengths *)

Section FullWidthFacts.
Import Js SEOChecker CheckerSpec.
Local Open Scope Q_scope.

Lemma num_succ (n : nat) :
  inject_Z (Z.of_nat (S n)) == inject_Z (Z.of_nat n) + 1.
Proof. rewrite Nat2Z.inj_succ, <- Z.add_1_r, inject_Z_plus. reflexivity. Qed.

Lemma num_add (n m : nat) :
  inject_Z (Z.of_nat (n + m)) == inject_Z (Z.of_nat n) + inject_Z (Z.of_nat m).
Proof. rewrite Nat2Z.inj_add, inject_Z_plus. reflexivity. Qed.

Lemma num_le (n m : nat) : (n <= m)%nat -> inject_Z (Z.of_nat n) <= inject_Z (Z.of_nat m).
Proof. intro H. rewrite <- Zle_Qle. lia. Qed.

Lemma num_lt (n m : nat) : (n < m)%nat -> inject_Z (Z.of_nat n) < inject_Z (Z.of_nat m).
Proof. intro H. rewrite <- Zlt_Qlt. lia. Qed.

(** The loop adds a half for every code unit and another half for every
    full-width one. *)
Lemma fullWidthLength_from (test : N -> bool) (text : list N) (acc : Q) :
  fold_left (fun length code => if test code then length + 1 else length + (1 # 2))
            text acc
  == acc + (inject_Z (Z.of_nat (length text))
            + inject_Z (Z.of_nat (length (filter test text)))) * (1 # 2).
Proof.
  revert acc. induction text as [|code rest IH]; intro acc; cbn [fold_left].
  - cbn [length filter]. change (inject_Z (Z.of_nat 0)) with 0. lra.
  - rewrite IH. cbn [filter]. destruct (test code); cbn [length];
      rewrite ?num_succ; lra.
Qed.

Lemma calculateFullWidthLength_closed (text : list N) :
  calculateFullWidthLength text
  == (inject_Z (Z.of_nat (length text)) + inject_Z (Z.of_nat (fullWidthCount text)))
     * (1 # 2).
Proof.
  unfold calculateFullWidthLength, fullWidthCount.
  rewrite (fullWidthLength_from isFullWidth). lra.
Qed.

Lemma filter_length_le {A} (f : A -> bool) (l : list A) :
  (length (filter f l) <= length l)%nat.
Proof.
  induction l as [|a l IH]; cbn; [lia|]. destruct (f a); cbn; lia.
Qed.

Lemma filter_length_all {A} (f : A -> bool) (l : list A) :
  length (filter f l) = length l <-> forallb f l = true.
Proof.
  induction l as [|a l IH]; cbn; [tauto|].
  pose proof (filter_length_le f l) as Hle.
  destruct (f a); cbn.
  - rewrite <- IH. lia.
  - split; [lia | discriminate].
Qed.

(** X20: the full-width length of a text lies between half its number
    of code units and that number, and reaches the number exactly when
    every code unit passes the full-width test. *)
Theorem fullWidthLength_bounds (text : list N) :
  inject_Z (Z.of_nat (length text)) * (1 # 2) <= calculateFullWidthLength text /\
  calculateFullWidthLength text <= inject_Z (Z.of_nat (length text)) /\
  (calculateFullWidthLength text == inject_Z (Z.of_nat (length text))
   <-> forallb isFullWidth text = true).
Proof.
  rewrite calculateFullWidthLength_closed. unfold fullWidthCount.
  pose proof (filter_length_le isFullWidth text) as Hle.
  pose proof (num_le _ _ Hle) as HleQ.
  pose proof (num_le 0 _ (Nat.le_0_l (length (filter isFullWidth text)))) as Hpos.
  change (inject_Z (Z.of_nat 0)) with 0 in Hpos.
  split; [lra|]. split; [lra|].
  rewrite <- filter_length_all. split.
  - intro Heq.
    assert (Hq : inject_Z (Z.of_nat (length (filter isFullWidth text)))
                 == inject_Z (Z.of_nat (length text))) by lra.
    rewrite inject_Z_injective in Hq. now apply Nat2Z.inj in Hq.
  - intro Heq. rewrite Heq. lra.
Qed.

Lemma between_spec (lo hi code : N) :
  between lo hi code = true <-> (lo <= code <= hi)%N.
Proof.
  unfold between. rewrite andb_true_iff, !N.leb_le. tauto.
Qed.

Lemma between_outside (lo hi code : N) :
  (code < lo \/ hi < code)%N -> between lo hi code = false.
Proof.
  intro H. destruct (between lo hi code) eqn:E; [|reflexivity].
  apply between_spec in E. lia.
Qed.

Lemma surrogate_half (code : N) :
  (0xD800 <= code <= 0xDFFF)%N -> isFullWidth code = false.
Proof.
  intro H. unfold isFullWidth.
  rewrite (between_outside 0x3040 0x309F) by lia.
  rewrite (between_outside 0x30A0 0x30FF) by lia.
  rewrite (between_outside 0x4E00 0x9FAF) by lia.
  rewrite (between_outside 0xFF00 0xFFEF) by lia.
  rewrite (between_outside 0x3400 0x4DBF) by lia.
  rewrite (between_outside 0x20000 0x2A6DF) by lia.
  rewrite (between_outside 0x2A700 0x2B73F) by lia.
  rewrite (between_outside 0x2B740 0x2B81F) by lia.
  rewrite (between_outside 0x2B820 0x2CEAF) by lia.
  rewrite (between_outside 0xF900 0xFAFF) by lia.
  rewrite (between_outside 0x2F800 0x2FA1F) by lia.
  rewrite (proj2 (N.eqb_neq code 0x3000)) by lia. reflexivity.
Qed.

Lemma calculateFullWidthLength_app (a b : list N) :
  calculateFullWidthLength (a ++ b)
  == calculateFullWidthLength a + calculateFullWidthLength b.
Proof.
  rewrite !calculateFullWidthLength_closed. unfold fullWidthCount.
  rewrite filter_app, !length_app, !num_add. lra.
Qed.

(** X21: the test reads one UTF-16 code unit at a time, so a character
    outside the basic plane is seen as its two surrogates, never as its
    code point: it counts 1 wherever it stands, whether or not it lies
    in one of the ranges from U+20000 on that the test lists. *)
Theorem surrogate_pair_counts_one (before after : list N) (hi lo : N) :
  highSurrogate hi -> lowSurrogate lo ->
  calculateFullWidthLength (before ++ [hi; lo] ++ after)
  == calculateFullWidthLength before + 1 + calculateFullWidthLength after.
Proof.
  unfold highSurrogate, lowSurrogate. intros Hhi Hlo.
  rewrite !calculateFullWidthLength_app.
  assert (Hpair : calculateFullWidthLength [hi; lo] == 1).
  { unfold calculateFullWidthLength. cbn [fold_left].
    rewrite (surrogate_half hi) by lia. rewrite (surrogate_half lo) by lia. lra. }
  rewrite Hpair. lra.
Qed.

Lemma surrogate_pair_counts_one_witness :
  highSurrogate 0xD842%N /\ lowSurrogate 0xDFB7%N /\
  calculateFullWidthLength ([0x3042%N] ++ [0xD842%N; 0xDFB7%N] ++ [0x41%N])%list
  == calculateFullWidthLength [0x3042]%N + 1 + calculateFullWidthLength [0x41]%N.
Proof.
  assert (H1 : highSurrogate 0xD842%N) by (unfold highSurrogate; lia).
  assert (H2 : lowSurrogate 0xDFB7%N) by (unfold lowSurrogate; lia).
  split; [exact H1|]. split; [exact H2|].
  exact (surrogate_pair_counts_one [0x3042%N] [0x41%N] _ _ H1 H2).
Defined.

Lemma isFullWidth_codeUnit (code : N) :
  codeUnit code ->
  isFullWidth code = OptimizedSEOChecker.isFullWidth code || extensionOnly code.
Proof.
  unfold codeUnit. intro H.
  unfold isFullWidth, OptimizedSEOChecker.isFullWidth, extensionOnly.
  rewrite (between_outside 0x20000 0x2A6DF) by lia.
  rewrite (between_outside 0x2A700 0x2B73F) by lia.
  rewrite (between_outside 0x2B740 0x2B81F) by lia.
  rewrite (between_outside 0x2B820 0x2CEAF) by lia.
  rewrite (between_outside 0x2F800 0x2FA1F) by lia.
  rewrite !orb_false_r, <- !orb_assoc. reflexivity.
Qed.

Lemma extension_disjoint (code : N) :
  extensionOnly code = true -> OptimizedSEOChecker.isFullWidth code = false.
Proof.
  unfold extensionOnly. rewrite orb_true_iff, !between_spec. intro H.
  unfold OptimizedSEOChecker.isFullWidth.
  rewrite (between_outside 0x3040 0x309F) by lia.
  rewrite (between_outside 0x30A0 0x30FF) by lia.
  rewrite (between_outside 0x4E00 0x9FAF) by lia.
  rewrite (between_outside 0xFF00 0xFFEF) by lia.
  rewrite (proj2 (N.eqb_neq code 0x3000)) by lia. reflexivity.
Qed.

Lemma fullWidth_split (text : list N) :
  Forall codeUnit text ->
  length (filter isFullWidth text)
  = (length (filter OptimizedSEOChecker.isFullWidth text)
     + length (filter extensionOnly text))%nat.
Proof.
  induction 1 as [|code rest Hcode Hrest IH]; [reflexivity|].
  cbn [filter]. rewrite (isFullWidth_codeUnit code Hcode).
  destruct (extensionOnly code) eqn:Ee.
  - rewrite (extension_disjoint code Ee). cbn. lia.
  - rewrite orb_false_r.
    destruct (OptimizedSEOChecker.isFullWidth code); cbn; lia.
Qed.

(** X22: the two checkers of the repository measure a text
    differently: the lighter one leaves out the ranges U+3400 to U+4DBF
    and U+F900 to U+FAFF, and its length is lower by a half for every
    code unit in them; on every other text of code units they agree. *)
Theorem checkers_differ_on_extension_ranges (text : list N) :
  Forall codeUnit text ->
  calculateFullWidthLength text
  == OptimizedSEOChecker.calculateFullWidthLength text
     + inject_Z (Z.of_nat (length (filter extensionOnly text))) * (1 # 2).
Proof.
  intro Hunits.
  rewrite calculateFullWidthLength_closed. unfold fullWidthCount.
  unfold OptimizedSEOChecker.calculateFullWidthLength.
  rewrite (fullWidthLength_from OptimizedSEOChecker.isFullWidth).
  rewrite (fullWidth_split text Hunits), num_add. lra.
Qed.

Lemma checkers_differ_on_extension_ranges_witness :
  Forall codeUnit [0x3400; 0x41; 0x6F22]%N /\
  calculateFullWidthLength [0x3400; 0x41; 0x6F22]%N
  == OptimizedSEOChecker.calculateFullWidthLength [0x3400; 0x41; 0x6F22]%N + (1 # 2).
Proof.
  assert (H : Forall codeUnit [0x3400; 0x41; 0x6F22]%N)
    by (repeat constructor; unfold codeUnit; lia).
  split; [exact H|].
  exact (checkers_differ_on_extension_ranges _ H).
Defined.

Lemma lessThan_spec (a b : Q) : lessThan a b = true <-> a < b.
Proof.
  unfold lessThan. destruct (Qle_bool b a) eqn:E; cbn.
  - apply Qle_bool_iff in E. split; [discriminate | intro; lra].
  - split; [|reflexivity]. intros _.
    destruct (Qlt_le_dec a b) as [Hlt | Hle]; [exact Hlt|].
    apply Qle_bool_iff in Hle. congruence.
Qed.

Lemma title_score_cases (title : list N) :
  calculateTitleScore title (calculateFullWidthLength title) =
  match title with
  | [] => 0%Z
  | _ =>
      if ((30 <=? length title + fullWidthCount title)
          && (length title + fullWidthCount title <=? 60))%nat
      then 100%Z else 50%Z
  end.
Proof.
  pose proof (calculateFullWidthLength_closed title) as Hc.
  rewrite <- num_add in Hc.
  destruct title as [|c rest]; [reflexivity|].
  set (w := (length (c :: rest) + fullWidthCount (c :: rest))%nat) in *.
  unfold calculateTitleScore. cbn [titleMinLength titleMaxLength loadConfig].
  set (L := calculateFullWidthLength (c :: rest)) in *.
  assert (H30 : inject_Z (Z.of_nat 30) == 30) by reflexivity.
  assert (H60 : inject_Z (Z.of_nat 60) == 60) by reflexivity.
  destruct (lessThan L 15) eqn:E1; cbn [orb].
  - apply lessThan_spec in E1.
    destruct (Nat.leb_spec 30 w) as [Hw | Hw]; [|reflexivity].
    apply num_le in Hw. lra.
  - assert (H1 : ~ L < 15) by (rewrite <- lessThan_spec; congruence).
    destruct (Nat.leb_spec 30 w) as [Hw | Hw];
      [|apply num_lt in Hw; lra].
    cbn [andb].
    destruct (lessThan 30 L) eqn:E2.
    + apply lessThan_spec in E2.
      destruct (Nat.leb_spec w 60) as [Hw' | Hw']; [|reflexivity].
      apply num_le in Hw'. lra.
    + assert (H2 : ~ 30 < L) by (rewrite <- lessThan_spec; congruence).
      destruct (Nat.leb_spec w 60) as [Hw' | Hw']; [reflexivity|].
      apply num_lt in Hw'. lra.
Qed.

(** X23: [calculateTitleScore] on a text and the full-width length
    [calculateFullWidthLength] gives of the same text.  Counting a
    half-width code unit as one and a full-width one as two, the score
    is 100 exactly for 30 to 60, so for 15 to 30 full-width characters
    or 30 to 60 half-width ones; the empty text scores 0 and every other
    text 50. *)
Theorem title_score_by_width (title : list N) :
  let score := calculateTitleScore title (calculateFullWidthLength title) in
  let width := (length title + fullWidthCount title)%nat in
  (score = 100%Z <-> (30 <= width <= 60)%nat) /\
  (score = 0%Z <-> title = []) /\
  (score = 50%Z <-> title <> [] /\ ~ (30 <= width <= 60)%nat).
Proof.
  cbv zeta. rewrite title_score_cases.
  destruct title as [|c rest].
  - cbn. split; [split; [discriminate | lia]|].
    split; [tauto|]. split; [discriminate | intros [H _]; congruence].
  - set (w := (length (c :: rest) + fullWidthCount (c :: rest))%nat).
    destruct (Nat.leb_spec 30 w) as [H1 | H1];
      [destruct (Nat.leb_spec w 60) as [H2 | H2]|]; cbn [andb].
    + split; [split; [lia | reflexivity]|].
      split; [split; discriminate|].
      split; [discriminate | intros [_ H]; exfalso; apply H; lia].
    + split; [split; [discriminate | lia]|].
      split; [split; discriminate|].
      split; [intros _; split; [discriminate | lia] | reflexivity].
    + split; [split; [discriminate | lia]|].
      split; [split; discriminate|].
      split; [intros _; split; [discriminate | lia] | reflexivity].
Qed.

(** The signs of the block U+3001 to U+303F, the ideographic comma and
    full stop and the corner brackets among them, are in none of the
    ranges: each counts a half. *)
Lemma cjk_punctuation_half (code : N) :
  (0x3001 <= code <= 0x303F)%N -> isFullWidth code = false.
Proof.
  intro H. unfold isFullWidth.
  rewrite (between_outside 0x3040 0x309F) by lia.
  rewrite (between_outside 0x30A0 0x30FF) by lia.
  rewrite (between_outside 0x4E00 0x9FAF) by lia.
  rewrite (between_outside 0xFF00 0xFFEF) by lia.
  rewrite (between_outside 0x3400 0x4DBF) by lia.
  rewrite (between_outside 0x20000 0x2A6DF) by lia.
  rewrite (between_outside 0x2A700 0x2B73F) by lia.
  rewrite (between_outside 0x2B740 0x2B81F) by lia.
  rewrite (between_outside 0x2B820 0x2CEAF) by lia.
  rewrite (between_outside 0xF900 0xFAFF) by lia.
  rewrite (between_outside 0x2F800 0x2FA1F) by lia.
  rewrite (proj2 (N.eqb_neq code 0x3000)) by lia. reflexivity.
Qed.

(** The mixed text of the repository's test script ("HTML5", "CSS3" and
    "Web" between kana and kanji): twelve half-width code units and seven
    full-width ones measure 13, where the script expects 19.5. *)
Example mixed_text_length :
  calculateFullWidthLength
    [0x0048; 0x0054; 0x004D; 0x004C; 0x0035; 0x3068; 0x0043; 0x0053; 0x0053;
     0x0033; 0x3067; 0x0057; 0x0065; 0x0062; 0x30B5; 0x30A4; 0x30C8; 0x4F5C;
     0x6210]%N
  == 13.
Proof. reflexivity. Qed.
End FullWidthFacts.

(** ** Component scores *)

Section ScoreFacts.
Import Js Json SEOChecker CheckerSpec.
Local Open Scope Z_scope.

Lemma addIf_cases (c : bool) (points score : Z) :
  addIf c points score = score + (if c then points else 0).
Proof. destruct c; cbn; lia. Qed.

(** X24: the structured-data score is capped at 100, and the three
    kinds of markup alone reach the cap: the score is 100 exactly when
    JSON-LD, microdata and RDFa are all present, whether or not the
    details report issues; with one kind absent it is at most 90. *)
Theorem structured_data_score_full {A B C : Type}
    (jsonLd : list A) (microdata : list B) (rdfa : list C) (details : Findings) :
  (calculateStructuredDataScore jsonLd microdata rdfa details = 100
   <-> jsonLd <> [] /\ microdata <> [] /\ rdfa <> []) /\
  (calculateStructuredDataScore jsonLd microdata rdfa details <> 100 ->
   calculateStructuredDataScore jsonLd microdata rdfa details <= 90).
Proof.
  unfold calculateStructuredDataScore. rewrite !addIf_cases.
  destruct jsonLd, microdata, rdfa, (issues details); cbn;
    (split; [split; [intro H; try discriminate H; repeat split; discriminate
                    | intros [H1 [H2 H3]]; try reflexivity; congruence]
            | intro H; try lia; congruence]).
Qed.

(** X25: every component score lies between 0 and 100, whatever the
    counts and the findings are; the caps of the heading and link scores
    are never reached from above, since their points add up to 100. *)
Theorem component_scores_in_range
    (text : list N) (length : Q) (h1Count h2Count h3Count : nat)
    (totalLinks internalLinks externalLinks : nat)
    (hierarchy content urlIssues mobileIssues noindexIssues securityIssues : Findings) :
  0 <= calculateTitleScore text length <= 100 /\
  0 <= calculateDescriptionScore text length <= 100 /\
  0 <= calculateHeadingScore h1Count h2Count h3Count hierarchy content <= 100 /\
  0 <= calculateLinkScore totalLinks internalLinks externalLinks <= 100 /\
  0 <= calculateOtherSEOScore urlIssues mobileIssues noindexIssues securityIssues <= 100.
Proof.
  repeat apply conj.
  all: unfold calculateTitleScore, calculateDescriptionScore, calculateHeadingScore,
         calculateLinkScore, calculateOtherSEOScore;
       rewrite ?addIf_cases;
       repeat match goal with
              | |- context [if ?c then _ else _] => destruct c
              | |- context [match ?t with [] => _ | _ :: _ => _ end] => destruct t
              end; lia.
Qed.
End ScoreFacts.

(** ** The JSON-LD checks *)

Section JsonLdFacts.
Import Js Json SEOChecker CheckerSpec.
Local Open Scope nat_scope.

Lemma paired_le k k' f : paired k f -> k <= k' -> paired k' f.
Proof. unfold paired. intros [H1 H2] Hle. split; [exact H1 | lia]. Qed.

Lemma push_paired k issue recommendation f :
  paired k f -> paired (S k) (pushRecommendation recommendation (pushIssue issue f)).
Proof.
  unfold paired. intros [H1 H2]. cbn. rewrite !length_app. cbn. lia.
Qed.

Lemma requireProp_paired k schema name issue recommendation f :
  paired k f -> paired (S k) (requireProp schema name issue recommendation f).
Proof.
  intro H. unfold requireProp. destruct (negb (present (prop schema name))).
  - now apply push_paired.
  - apply (paired_le k); [exact H | lia].
Qed.

Lemma noFindings_paired : paired 0 noFindings.
Proof. split; cbn; lia. Qed.

Lemma validateSchema_paired schema index f :
  validateSchema schema index = Returned f -> paired 3 f.
Proof.
  unfold validateSchema. destruct (member schema "@type") as [type|]; [|discriminate].
  cbn [bind]. destruct (negb (present type)).
  - intro H. inversion H; subst. apply (paired_le 1); [|lia].
    apply push_paired, noFindings_paired.
  - set (schemaType := match type with
                       | Some (JArray items) => nth_error items 0
                       | other => other
                       end).
    intro H. inversion H; subst f; clear H.
    destruct schemaType as [[ | b | n | s | items | props]|];
      try (cbn; apply (paired_le 0); [apply noFindings_paired | lia]).
    unfold isString.
    destruct (String.eqb_spec s "Organization") as [-> | H1].
    { cbn. apply (paired_le 2); [|lia].
      repeat apply requireProp_paired. apply noFindings_paired. }
    destruct (String.eqb_spec s "WebSite") as [-> | H2].
    { cbn. repeat apply requireProp_paired. apply noFindings_paired. }
    destruct (String.eqb_spec s "Product") as [-> | H3].
    { cbn. repeat apply requireProp_paired. apply noFindings_paired. }
    destruct (String.eqb_spec s "BreadcrumbList") as [-> | H4].
    { destruct (negb (present (prop schema "itemListElement"))
                || negb (isArray (prop schema "itemListElement"))).
      - apply (paired_le 1); [|lia]. apply push_paired, noFindings_paired.
      - apply (paired_le 0); [apply noFindings_paired | lia]. }
    apply (paired_le 0); [apply noFindings_paired | lia].
Qed.

Lemma pushAll_paired k k' other f :
  paired k f -> paired k' other -> paired (k + k') (pushAll other f).
Proof.
  unfold paired. intros [H1 H2] [H3 H4]. cbn. rewrite !length_app. lia.
Qed.

Lemma validateAll_paired jsonLdArray index k f g :
  paired k f -> validateAll jsonLdArray index f = Returned g ->
  paired (k + 3 * length jsonLdArray) g.
Proof.
  revert index k f. induction jsonLdArray as [|schema rest IH]; intros index k f Hf Hg.
  - cbn in Hg. inversion Hg; subst. apply (paired_le k); [exact Hf | lia].
  - cbn [validateAll] in Hg.
    destruct (validateSchema schema index) as [schemaIssues|] eqn:Ev; [|discriminate].
    cbn [bind] in Hg.
    apply (IH _ (k + 3) _) in Hg.
    + apply (paired_le _ _ _ Hg). cbn [length]. lia.
    + apply pushAll_paired; [exact Hf|]. now apply (validateSchema_paired schema index).
Qed.

Lemma reportMissing_paired k foundSchemas f schema :
  paired k f -> paired (S k) (reportMissing foundSchemas f schema).
Proof.
  intro H. unfold reportMissing. destruct (negb (hasSchema foundSchemas schema)).
  - now apply push_paired.
  - apply (paired_le k); [exact H | lia].
Qed.

(** X26: the two lists [checkJsonLdDetails] answers with run in step:
    whenever it returns, there are as many recommendations as issues,
    and at most four for the required types plus three for each block. *)
Theorem checkJsonLdDetails_paired (jsonLdArray : list value) (f : Findings) :
  checkJsonLdDetails jsonLdArray = Returned f ->
  length (issues f) = length (recommendations f) /\
  length (issues f) <= 4 + 3 * length jsonLdArray.
Proof.
  unfold checkJsonLdDetails. destruct jsonLdArray as [|schema rest] eqn:El.
  - intro H. inversion H; subst. cbn. lia.
  - rewrite <- El. clear El.
    destruct (collectFound [] jsonLdArray) as [foundSchemas|]; [|discriminate].
    cbn [bind]. intro H.
    eapply (validateAll_paired jsonLdArray 0 4); [|exact H].
    cbn [fold_left requiredSchemas].
    repeat apply reportMissing_paired. apply noFindings_paired.
Qed.

Lemma checkJsonLdDetails_paired_witness :
  exists f,
    checkJsonLdDetails [namedOrganization; siteAndCrumbs] = Returned f /\
    length (issues f) = length (recommendations f) /\
    length (issues f) <= 4 + 3 * 2.
Proof.
  eexists. split; [reflexivity|].
  exact (checkJsonLdDetails_paired [namedOrganization; siteAndCrumbs] _ eq_refl).
Defined.

Lemma addFound_cases foundSchemas schema :
  (schema = JNull /\ exists message, addFound foundSchemas schema = Thrown message) \/
  (schema <> JNull /\ exists found, addFound foundSchemas schema = Returned found).
Proof.
  unfold addFound. destruct schema; cbn;
    try (right; split; [discriminate|];
         match goal with
         | |- context [if ?c then _ else _] => destruct c
         | _ => idtac
         end;
         repeat match goal with
                | |- context [match ?t with | Some _ => _ | None => _ end] => destruct t
                | |- context [match ?v with | JArray _ => _ | _ => _ end] => destruct v
                end; eexists; reflexivity).
  left. split; [reflexivity | eexists; reflexivity].
Qed.

Lemma collectFound_cases jsonLdArray foundSchemas :
  (In JNull jsonLdArray /\ exists message, collectFound foundSchemas jsonLdArray = Thrown message) \/
  (~ In JNull jsonLdArray /\ exists found, collectFound foundSchemas jsonLdArray = Returned found).
Proof.
  revert foundSchemas. induction jsonLdArray as [|schema rest IH]; intro foundSchemas.
  - right. split; [tauto | eexists; reflexivity].
  - cbn [collectFound].
    destruct (addFound_cases foundSchemas schema) as [[-> [m Hm]] | [Hne [found Hf]]].
    + left. split; [now left|]. rewrite Hm. eexists. reflexivity.
    + rewrite Hf. cbn [bind].
      destruct (IH found) as [[Hin Hm] | [Hnot Hr]].
      * left. split; [now right | exact Hm].
      * right. split; [|exact Hr]. intros [Heq | Hin]; [congruence | tauto].
Qed.

Lemma validateSchema_returns schema index :
  schema <> JNull -> exists f, validateSchema schema index = Returned f.
Proof.
  intro Hne. unfold validateSchema.
  destruct schema; try congruence; cbn [member bind];
    match goal with
    | |- context [if ?c then _ else _] => destruct c
    end; eexists; reflexivity.
Qed.

Lemma validateAll_returns jsonLdArray index f :
  ~ In JNull jsonLdArray -> exists g, validateAll jsonLdArray index f = Returned g.
Proof.
  revert index f. induction jsonLdArray as [|schema rest IH]; intros index f Hnot.
  - eexists. reflexivity.
  - cbn [validateAll].
    destruct (validateSchema_returns schema index) as [g Hg].
    + intro Heq. apply Hnot. now left.
    + rewrite Hg. cbn [bind]. apply IH. intro Hin. apply Hnot. now right.
Qed.

(** X27: [checkJsonLdDetails] throws exactly on an inventory with a
    block whose JSON text is [null]; on every other inventory it
    returns. *)
Theorem checkJsonLdDetails_throws_on_null (jsonLdArray : list value) :
  ((exists message, checkJsonLdDetails jsonLdArray = Thrown message)
   <-> In JNull jsonLdArray) /\
  ((exists f, checkJsonLdDetails jsonLdArray = Returned f)
   <-> ~ In JNull jsonLdArray).
Proof.
  assert (Hcases :
    (In JNull jsonLdArray /\ exists message, checkJsonLdDetails jsonLdArray = Thrown message) \/
    (~ In JNull jsonLdArray /\ exists f, checkJsonLdDetails jsonLdArray = Returned f)).
  { unfold checkJsonLdDetails. destruct jsonLdArray as [|schema rest] eqn:El.
    - right. split; [tauto | eexists; reflexivity].
    - rewrite <- El. clear El.
      destruct (collectFound_cases jsonLdArray []) as [[Hin [m Hm]] | [Hnot [found Hf]]].
      + left. split; [exact Hin|]. rewrite Hm. eexists. reflexivity.
      + right. split; [exact Hnot|]. rewrite Hf. cbn [bind].
        now apply validateAll_returns. }
  destruct Hcases as [[Hin [m Hm]] | [Hnot [f Hf]]].
  - split; split.
    + intros _. exact Hin.
    + intros _. eexists. exact Hm.
    + intros [f Hf]. rewrite Hm in Hf. discriminate.
    + intro Hnot. contradiction.
  - split; split.
    + intros [m Hm]. rewrite Hf in Hm. discriminate.
    + intro Hin. contradiction.
    + intros _. exact Hnot.
    + intros _. eexists. exact Hf.
Qed.

Lemma addFound_In foundSchemas schema found v :
  addFound foundSchemas schema = Returned found -> In v found ->
  In v foundSchemas \/
  prop schema "@type" = Some v \/
  exists items, prop schema "@type" = Some (JArray items) /\ In v items.
Proof.
  unfold addFound. destruct (member schema "@type") as [type|] eqn:Em; [|discriminate].
  assert (Hprop : prop schema "@type" = type).
  { destruct schema; cbn in Em; inversion Em; reflexivity. }
  cbn [bind]. rewrite Hprop.
  destruct (present type); [|intro H; inversion H; subst; tauto].
  destruct type as [[ | b | n | s | items | props]|];
    intro H; inversion H; subst; clear H; intro Hin;
    try (now left);
    apply in_app_or in Hin; destruct Hin as [Hin | Hin];
    try (left; exact Hin);
    try (destruct Hin as [<- | []]; right; left; reflexivity).
  right. right. exists items. split; [reflexivity | exact Hin].
Qed.

Lemma collectFound_In jsonLdArray foundSchemas found v :
  collectFound foundSchemas jsonLdArray = Returned found -> In v found ->
  In v foundSchemas \/
  exists schema, In schema jsonLdArray /\
    (prop schema "@type" = Some v \/
     exists items, prop schema "@type" = Some (JArray items) /\ In v items).
Proof.
  revert foundSchemas. induction jsonLdArray as [|schema rest IH]; intros foundSchemas Hc Hin.
  - cbn in Hc. inversion Hc; subst. now left.
  - cbn [collectFound] in Hc.
    destruct (addFound foundSchemas schema) as [found1|] eqn:Ea; [|discriminate].
    cbn [bind] in Hc.
    destruct (IH found1 Hc Hin) as [Hin1 | [schema' [Hs Hd]]].
    + destruct (addFound_In foundSchemas schema found1 v Ea Hin1) as [H0 | Hd].
      * now left.
      * right. exists schema. split; [now left | exact Hd].
    + right. exists schema'. split; [now right | exact Hd].
Qed.

Lemma hasSchema_In foundSchemas name :
  hasSchema foundSchemas name = true -> In (JString name) foundSchemas.
Proof.
  unfold hasSchema. rewrite existsb_exists. intros [v [Hin Hv]].
  destruct v; cbn in Hv; try discriminate.
  apply String.eqb_eq in Hv. now subst.
Qed.

Lemma reportMissing_issues foundSchemas f schema :
  issues (reportMissing foundSchemas f schema) = [] ->
  issues f = [] /\ hasSchema foundSchemas schema = true.
Proof.
  unfold reportMissing. destruct (hasSchema foundSchemas schema); cbn.
  - tauto.
  - intro H. apply app_eq_nil in H. destruct H as [_ H]. discriminate.
Qed.

Lemma validateSchema_clean schema index f :
  validateSchema schema index = Returned f -> issues f = [] ->
  present (prop schema "@type") = true.
Proof.
  unfold validateSchema. destruct schema; cbn [member bind prop present];
    try discriminate;
    try (intro H; inversion H; subst; cbn; discriminate).
  destruct (get String.eqb props "@type") as [type|];
    [|intro H; inversion H; subst; cbn; discriminate].
  cbn [present]. destruct (truthy type); [reflexivity|].
  cbn [negb]. intro H. inversion H; subst. cbn. discriminate.
Qed.

Lemma validateAll_clean jsonLdArray index f g :
  validateAll jsonLdArray index f = Returned g -> issues g = [] ->
  issues f = [] /\
  forall schema, In schema jsonLdArray -> present (prop schema "@type") = true.
Proof.
  revert index f. induction jsonLdArray as [|schema rest IH]; intros index f Hg Hclean.
  - cbn in Hg. inversion Hg; subst. split; [exact Hclean | intros s []].
  - cbn [validateAll] in Hg.
    destruct (validateSchema schema index) as [schemaIssues|] eqn:Ev; [|discriminate].
    cbn [bind] in Hg.
    destruct (IH _ _ Hg Hclean) as [Hf Hrest].
    cbn in Hf. apply app_eq_nil in Hf. destruct Hf as [Hf Hs].
    split; [exact Hf|]. intros s [<- | Hin].
    + exact (validateSchema_clean schema index schemaIssues Ev Hs).
    + now apply Hrest.
Qed.

(** X28: a clean answer is earned.  When [checkJsonLdDetails] returns
    no issue for an inventory that is not empty, each of the four
    required types is declared by some block, as its [@type] or as any
    member of an array-valued [@type], and every block has a type. *)
Theorem checkJsonLdDetails_clean (jsonLdArray : list value) (f : Findings) :
  jsonLdArray <> [] ->
  checkJsonLdDetails jsonLdArray = Returned f -> issues f = [] ->
  (forall name, In name requiredSchemas ->
     exists schema, In schema jsonLdArray /\ declares schema name) /\
  (forall schema, In schema jsonLdArray -> present (prop schema "@type") = true).
Proof.
  intros Hne Hf Hclean. unfold checkJsonLdDetails in Hf.
  destruct jsonLdArray as [|schema0 rest] eqn:El; [congruence|].
  rewrite <- El in *. clear El Hne.
  destruct (collectFound [] jsonLdArray) as [foundSchemas|] eqn:Ec; [|discriminate].
  cbn [bind] in Hf.
  destruct (validateAll_clean _ _ _ _ Hf Hclean) as [Hmissing Htyped].
  split; [|exact Htyped].
  cbn [fold_left requiredSchemas] in Hmissing.
  apply reportMissing_issues in Hmissing. destruct Hmissing as [Hmissing H4].
  apply reportMissing_issues in Hmissing. destruct Hmissing as [Hmissing H3].
  apply reportMissing_issues in Hmissing. destruct Hmissing as [Hmissing H2].
  apply reportMissing_issues in Hmissing. destruct Hmissing as [_ H1].
  assert (Hfound : forall name, hasSchema foundSchemas name = true ->
            exists schema, In schema jsonLdArray /\ declares schema name).
  { intros name Hhas. apply hasSchema_In in Hhas.
    destruct (collectFound_In _ _ _ _ Ec Hhas) as [[] | [schema [Hin Hd]]].
    exists schema. split; [exact Hin | exact Hd]. }
  intros name Hname. cbn in Hname.
  destruct Hname as [<- | [<- | [<- | [<- | []]]]]; now apply Hfound.
Qed.

Lemma checkJsonLdDetails_clean_witness :
  exists inventory f,
    inventory <> [] /\
    checkJsonLdDetails inventory = Returned f /\ issues f = [] /\
    exists schema, In schema inventory /\ declares schema "BreadcrumbList".
Proof.
  set (inventory :=
    [JObject [("@type", JArray [JString "Organization"; JString "WebSite";
                                JString "Product"; JString "BreadcrumbList"]);
              ("name", JString "Tanaka Books");
              ("url", JString "https://example.com/")]]).
  assert (Hne : inventory <> []) by discriminate.
  exists inventory. eexists.
  split; [exact Hne|]. split; [reflexivity|]. split; [reflexivity|].
  exact (proj1 (checkJsonLdDetails_clean inventory _ Hne eq_refl eq_refl)
               "BreadcrumbList" (or_intror (or_intror (or_intror (or_introl eq_refl))))).
Defined.
End JsonLdFacts.

(** ** The detailed analysis and the recommender *)

Section DetailedAnalyzerFacts.
Import Js Json StructuredDataRecommender RecommenderSpec DetailedAnalyzer AnalyzerSpec.

Lemma has_app (xs ys : list value) name :
  has (xs ++ ys) name = has xs name || has ys name.
Proof. unfold has. apply existsb_app. Qed.

Lemma addFound_keeps found entry name :
  has found name = true -> has (addFound found entry) name = true.
Proof.
  intro H. unfold addFound.
  destruct (isValid entry && truthy (data entry)); [|exact H].
  destruct (prop (data entry) "@type") as [[ | b | n | s | items | props]|];
    try exact H;
    try (match goal with |- context [if ?c then _ else _] => destruct c end;
         [rewrite has_app, H; reflexivity | exact H]).
  rewrite has_app, H. reflexivity.
Qed.

Lemma fold_addFound_keeps entries found name :
  has found name = true -> has (fold_left addFound entries found) name = true.
Proof.
  revert found. induction entries as [|entry rest IH]; intros found H; cbn [fold_left].
  - exact H.
  - apply IH. now apply addFound_keeps.
Qed.

Lemma filterBoolean_In (ts : list (option value)) v :
  In v (filterBoolean ts) -> In (Some v) ts /\ truthy v = true.
Proof.
  induction ts as [|[t|] rest IH]; cbn; [tauto| |].
  - destruct (truthy t) eqn:Et.
    + intros [<- | Hin]; [split; [now left | exact Et]|].
      destruct (IH Hin) as [H1 H2]. split; [now right | exact H2].
    + intro Hin. destruct (IH Hin) as [H1 H2]. split; [now right | exact H2].
  - intro Hin. destruct (IH Hin) as [H1 H2]. split; [now right | exact H2].
Qed.

Lemma has_In existing name :
  has existing name = true -> In (JString name) existing.
Proof.
  unfold has. rewrite existsb_exists. intros [v [Hin Hv]].
  destruct v; try discriminate. apply String.eqb_eq in Hv. now subst.
Qed.

Lemma has_singleton name : has [JString name] name = true.
Proof. cbn. now rewrite String.eqb_refl. Qed.

(** What the recommender reads off an entry the analysis built is added
    to the found schemas by the same entry. *)
Lemma entry_type_found i parsed found name :
  entryTypeValue (asValue (jsonLdEntry i parsed)) = Some (JString name) ->
  name <> "" ->
  has (addFound found (jsonLdEntry i parsed)) name = true.
Proof.
  destruct parsed as [parsedData | message]; [|discriminate].
  unfold entryTypeValue, addFound. cbn -[has].
  destruct parsedData as [ | b | n | s | items | props]; cbn -[has]; try discriminate.
  destruct (get String.eqb props "@type") as [[ | b | n | s | items | props']|];
    cbn -[has]; try discriminate.
  - intros H Hne. inversion H; subst.
    rewrite (proj2 (String.eqb_neq name "")) by exact Hne. cbn -[has].
    rewrite has_app, has_singleton. apply orb_true_r.
  - intros H _. destruct items as [|item rest]; [discriminate|].
    cbn in H. inversion H; subst. rewrite has_app.
    cbn. rewrite String.eqb_refl. apply orb_true_r.
Qed.

Lemma collected_types_found scripts i found name :
  In (Some (JString name)) (map entryTypeValue (map asValue (collectJsonLd i scripts))) ->
  name <> "" ->
  has (fold_left addFound (collectJsonLd i scripts) found) name = true.
Proof.
  revert i found. induction scripts as [|parsed rest IH]; intros i found Hin Hne.
  - destruct Hin.
  - cbn [collectJsonLd map fold_left] in *. destruct Hin as [Heq | Hin].
    + apply fold_addFound_keeps. now apply entry_type_found.
    + now apply IH.
Qed.

Lemma collected_notNull scripts i :
  Forall (fun entry => entry <> JNull) (map asValue (collectJsonLd i scripts)).
Proof.
  revert i. induction scripts as [|parsed rest IH]; intro i; cbn; constructor.
  - discriminate.
  - apply IH.
Qed.

(** X29: the detailed analysis hands the recommender the entries it
    built from the JSON-LD scripts.  On them the recommender's reading
    of the present types never throws, whatever the scripts hold, and
    every type it takes for present is among the found schemas the
    analysis reports. *)
Theorem recommender_types_among_found
    (scripts : list (outcome value)) (microdata rdfa : list value) :
  let jsonLd := collectJsonLd 0 scripts in
  exists existing,
    existingTypes {| StructuredDataRecommender.jsonLd := Some (map asValue jsonLd);
                     StructuredDataRecommender.microdata := microdata;
                     StructuredDataRecommender.rdfa := rdfa |}
    = Returned existing /\
    forall name, has existing name = true -> has (foundSchemas jsonLd) name = true.
Proof.
  cbv zeta. eexists. split.
  - apply existingTypes_notNull. cbn. apply collected_notNull.
  - cbn [entriesOf StructuredDataRecommender.jsonLd]. intros name Hhas.
    apply has_In in Hhas. apply filterBoolean_In in Hhas.
    destruct Hhas as [Hin Htruthy].
    apply collected_types_found; [exact Hin|].
    intros ->. discriminate.
Qed.

(** The converse fails: a later member of an array-valued type is found
    by the analysis and not taken for present by the recommender. *)
Example found_type_not_taken_for_present :
  has (foundSchemas (collectJsonLd 0 [articleAndFaq])) "FAQPage" = true /\
  exists existing,
    existingTypes {| StructuredDataRecommender.jsonLd :=
                       Some (map asValue (collectJsonLd 0 [articleAndFaq]));
                     StructuredDataRecommender.microdata := [];
                     StructuredDataRecommender.rdfa := [] |}
    = Returned existing /\
    has existing "FAQPage" = false.
Proof.
  split; [reflexivity|]. eexists. split; reflexivity.
Qed.

Lemma priorityOf_bucket issue :
  plainPriority issue ->
  pushByPriority {| critical := []; high := []; medium := []; low := [] |} issue
  = Returned {| critical := filter (inBucket "critical") [issue];
                high := filter (inBucket "high") [issue];
                medium := filter (inBucket "medium") [issue];
                low := filter (inBucket "low") [issue] |}.
Proof.
  unfold plainPriority, pushByPriority, inBucket, bucketOf. intro Hplain.
  cbn [filter existsb].
  destruct (String.eqb_spec (priorityOf issue) "critical") as [-> | H1];
    [reflexivity|].
  destruct (String.eqb_spec (priorityOf issue) "high") as [-> | H2];
    [reflexivity|].
  destruct (String.eqb_spec (priorityOf issue) "medium") as [-> | H3];
    [reflexivity|].
  destruct (String.eqb_spec (priorityOf issue) "low") as [-> | H4];
    [reflexivity|].
  cbn [orb].
  destruct (existsb (String.eqb (priorityOf issue)) inheritedNames) eqn:Ei.
  - exfalso. apply Hplain. apply existsb_exists in Ei.
    destruct Ei as [x [Hx Heq]]. apply String.eqb_eq in Heq. now subst.
  - reflexivity.
Qed.

Lemma pushByPriority_append priorities issue p :
  pushByPriority {| critical := []; high := []; medium := []; low := [] |} issue
  = Returned p ->
  pushByPriority priorities issue
  = Returned {| critical := (critical priorities ++ critical p)%list;
                high := (high priorities ++ high p)%list;
                medium := (medium priorities ++ medium p)%list;
                low := (low priorities ++ low p)%list |}.
Proof.
  unfold pushByPriority.
  repeat match goal with
         | |- context [if ?c then _ else _] => destruct c
         end;
    intro H; inversion H; subst; cbn; rewrite ?app_nil_r; try reflexivity.
Qed.

Lemma pushAllByPriority_filters specificIssues priorities :
  Forall plainPriority specificIssues ->
  pushAllByPriority priorities specificIssues
  = Returned {|
      critical := (critical priorities ++ filter (inBucket "critical") specificIssues)%list;
      high := (high priorities ++ filter (inBucket "high") specificIssues)%list;
      medium := (medium priorities ++ filter (inBucket "medium") specificIssues)%list;
      low := (low priorities ++ filter (inBucket "low") specificIssues)%list |}.
Proof.
  intro Hall. revert priorities.
  induction Hall as [|issue rest Hplain Hrest IH]; intro priorities.
  - cbn. rewrite !app_nil_r. destruct priorities; reflexivity.
  - cbn [pushAllByPriority].
    rewrite (pushByPriority_append priorities issue _ (priorityOf_bucket issue Hplain)).
    cbn [bind]. rewrite IH. cbn [critical high medium low].
    rewrite <- !app_assoc.
    change (issue :: rest) with ([issue] ++ rest)%list. rewrite !filter_app.
    reflexivity.
Qed.

Lemma bucketOf_cases issue :
  bucketOf issue = "critical" \/ bucketOf issue = "high" \/
  bucketOf issue = "medium" \/ bucketOf issue = "low".
Proof.
  unfold bucketOf. cbn [existsb].
  destruct (String.eqb_spec (priorityOf issue) "critical") as [-> | H1]; [now left|].
  destruct (String.eqb_spec (priorityOf issue) "high") as [-> | H2];
    [right; now left|].
  destruct (String.eqb_spec (priorityOf issue) "low") as [-> | H3];
    [right; right; now right|].
  right; right; now left.
Qed.

Lemma filter_bucket_cons name issue rest :
  filter (inBucket name) (issue :: rest)
  = if String.eqb (bucketOf issue) name
    then issue :: filter (inBucket name) rest
    else filter (inBucket name) rest.
Proof. reflexivity. Qed.

Lemma buckets_partition (specificIssues : list SpecificIssue) :
  Permutation
    (filter (inBucket "critical") specificIssues
     ++ filter (inBucket "high") specificIssues
     ++ filter (inBucket "medium") specificIssues
     ++ filter (inBucket "low") specificIssues)
    specificIssues.
Proof.
  induction specificIssues as [|issue rest IH]; [constructor|].
  rewrite !filter_bucket_cons.
  set (A := filter (inBucket "critical") rest) in *.
  set (B := filter (inBucket "high") rest) in *.
  set (C := filter (inBucket "medium") rest) in *.
  set (D := filter (inBucket "low") rest) in *.
  apply Permutation_sym in IH.
  destruct (bucketOf_cases issue) as [-> | [-> | [-> | ->]]];
    cbv [String.eqb Ascii.eqb Bool.eqb]; apply Permutation_sym.
  - apply perm_skip, IH.
  - apply Permutation_cons_app, IH.
  - rewrite (app_assoc A B). apply Permutation_cons_app.
    rewrite <- app_assoc. exact IH.
  - rewrite (app_assoc B C), (app_assoc A). apply Permutation_cons_app.
    rewrite <- !app_assoc. exact IH.
Qed.

(** X30: [calculateImplementationPriority] sorts the issues into four
    lists without losing or repeating one.  When no issue names as its
    priority a property every object inherits, it returns; each list
    holds, in their order, the issues of that priority, an unknown
    priority counting as medium; and the four lists together are a
    rearrangement of the issues. *)
Theorem implementation_priority_partition (specificIssues : list SpecificIssue) :
  Forall plainPriority specificIssues ->
  exists priorities,
    calculateImplementationPriority specificIssues = Returned priorities /\
    critical priorities = filter (inBucket "critical") specificIssues /\
    high priorities = filter (inBucket "high") specificIssues /\
    medium priorities = filter (inBucket "medium") specificIssues /\
    low priorities = filter (inBucket "low") specificIssues /\
    Permutation
      (critical priorities ++ high priorities ++ medium priorities ++ low priorities)
      specificIssues.
Proof.
  intro Hall. unfold calculateImplementationPriority.
  rewrite (pushAllByPriority_filters specificIssues _ Hall).
  eexists. split; [reflexivity|]. cbn [critical high medium low app].
  repeat (split; [reflexivity|]). apply buckets_partition.
Qed.

Lemma implementation_priority_partition_witness :
  exists priorities,
    calculateImplementationPriority
      [ {| issueType := "improvement"; issueSchema := Some "Person";
           issuePriority := Some "high" |};
        {| issueType := "missing"; issueSchema := None; issuePriority := None |};
        {| issueType := "business_specific"; issueSchema := None;
           issuePriority := Some "urgent" |} ]
    = Returned priorities /\
    length (medium priorities) = 1%nat.
Proof.
  set (specificIssues :=
    [ {| issueType := "improvement"; issueSchema := Some "Person";
         issuePriority := Some "high" |};
      {| issueType := "missing"; issueSchema := None; issuePriority := None |};
      {| issueType := "business_specific"; issueSchema := None;
         issuePriority := Some "urgent" |} ]).
  assert (Hall : Forall plainPriority specificIssues).
  { repeat constructor; unfold plainPriority; cbn; intuition discriminate. }
  destruct (implementation_priority_partition specificIssues Hall)
    as [priorities [Hp [_ [_ [Hm _]]]]].
  exists priorities. split; [exact Hp|]. rewrite Hm. reflexivity.
Defined.
End DetailedAnalyzerFacts.
